(** * Academic-records GraphQL backend: pagination, authorization checks,
      CRUD resolvers and analytics, embedded from the TypeScript sources.

    Layout: the first part holds the embedding (one module or section per
    source file); the second part holds the statements proved about it.

    Conventions of the embedding
    - a JavaScript [number] that GraphQL types as [Int] is a [Z];
    - a [DECIMAL(5,2)] score is the exact rational [Q] its text denotes;
      the engine rounds a score to two decimals when it stores it, and an
      average to the scale of its numeric division.  A sum of scores that
      the resolver reads with [parseFloat] is identified with the decimal
      it was read from, which the number prints back as.  What the
      resolvers compute on numbers themselves, and the reading of an
      average of sixteen and more decimals, is binary64 ([Float64]);
    - a GraphQL argument that may be missing is an [optional]: the key is
      absent ([undefined]), explicitly [null], or [given];
    - a table is the list of its rows.  The order in which a query yields
      the rows it selects is the engine's ([unordered]) wherever the query
      fixes none: without an [order] option altogether, and among rows
      that an [order] option ties.  The rows joined to a row by an
      [include] are listed in stored order;
    - a key is a UUID, held as the text the engine prints for it; the
      engine refuses a text that does not read as a UUID ([is_uuid]).
      Text columns hold UTF-8 and have a width.  The [createdAt] and
      [updatedAt] columns maintained by the ORM are left out of the
      rows. *)

From Stdlib Require Import List String Ascii Bool ZArith QArith Lia.
From Stdlib Require Import Permutation Sorted.
From Stdlib Require SpecFloat.
Import ListNotations.

Local Open Scope string_scope.
Local Open Scope Z_scope.

(* ================================================================== *)
(** * Part I. The embedding                                            *)
(* ================================================================== *)

(** ** JavaScript optional values *)

Inductive optional (A : Type) : Type :=
| undefined : optional A
| null : optional A
| given : A -> optional A.

Arguments undefined {A}.
Arguments null {A}.
Arguments given {A} _.

(** [x || d] on an optional number: [undefined], [null] and [0] are falsy. *)
Definition num_or (x : optional Z) (d : Z) : Z :=
  match x with
  | given v => if v =? 0 then d else v
  | _ => d
  end.

(** Truthiness of an optional string: [undefined], [null] and the empty
    string are falsy; a truthy one is handed on. *)
Definition truthy (x : optional string) : option string :=
  match x with
  | given s => if String.eqb s "" then None else Some s
  | _ => None
  end.

(** A default parameter or destructuring default [x = d] replaces
    [undefined] only; [null] stays [null]. *)
Definition with_default {A : Type} (x : optional A) (d : A) : optional A :=
  match x with
  | undefined => given d
  | other => other
  end.

(** ** src/utils/pagination.ts *)

Module Pagination.

Record PaginationArgs : Type := {
  arg_limit : optional Z;
  arg_offset : optional Z
}.

Record PaginatedResult (T : Type) : Type := {
  items : list T;
  totalCount : Z;
  hasMore : bool;
  limit : Z;
  offset : Z
}.

Arguments items {T} _.
Arguments totalCount {T} _.
Arguments hasMore {T} _.
Arguments limit {T} _.
Arguments offset {T} _.

(** The two parameters are typed [number] with defaults 10 and 0, so a
    caller passes a number or leaves the parameter out. *)
Definition paginate {T : Type} (items0 : list T) (totalCount0 : Z)
    (limit0 offset0 : option Z) : PaginatedResult T :=
  let limit1 := match limit0 with Some l => l | None => 10 end in
  let offset1 := match offset0 with Some o => o | None => 0 end in
  {| items := items0;
     totalCount := totalCount0;
     hasMore := offset1 + Z.of_nat (List.length items0) <? totalCount0;
     limit := limit1;
     offset := offset1 |}.

Record PageWindow : Type := {
  win_limit : Z;
  win_offset : Z
}.

Definition getPaginationParams (args : PaginationArgs) : PageWindow :=
  let limit0 := Z.min (num_or (arg_limit args) 10) 100 in
  let offset0 := num_or (arg_offset args) 0 in
  {| win_limit := limit0; win_offset := offset0 |}.

End Pagination.

(** ** Errors, outcomes and the request monad

    A resolver is an [async] function over the shared store: it reads and
    writes tables and either returns or throws.  What it wrote before a
    [throw] stays written (the resolvers open no transaction). *)

Inductive Error : Type :=
| GraphQLError (message code : string)
| SequelizeError (name : string).

(** The extension code the GraphQL server attaches: the error's own code,
    or the server's default for an exception that is not a [GraphQLError]. *)
Definition error_code (e : Error) : string :=
  match e with
  | GraphQLError _ c => c
  | SequelizeError _ => "INTERNAL_SERVER_ERROR"
  end.

Definition error_message (e : Error) : string :=
  match e with
  | GraphQLError m _ => m
  | SequelizeError n => n
  end.

Inductive Outcome (A : Type) : Type :=
| Ok : A -> Outcome A
| Throw : Error -> Outcome A.

Arguments Ok {A} _.
Arguments Throw {A} _.

Definition ID : Type := string.

(** ** The column types of src/models, as the storage engine reads them

    The models declare their keys as [DataTypes.UUID], their texts as
    [STRING(255)], [STRING(50)] and [STRING(2)], and the score as
    [DECIMAL(5, 2)].  The ORM passes values on as they are; it is the
    engine that reads a text as a UUID, measures it against the width of
    its column and rounds a number to the scale of its column. *)

Definition code_of (c : ascii) : Z := Z.of_nat (nat_of_ascii c).

(** [isxdigit]: 0-9, A-F, a-f. *)
Definition isxdigit (c : ascii) : bool :=
  let n := code_of c in
  ((48 <=? n) && (n <=? 57)) || ((65 <=? n) && (n <=? 70))
  || ((97 <=? n) && (n <=? 102)).

(** The loop of the engine's UUID reader: sixteen bytes of two hexadecimal
    digits each; after a byte of odd index (the last one excepted) one
    hyphen may stand.  [i] is the index of the byte to read and [left] the
    number of bytes still to read; what follows the last byte is handed
    back. *)
Fixpoint uuid_bytes (i left : nat) (src : string) : option string :=
  match left with
  | O => Some src
  | S left' =>
      match src with
      | String a (String b rest) =>
          if isxdigit a && isxdigit b
          then uuid_bytes (S i) left'
                 match rest with
                 | String "-" rest' =>
                     if Nat.odd i && (i <? 15)%nat then rest' else rest
                 | _ => rest
                 end
          else None
      | _ => None
      end
  end.

(** The texts the engine reads as a UUID: the sixteen bytes, in braces or
    without, and nothing after them. *)
Definition is_uuid (s : string) : bool :=
  match s with
  | String "{" body =>
      match uuid_bytes 0 16 body with
      | Some "}" => true
      | _ => false
      end
  | _ =>
      match uuid_bytes 0 16 s with
      | Some "" => true
      | _ => false
      end
  end.

Definition is_lower_hex (c : ascii) : bool :=
  let n := code_of c in
  ((48 <=? n) && (n <=? 57)) || ((97 <=? n) && (n <=? 102)).

Definition hyphen_at (n : nat) (s : string) : bool :=
  match String.get n s with
  | Some c => Ascii.eqb c "-"
  | None => false
  end.

(** The one text the engine prints for a UUID, and so the form of every
    stored key: 36 characters, lower-case digits in groups of 8, 4, 4, 4
    and 12.  Two UUIDs in this form are the same exactly when their texts
    are. *)
Definition canonical_uuid (s : string) : bool :=
  is_uuid s
  && (String.length s =? 36)%nat
  && forallb (fun c => is_lower_hex c || Ascii.eqb c "-")
             (list_ascii_of_string s)
  && hyphen_at 8 s && hyphen_at 13 s && hyphen_at 18 s && hyphen_at 23 s.

(** Characters of a UTF-8 text: the bytes that do not continue one. *)
Definition is_continuation (c : ascii) : bool :=
  (128 <=? code_of c) && (code_of c <? 192).

Definition utf8_length (s : string) : nat :=
  List.length (filter (fun c => negb (is_continuation c))
                      (list_ascii_of_string s)).

(** A value on its way into a column.  [old] is the value the row holds
    when the statement is an UPDATE: a field set to the value it has
    already is not part of the statement.

    [VARCHAR(n)]: a text of more than [n] characters is refused.  (The
    engine cuts such a text to the width when all that exceeds it is
    blanks; that one case is refused here as well, and nothing below turns
    on it.) *)
Definition varchar (n : nat) (old : option string) (v : string) : bool :=
  (utf8_length v <=? n)%nat
  || match old with
     | Some o => String.eqb o v
     | None => false
     end.

(** A UUID column: the text has to read as a UUID.  A key that names a
    stored row does; so [present] stands for "is the key of a stored row
    of the table referred to". *)
Definition uuid_column (old : option ID) (v : ID) (present : bool) : bool :=
  present || is_uuid v
  || match old with
     | Some o => String.eqb o v
     | None => false
     end.

(** Rounding to [scale] decimals, halves away from zero. *)
Definition round_at (scale : Z) (q : Q) : Q :=
  let unit := 10 ^ scale in
  let halves :=
    (2 * unit * Z.abs (Qnum q) + Zpos (Qden q)) / (2 * Zpos (Qden q)) in
  Qmake (Z.sgn (Qnum q) * halves) (Z.to_pos unit).

(** [DECIMAL(5, 2)]: rounded to two decimals; three digits are left before
    the point, and a rounded value that needs more is refused. *)
Definition decimal_5_2 (old : option Q) (v : Q) : option Q :=
  if match old with
     | Some o => Qeq_bool o v
     | None => false
     end
  then Some v
  else
    let rounded := round_at 2 v in
    if Qle_bool 1000 rounded || Qle_bool rounded (-1000)
    then None
    else Some rounded.

(** [ENUM("admin", "student")] *)
Definition roles : list string := ["admin"; "student"].

(** ** src/models: the rows of the five tables *)

Record User : Type := {
  user_id : ID;
  user_email : string;
  user_password : string;
  user_role : string
}.

Record Institute : Type := {
  institute_id : ID;
  institute_name : string;
  institute_location : string
}.

Record Student : Type := {
  student_id : ID;
  student_name : string;
  student_email : string;
  student_instituteId : ID;
  student_userId : ID
}.

Record Course : Type := {
  course_id : ID;
  course_title : string;
  course_code : string;
  course_credits : Z
}.

Record Result : Type := {
  result_id : ID;
  result_studentId : ID;
  result_courseId : ID;
  result_score : Q;
  result_grade : string;
  result_year : Z
}.

Inductive Table : Type := Users | Institutes | Students | Courses | Results.

(** One entry per call into the ORM, in the order the calls are made. *)
Inductive Query : Type :=
| Q_findByPk (t : Table) (id : ID)
| Q_findOne (t : Table) (column value : string)
| Q_findAll (t : Table)
| Q_findAndCountAll (t : Table)
| Q_create (t : Table)
| Q_update (t : Table) (id : ID)
| Q_destroy (t : Table) (id : ID).

Record Store : Type := {
  tbl_users : list User;
  tbl_institutes : list Institute;
  tbl_students : list Student;
  tbl_courses : list Course;
  tbl_results : list Result;
  uuid_draws : nat;
  queries : list Query
}.

Definition M (A : Type) : Type := Store -> Outcome A * Store.

Definition ret {A : Type} (a : A) : M A := fun st => (Ok a, st).

Definition throw {A : Type} (e : Error) : M A := fun st => (Throw e, st).

Definition bind {A B : Type} (c : M A) (k : A -> M B) : M B :=
  fun st =>
    match c st with
    | (Ok a, st1) => k a st1
    | (Throw e, st1) => (Throw e, st1)
    end.

Declare Scope request_scope.
Delimit Scope request_scope with request.

Notation "x <- c ;; k" := (bind c (fun x => k))
  (at level 61, c at next level, right associativity) : request_scope.
Notation "c ;; k" := (bind c (fun _ => k))
  (at level 61, right associativity) : request_scope.

Local Open Scope request_scope.

(** [Promise.all(xs.map(async x => ...))]: the lookups are issued in list
    order and the first rejection rejects the whole. *)
Fixpoint mapM {A B : Type} (f : A -> M B) (l : list A) : M (list B) :=
  match l with
  | [] => ret []
  | x :: xs => y <- f x ;; ys <- mapM f xs ;; ret (y :: ys)
  end.

Definition logged (q : Query) (st : Store) : Store :=
  {| tbl_users := tbl_users st; tbl_institutes := tbl_institutes st;
     tbl_students := tbl_students st; tbl_courses := tbl_courses st;
     tbl_results := tbl_results st; uuid_draws := uuid_draws st;
     queries := queries st ++ [q] |}.

Definition record_query (q : Query) : M unit :=
  fun st => (Ok tt, logged q st).

(** ** External collaborators

    Password hashing, token signing, identifier generation, the storage
    engine's pattern operator, the order in which the engine yields rows
    where the query fixes none, and the ORM's e-mail validator are outside
    the repository; the embedding is parametric in them.  Of the engine's
    order nothing is known but that it lists the same rows.  The token
    library stamps a token with the second in which it signs it:
    [jwt_sign] is the signer within one such second, and no statement
    compares the tokens of two requests. *)

Class Collaborators : Type := {
  bcrypt_hash : string -> string;
  bcrypt_compare : string -> string -> bool;
  jwt_sign : ID -> string -> string -> string;
  uuidv4 : nat -> ID;
  iLike : string -> string -> bool;
  isEmail : string -> bool;
  unordered : forall R : Type, list R -> list R;
  unordered_perm : forall (R : Type) (l : list R), Permutation (unordered R l) l
}.

Arguments unordered {_} {R} _.
Arguments unordered_perm {_} {R} _.

(** ** The ORM layer: what the resolvers call on a model class *)

(** [ORDER BY]: a stable insertion sort by the given "comes no later" test. *)
Fixpoint insert_by {A : Type} (leb : A -> A -> bool) (x : A) (l : list A)
    : list A :=
  match l with
  | [] => [x]
  | y :: ys => if leb x y then x :: l else y :: insert_by leb x ys
  end.

Fixpoint sort_by {A : Type} (leb : A -> A -> bool) (l : list A) : list A :=
  match l with
  | [] => []
  | x :: xs => insert_by leb x (sort_by leb xs)
  end.

Section RowOrder.
Context {ext : Collaborators}.

(** The rows of a query in the order they are yielded: sorted when there is
    an [order] option, with ties left as the engine has them. *)
Definition ordered {A : Type} (order : option (A -> A -> bool)) (l : list A)
    : list A :=
  match order with
  | Some leb => sort_by leb (unordered l)
  | None => unordered l
  end.

End RowOrder.

Definition is_negative (n : option Z) : bool :=
  match n with
  | Some z => z <? 0
  | None => false
  end.

(** [OFFSET o LIMIT n]: a clause is emitted only for a value that is neither
    [undefined] nor [null]; the engine rejects a negative one. *)
Definition window {A : Type} (limit offset : option Z) (l : list A)
    : Outcome (list A) :=
  if is_negative limit || is_negative offset
  then Throw (SequelizeError "SequelizeDatabaseError")
  else
    let skipped :=
      match offset with
      | Some o => skipn (Z.to_nat o) l
      | None => l
      end in
    Ok (match limit with
        | Some n => firstn (Z.to_nat n) skipped
        | None => skipped
        end).

(** [null] and [undefined] both mean "no clause". *)
Definition clause {A : Type} (x : optional A) : option A :=
  match x with
  | given a => Some a
  | _ => None
  end.

Record Model (R : Type) : Type := {
  table : Table;
  rows : Store -> list R;
  with_rows : list R -> Store -> Store;
  pk : R -> ID;
  (** the [validate] entries of [Model.init], run before an insert *)
  valid : R -> bool;
  (** the row as the engine takes it into the columns of the table, or
      [None] when a value does not go into its column; the second argument
      is the row that is being updated, when one is *)
  settle : Store -> option R -> R -> option R;
  (** unique and foreign-key constraints of the table, checked by the
      engine against the other rows; the name of the exception raised *)
  violation : Store -> R -> option string;
  (** [onDelete: "CASCADE"] of the tables that reference this one *)
  on_delete : ID -> Store -> Store
}.

Arguments table {R} _.
Arguments rows {R} _ _.
Arguments with_rows {R} _ _ _.
Arguments pk {R} _ _.
Arguments valid {R} _ _.
Arguments settle {R} _ _ _ _.
Arguments violation {R} _ _ _.
Arguments on_delete {R} _ _ _.

Definition read {A : Type} (f : Store -> A) : M A := fun st => (Ok (f st), st).

Definition lift {A : Type} (f : Store -> Outcome A) : M A :=
  fun st => (f st, st).

Definition database_error : Error := SequelizeError "SequelizeDatabaseError".

Definition has_id {R : Type} (get : R -> ID) (id : ID) (l : list R) : bool :=
  existsb (fun x => String.eqb (get x) id) l.

(** [WHERE "id" = '...']: the engine reads the text as a UUID before it
    compares.  A key that is found reads as one; a key that is not found
    is missing when it reads as a UUID and refused when it does not.  Keys
    are compared as texts: a stored key spelled another way than the engine
    prints it (capitals, braces, hyphens left out), which the engine would
    find, counts as missing. *)
Definition lookup_key {R : Type} (get : R -> ID) (id : ID) (l : list R)
    : Outcome (option R) :=
  match find (fun r => String.eqb (get r) id) l with
  | Some r => Ok (Some r)
  | None => if is_uuid id then Ok None else Throw database_error
  end.

Definition findByPk {R : Type} (m : Model R) (id : ID) : M (option R) :=
  record_query (Q_findByPk (table m) id) ;;
  lift (fun st => lookup_key (pk m) id (rows m st)).

Definition findOne {R : Type} (m : Model R) (column : string)
    (get : R -> string) (value : string) : M (option R) :=
  record_query (Q_findOne (table m) column value) ;;
  read (fun st => find (fun r => String.eqb (get r) value) (rows m st)).

Section Selecting.
Context {ext : Collaborators}.

Definition select {R : Type} (m : Model R) (where_ : R -> bool)
    (order : option (R -> R -> bool)) (limit offset : option Z) (st : Store)
    : Outcome (list R) :=
  window limit offset (ordered order (filter where_ (rows m st))).

(** [keys] are the texts that the [where] option compares with the primary
    key; each is read as a UUID, as in [lookup_key]. *)
Definition findAll {R : Type} (m : Model R) (keys : list ID)
    (where_ : R -> bool) (order : option (R -> R -> bool))
    (limit offset : option Z) : M (list R) :=
  record_query (Q_findAll (table m)) ;;
  lift (fun st =>
          if forallb (fun id => has_id (pk m) id (rows m st) || is_uuid id)
                     keys
          then select m where_ order limit offset st
          else Throw database_error).

Definition findAndCountAll {R : Type} (m : Model R) (where_ : R -> bool)
    (order : option (R -> R -> bool)) (limit offset : option Z)
    : M (Z * list R) :=
  record_query (Q_findAndCountAll (table m)) ;;
  lift (fun st =>
          match select m where_ order limit offset st with
          | Ok l =>
              Ok (Z.of_nat (List.length (filter where_ (rows m st))), l)
          | Throw e => Throw e
          end).

End Selecting.

Definition draw_uuid (st : Store) : Store :=
  {| tbl_users := tbl_users st; tbl_institutes := tbl_institutes st;
     tbl_students := tbl_students st; tbl_courses := tbl_courses st;
     tbl_results := tbl_results st; uuid_draws := S (uuid_draws st);
     queries := queries st |}.

Definition replace_row {R : Type} (m : Model R) (id : ID) (r' : R)
    (l : list R) : list R :=
  map (fun x => if String.eqb (pk m x) id then r' else x) l.

Definition remove_row {R : Type} (m : Model R) (id : ID) (l : list R)
    : list R :=
  filter (fun x => negb (String.eqb (pk m x) id)) l.

Section ORM.
Context {ext : Collaborators}.

(** [Model.create(values)]: the primary key defaults to a fresh UUIDv4.
    The values are validated, then inserted; the instance handed back holds
    the row as the engine returns it from the insert. *)
Definition create {R : Type} (m : Model R) (mk : ID -> R) : M R :=
  record_query (Q_create (table m)) ;;
  fun st =>
    let r := mk (uuidv4 (uuid_draws st)) in
    let st1 := draw_uuid st in
    if negb (valid m r)
    then (Throw (SequelizeError "SequelizeValidationError"), st1)
    else
      match settle m st1 None r with
      | None => (Throw database_error, st1)
      | Some stored =>
          if existsb (fun x => String.eqb (pk m x) (pk m stored)) (rows m st1)
          then (Throw (SequelizeError "SequelizeUniqueConstraintError"), st1)
          else
            match violation m st1 stored with
            | Some name => (Throw (SequelizeError name), st1)
            | None => (Ok stored, with_rows m (rows m st1 ++ [stored]) st1)
            end
      end.

End ORM.

(** [instance.update(values)]: [patched] is the instance with the supplied
    fields set, or [None] when a supplied field fails its validator.  The
    instance handed back holds the values as they were supplied; the table
    holds them as the engine took them. *)
Definition update {R : Type} (m : Model R) (r : R) (patched : option R)
    : M R :=
  record_query (Q_update (table m) (pk m r)) ;;
  match patched with
  | None => throw (SequelizeError "SequelizeValidationError")
  | Some r' =>
      fun st =>
        match settle m st (Some r) r' with
        | None => (Throw database_error, st)
        | Some stored =>
            match violation m st stored with
            | Some name => (Throw (SequelizeError name), st)
            | None =>
                (Ok r',
                 with_rows m (replace_row m (pk m r) stored (rows m st)) st)
            end
        end
  end.

(** [instance.destroy()]: the row goes, and the referencing rows with it. *)
Definition destroy {R : Type} (m : Model R) (r : R) : M unit :=
  record_query (Q_destroy (table m) (pk m r)) ;;
  fun st =>
    (Ok tt,
     on_delete m (pk m r) (with_rows m (remove_row m (pk m r) (rows m st)) st)).

(** ** src/models/*.ts and src/models/index.ts: the five model classes *)

Definition set_users (l : list User) (st : Store) : Store :=
  {| tbl_users := l; tbl_institutes := tbl_institutes st; tbl_students := tbl_students st;
     tbl_courses := tbl_courses st; tbl_results := tbl_results st;
     uuid_draws := uuid_draws st; queries := queries st |}.

Definition set_institutes (l : list Institute) (st : Store) : Store :=
  {| tbl_users := tbl_users st; tbl_institutes := l; tbl_students := tbl_students st;
     tbl_courses := tbl_courses st; tbl_results := tbl_results st;
     uuid_draws := uuid_draws st; queries := queries st |}.

Definition set_students (l : list Student) (st : Store) : Store :=
  {| tbl_users := tbl_users st; tbl_institutes := tbl_institutes st; tbl_students := l;
     tbl_courses := tbl_courses st; tbl_results := tbl_results st;
     uuid_draws := uuid_draws st; queries := queries st |}.

Definition set_courses (l : list Course) (st : Store) : Store :=
  {| tbl_users := tbl_users st; tbl_institutes := tbl_institutes st;
     tbl_students := tbl_students st; tbl_courses := l; tbl_results := tbl_results st;
     uuid_draws := uuid_draws st; queries := queries st |}.

Definition set_results (l : list Result) (st : Store) : Store :=
  {| tbl_users := tbl_users st; tbl_institutes := tbl_institutes st;
     tbl_students := tbl_students st; tbl_courses := tbl_courses st; tbl_results := l;
     uuid_draws := uuid_draws st; queries := queries st |}.

(** Deleting students takes their results along
    ([Student.hasMany(Result, onDelete: "CASCADE")]). *)
Definition delete_students_where (gone : Student -> bool) (st : Store)
    : Store :=
  let removed := filter gone (tbl_students st) in
  set_results
    (filter (fun r => negb (has_id student_id (result_studentId r) removed))
            (tbl_results st))
    (set_students (filter (fun s => negb (gone s)) (tbl_students st)) st).

Definition delete_results_where (gone : Result -> bool) (st : Store)
    : Store :=
  set_results (filter (fun r => negb (gone r)) (tbl_results st)) st.

Definition no_cascade (_ : ID) (st : Store) : Store := st.

Definition grades : list string :=
  ["A+"; "A"; "A-"; "B+"; "B"; "B-"; "C+"; "C"; "C-"; "D+"; "D"; "F"].

Definition within (lo hi x : Z) : bool := (lo <=? x) && (x <=? hi).

Definition foreign_key (present : bool) : option string :=
  if present then None else Some "SequelizeForeignKeyConstraintError".

Definition unique_key (taken : bool) : option string :=
  if taken then Some "SequelizeUniqueConstraintError" else None.

Definition first_violation (a b : option string) : option string :=
  match a with
  | Some n => Some n
  | None => b
  end.

Definition when {R : Type} (fits : bool) (r : R) : option R :=
  if fits then Some r else None.

Definition InstituteModel : Model Institute :=
  {| table := Institutes;
     rows := tbl_institutes;
     with_rows := set_institutes;
     pk := institute_id;
     valid := fun _ => true;
     settle := fun _ old i =>
       when (varchar 255 (option_map institute_name old) (institute_name i)
             && varchar 255 (option_map institute_location old)
                  (institute_location i)) i;
     violation := fun _ _ => None;
     on_delete := fun id =>
       delete_students_where
         (fun s => String.eqb (student_instituteId s) id) |}.

Definition CourseModel : Model Course :=
  {| table := Courses;
     rows := tbl_courses;
     with_rows := set_courses;
     pk := course_id;
     valid := fun c => within 1 6 (course_credits c);
     settle := fun _ old c =>
       when (varchar 255 (option_map course_title old) (course_title c)
             && varchar 50 (option_map course_code old) (course_code c)) c;
     violation := fun st c =>
       unique_key
         (existsb (fun c' => String.eqb (course_code c') (course_code c)
                             && negb (String.eqb (course_id c') (course_id c)))
                  (tbl_courses st));
     on_delete := fun id =>
       delete_results_where (fun r => String.eqb (result_courseId r) id) |}.

Definition ResultModel : Model Result :=
  {| table := Results;
     rows := tbl_results;
     with_rows := set_results;
     pk := result_id;
     valid := fun r =>
       Qle_bool 0 (result_score r) && Qle_bool (result_score r) 100
       && existsb (String.eqb (result_grade r)) grades
       && within 2000 2100 (result_year r);
     settle := fun st old r =>
       if uuid_column (option_map result_studentId old) (result_studentId r)
            (has_id student_id (result_studentId r) (tbl_students st))
          && uuid_column (option_map result_courseId old) (result_courseId r)
               (has_id course_id (result_courseId r) (tbl_courses st))
          && varchar 2 (option_map result_grade old) (result_grade r)
       then
         option_map
           (fun score => {| result_id := result_id r;
                            result_studentId := result_studentId r;
                            result_courseId := result_courseId r;
                            result_score := score;
                            result_grade := result_grade r;
                            result_year := result_year r |})
           (decimal_5_2 (option_map result_score old) (result_score r))
       else None;
     violation := fun st r =>
       first_violation
         (foreign_key (has_id student_id (result_studentId r) (tbl_students st)))
         (foreign_key (has_id course_id (result_courseId r) (tbl_courses st)));
     on_delete := no_cascade |}.

Section Models.
Context {ext : Collaborators}.

Definition UserModel : Model User :=
  {| table := Users;
     rows := tbl_users;
     with_rows := set_users;
     pk := user_id;
     valid := fun u => isEmail (user_email u);
     settle := fun _ old u =>
       when (varchar 255 (option_map user_email old) (user_email u)
             && varchar 255 (option_map user_password old) (user_password u)
             && existsb (String.eqb (user_role u)) roles) u;
     violation := fun st u =>
       unique_key
         (existsb (fun u' => String.eqb (user_email u') (user_email u)
                             && negb (String.eqb (user_id u') (user_id u)))
                  (tbl_users st));
     on_delete := fun id =>
       delete_students_where (fun s => String.eqb (student_userId s) id) |}.

Definition StudentModel : Model Student :=
  {| table := Students;
     rows := tbl_students;
     with_rows := set_students;
     pk := student_id;
     valid := fun s => isEmail (student_email s);
     settle := fun st old s =>
       when (varchar 255 (option_map student_name old) (student_name s)
             && varchar 255 (option_map student_email old) (student_email s)
             && uuid_column (option_map student_instituteId old)
                  (student_instituteId s)
                  (has_id institute_id (student_instituteId s)
                     (tbl_institutes st))
             && uuid_column (option_map student_userId old) (student_userId s)
                  (has_id user_id (student_userId s) (tbl_users st))) s;
     violation := fun st s =>
       first_violation
         (foreign_key
            (has_id institute_id (student_instituteId s) (tbl_institutes st)))
         (foreign_key (has_id user_id (student_userId s) (tbl_users st)));
     on_delete := fun id =>
       delete_results_where (fun r => String.eqb (result_studentId r) id) |}.

End Models.

(** A supplied field of a partial update: [undefined] keeps the old value,
    [null] violates [allowNull: false]. *)
Definition patched {A : Type} (x : optional A) (old : A) : option A :=
  match x with
  | undefined => Some old
  | null => None
  | given v => Some v
  end.

(** Eager loading ([include]) joins the related rows into the same query. *)
Definition including {R X : Type} (q : M (option R)) (inc : Store -> R -> X)
    : M (option X) :=
  r <- q ;; read (fun st => option_map (inc st) r).

Definition including_each {R X : Type} (q : M (list R))
    (inc : Store -> R -> X) : M (list X) :=
  l <- q ;; read (fun st => map (inc st) l).

(** ** src/middleware/auth.ts *)

Record Principal : Type := {
  principal_id : ID;
  principal_email : string;
  principal_role : string
}.

Record AuthContext : Type := {
  ctx_user : option Principal
}.

Definition authentication_required : Error :=
  GraphQLError "Authentication required" "UNAUTHENTICATED".

Definition admin_access_required : Error :=
  GraphQLError "Admin access required" "FORBIDDEN".

Definition requireAuth (context : AuthContext) : M unit :=
  match ctx_user context with
  | None => throw authentication_required
  | Some _ => ret tt
  end.

Definition requireAdmin (context : AuthContext) : M unit :=
  requireAuth context ;;
  match ctx_user context with
  | Some u =>
      if negb (String.eqb (principal_role u) "admin")
      then throw admin_access_required
      else ret tt
  | None => ret tt (* not reached: [requireAuth] has thrown *)
  end.

(** ** src/graphql/resolvers/auth.ts *)

Record SignUpInput : Type := {
  su_email : string;
  su_password : string;
  su_name : string;
  su_instituteId : ID
}.

Record SignInInput : Type := {
  si_email : string;
  si_password : string
}.

Record AuthPayload : Type := {
  payload_token : string;
  payload_user : User
}.

Record UserWithStudent : Type := {
  us_user : User;
  us_student : option Student
}.

Definition invalid_credentials : Error :=
  GraphQLError "Invalid credentials" "UNAUTHENTICATED".

Definition not_authenticated : Error :=
  GraphQLError "Not authenticated" "UNAUTHENTICATED".

Definition bad_user_input (message : string) : Error :=
  GraphQLError message "BAD_USER_INPUT".

Definition not_found (message : string) : Error :=
  GraphQLError message "NOT_FOUND".

Section AuthResolvers.
Context {ext : Collaborators}.

Definition student_of_user (st : Store) (u : User) : UserWithStudent :=
  {| us_user := u;
     us_student :=
       find (fun s => String.eqb (student_userId s) (user_id u))
            (tbl_students st) |}.

Definition me (context : AuthContext) : M (option UserWithStudent) :=
  match ctx_user context with
  | None => throw not_authenticated
  | Some u =>
      including (findByPk UserModel (principal_id u)) student_of_user
  end.

Definition issue_token (u : User) : string :=
  jwt_sign (user_id u) (user_email u) (user_role u).

Definition signUp (input : SignUpInput) : M AuthPayload :=
  existingUser <- findOne UserModel "email" user_email (su_email input) ;;
  match existingUser with
  | Some _ => throw (bad_user_input "User with this email already exists")
  | None =>
      institute <- findByPk InstituteModel (su_instituteId input) ;;
      match institute with
      | None => throw (bad_user_input "Institute not found")
      | Some _ =>
          let hashedPassword := bcrypt_hash (su_password input) in
          user0 <- create UserModel
                     (fun id => {| user_id := id;
                                   user_email := su_email input;
                                   user_password := hashedPassword;
                                   user_role := "student" |}) ;;
          create StudentModel
            (fun id => {| student_id := id;
                          student_name := su_name input;
                          student_email := su_email input;
                          student_instituteId := su_instituteId input;
                          student_userId := user_id user0 |}) ;;
          ret {| payload_token := issue_token user0; payload_user := user0 |}
      end
  end.

Definition signIn (input : SignInInput) : M AuthPayload :=
  user0 <- findOne UserModel "email" user_email (si_email input) ;;
  match user0 with
  | None => throw invalid_credentials
  | Some u =>
      let isValidPassword :=
        bcrypt_compare (si_password input) (user_password u) in
      if negb isValidPassword
      then throw invalid_credentials
      else ret {| payload_token := issue_token u; payload_user := u |}
  end.

End AuthResolvers.

(** ** Shared by the list queries *)

Import Pagination.

Record ListArgs : Type := {
  page : PaginationArgs;
  search : optional string
}.

Section ListQueries.
Context {ext : Collaborators}.

(** [where[Op.or] = [{f1: {[Op.iLike]: `%${search}%`}}, {f2: ...}]], built
    only when [search] is truthy. *)
Definition search_where {R : Type} (search0 : optional string)
    (f1 f2 : R -> string) : R -> bool :=
  match truthy search0 with
  | Some s =>
      fun r => iLike ("%" ++ s ++ "%") (f1 r) || iLike ("%" ++ s ++ "%") (f2 r)
  | None => fun _ => true
  end.

End ListQueries.

Definition ascending {R : Type} (f : R -> string) : option (R -> R -> bool) :=
  Some (fun a b => String.leb (f a) (f b)).

(** ** src/graphql/resolvers/institute.ts *)

Record CreateInstituteInput : Type := {
  ci_name : string;
  ci_location : string
}.

Record UpdateInstituteInput : Type := {
  ui_name : optional string;
  ui_location : optional string
}.

Record InstituteWithStudents : Type := {
  iws_institute : Institute;
  iws_students : list Student
}.

Definition students_of_institute (st : Store) (i : Institute)
    : InstituteWithStudents :=
  {| iws_institute := i;
     iws_students :=
       filter (fun s => String.eqb (student_instituteId s) (institute_id i))
              (tbl_students st) |}.

Definition patch_institute (i : Institute) (input : UpdateInstituteInput)
    : option Institute :=
  match patched (ui_name input) (institute_name i),
        patched (ui_location input) (institute_location i) with
  | Some n, Some l =>
      Some {| institute_id := institute_id i;
              institute_name := n;
              institute_location := l |}
  | _, _ => None
  end.

Section InstituteResolvers.
Context {ext : Collaborators}.

Definition institute (id : ID) (context : AuthContext)
    : M InstituteWithStudents :=
  requireAuth context ;;
  found <- including (findByPk InstituteModel id) students_of_institute ;;
  match found with
  | None => throw (not_found "Institute not found")
  | Some i => ret i
  end.

(** The one resolver that takes no context: listing institutes is public. *)
Definition institutes (args : ListArgs) : M (PaginatedResult Institute) :=
  let w := getPaginationParams (page args) in
  let where_ :=
    search_where (search args) institute_name institute_location in
  found <- findAndCountAll InstituteModel where_ (ascending institute_name)
             (Some (win_limit w)) (Some (win_offset w)) ;;
  ret (paginate (snd found) (fst found)
         (Some (win_limit w)) (Some (win_offset w))).

Definition createInstitute (input : CreateInstituteInput)
    (context : AuthContext) : M Institute :=
  requireAuth context ;;
  create InstituteModel
    (fun id => {| institute_id := id;
                  institute_name := ci_name input;
                  institute_location := ci_location input |}).

Definition updateInstitute (id : ID) (input : UpdateInstituteInput)
    (context : AuthContext) : M Institute :=
  requireAuth context ;;
  found <- findByPk InstituteModel id ;;
  match found with
  | None => throw (not_found "Institute not found")
  | Some i => update InstituteModel i (patch_institute i input)
  end.

Definition deleteInstitute (id : ID) (context : AuthContext) : M bool :=
  requireAuth context ;;
  found <- findByPk InstituteModel id ;;
  match found with
  | None => throw (not_found "Institute not found")
  | Some i => destroy InstituteModel i ;; ret true
  end.

End InstituteResolvers.

(** ** src/graphql/resolvers/student.ts *)

Record CreateStudentInput : Type := {
  cs_name : string;
  cs_email : string;
  cs_instituteId : ID;
  cs_userId : ID
}.

Record UpdateStudentInput : Type := {
  ust_name : optional string;
  ust_email : optional string;
  ust_instituteId : optional ID
}.

Record StudentDetail : Type := {
  sd_student : Student;
  sd_institute : option Institute;
  sd_user : option User;
  sd_results : list Result
}.

Record StudentWithInstitute : Type := {
  swi_student : Student;
  swi_institute : option Institute
}.

Definition institute_of_student (st : Store) (s : Student)
    : StudentWithInstitute :=
  {| swi_student := s;
     swi_institute :=
       find (fun i => String.eqb (institute_id i) (student_instituteId s))
            (tbl_institutes st) |}.

Definition student_detail (st : Store) (s : Student) : StudentDetail :=
  {| sd_student := s;
     sd_institute := swi_institute (institute_of_student st s);
     sd_user :=
       find (fun u => String.eqb (user_id u) (student_userId s))
            (tbl_users st);
     sd_results :=
       filter (fun r => String.eqb (result_studentId r) (student_id s))
              (tbl_results st) |}.

Section StudentResolvers.
Context {ext : Collaborators}.

(** [isEmail] is the validator of the [email] column; it runs on an update
    only when the field is supplied. *)
Definition patch_student (s : Student) (input : UpdateStudentInput)
    : option Student :=
  match patched (ust_name input) (student_name s),
        patched (ust_email input) (student_email s),
        patched (ust_instituteId input) (student_instituteId s) with
  | Some n, Some e, Some i =>
      if match ust_email input with
         | given e' => isEmail e'
         | _ => true
         end
      then Some {| student_id := student_id s;
                   student_name := n;
                   student_email := e;
                   student_instituteId := i;
                   student_userId := student_userId s |}
      else None
  | _, _, _ => None
  end.

Definition student (id : ID) (context : AuthContext) : M StudentDetail :=
  requireAuth context ;;
  found <- including (findByPk StudentModel id) student_detail ;;
  match found with
  | None => throw (not_found "Student not found")
  | Some s => ret s
  end.

Definition students (args : ListArgs) (context : AuthContext)
    : M (PaginatedResult StudentWithInstitute) :=
  requireAuth context ;;
  let w := getPaginationParams (page args) in
  let where_ := search_where (search args) student_name student_email in
  found <- findAndCountAll StudentModel where_ (ascending student_name)
             (Some (win_limit w)) (Some (win_offset w)) ;;
  rows0 <- read (fun st => map (institute_of_student st) (snd found)) ;;
  ret (paginate rows0 (fst found) (Some (win_limit w)) (Some (win_offset w))).

Definition createStudent (input : CreateStudentInput)
    (context : AuthContext) : M Student :=
  requireAuth context ;;
  institute0 <- findByPk InstituteModel (cs_instituteId input) ;;
  match institute0 with
  | None => throw (bad_user_input "Institute not found")
  | Some _ =>
      user0 <- findByPk UserModel (cs_userId input) ;;
      match user0 with
      | None => throw (bad_user_input "User not found")
      | Some _ =>
          create StudentModel
            (fun id => {| student_id := id;
                          student_name := cs_name input;
                          student_email := cs_email input;
                          student_instituteId := cs_instituteId input;
                          student_userId := cs_userId input |})
      end
  end.

Definition updateStudent (id : ID) (input : UpdateStudentInput)
    (context : AuthContext) : M Student :=
  requireAuth context ;;
  found <- findByPk StudentModel id ;;
  match found with
  | None => throw (not_found "Student not found")
  | Some s => update StudentModel s (patch_student s input)
  end.

Definition deleteStudent (id : ID) (context : AuthContext) : M bool :=
  requireAuth context ;;
  found <- findByPk StudentModel id ;;
  match found with
  | None => throw (not_found "Student not found")
  | Some s => destroy StudentModel s ;; ret true
  end.

End StudentResolvers.

(** ** src/graphql/resolvers/course.ts *)

Record CreateCourseInput : Type := {
  cc_title : string;
  cc_code : string;
  cc_credits : Z
}.

Record UpdateCourseInput : Type := {
  uc_title : optional string;
  uc_code : optional string;
  uc_credits : optional Z
}.

Record CourseWithResults : Type := {
  cwr_course : Course;
  cwr_results : list Result
}.

Definition results_of_course (st : Store) (c : Course) : CourseWithResults :=
  {| cwr_course := c;
     cwr_results :=
       filter (fun r => String.eqb (result_courseId r) (course_id c))
              (tbl_results st) |}.

(** [credits] carries [validate: { min: 1, max: 6 }]. *)
Definition patch_course (c : Course) (input : UpdateCourseInput)
    : option Course :=
  match patched (uc_title input) (course_title c),
        patched (uc_code input) (course_code c),
        patched (uc_credits input) (course_credits c) with
  | Some t, Some k, Some n =>
      if match uc_credits input with
         | given n' => within 1 6 n'
         | _ => true
         end
      then Some {| course_id := course_id c;
                   course_title := t;
                   course_code := k;
                   course_credits := n |}
      else None
  | _, _, _ => None
  end.

Definition code_taken : Error :=
  bad_user_input "Course with this code already exists".

Section CourseResolvers.
Context {ext : Collaborators}.

Definition course (id : ID) (context : AuthContext) : M CourseWithResults :=
  requireAuth context ;;
  found <- including (findByPk CourseModel id) results_of_course ;;
  match found with
  | None => throw (not_found "Course not found")
  | Some c => ret c
  end.

Definition courses (args : ListArgs) (context : AuthContext)
    : M (PaginatedResult Course) :=
  requireAuth context ;;
  let w := getPaginationParams (page args) in
  let where_ := search_where (search args) course_title course_code in
  found <- findAndCountAll CourseModel where_ (ascending course_code)
             (Some (win_limit w)) (Some (win_offset w)) ;;
  ret (paginate (snd found) (fst found)
         (Some (win_limit w)) (Some (win_offset w))).

Definition createCourse (input : CreateCourseInput) (context : AuthContext)
    : M Course :=
  requireAuth context ;;
  existingCourse <- findOne CourseModel "code" course_code (cc_code input) ;;
  match existingCourse with
  | Some _ => throw code_taken
  | None =>
      create CourseModel
        (fun id => {| course_id := id;
                      course_title := cc_title input;
                      course_code := cc_code input;
                      course_credits := cc_credits input |})
  end.

Definition updateCourse (id : ID) (input : UpdateCourseInput)
    (context : AuthContext) : M Course :=
  requireAuth context ;;
  found <- findByPk CourseModel id ;;
  match found with
  | None => throw (not_found "Course not found")
  | Some c =>
      (* if (input.code && input.code !== course.code) *)
      match uc_code input with
      | given k =>
          if negb (String.eqb k "") && negb (String.eqb k (course_code c))
          then
            existingCourse <- findOne CourseModel "code" course_code k ;;
            match existingCourse with
            | Some _ => throw code_taken
            | None => ret tt
            end
          else ret tt
      | _ => ret tt
      end ;;
      update CourseModel c (patch_course c input)
  end.

Definition deleteCourse (id : ID) (context : AuthContext) : M bool :=
  requireAuth context ;;
  found <- findByPk CourseModel id ;;
  match found with
  | None => throw (not_found "Course not found")
  | Some c => destroy CourseModel c ;; ret true
  end.

End CourseResolvers.

(** ** src/graphql/resolvers/result.ts *)

Record ResultListArgs : Type := {
  rl_page : PaginationArgs;
  rl_search : optional string;
  rl_year : optional Z
}.

Record CreateResultInput : Type := {
  cr_studentId : ID;
  cr_courseId : ID;
  cr_score : Q;
  cr_grade : string;
  cr_year : Z
}.

Record UpdateResultInput : Type := {
  ur_score : optional Q;
  ur_grade : optional string;
  ur_year : optional Z
}.

Record ResultDetail : Type := {
  rd_result : Result;
  rd_student : option Student;
  rd_course : option Course
}.

Definition result_detail (st : Store) (r : Result) : ResultDetail :=
  {| rd_result := r;
     rd_student :=
       find (fun s => String.eqb (student_id s) (result_studentId r))
            (tbl_students st);
     rd_course :=
       find (fun c => String.eqb (course_id c) (result_courseId r))
            (tbl_courses st) |}.

Definition supplied_ok {A : Type} (x : optional A) (check : A -> bool)
    : bool :=
  match x with
  | given v => check v
  | _ => true
  end.

Definition patch_result (r : Result) (input : UpdateResultInput)
    : option Result :=
  match patched (ur_score input) (result_score r),
        patched (ur_grade input) (result_grade r),
        patched (ur_year input) (result_year r) with
  | Some s, Some g, Some y =>
      if supplied_ok (ur_score input)
           (fun s' => Qle_bool 0 s' && Qle_bool s' 100)
         && supplied_ok (ur_grade input)
              (fun g' => existsb (String.eqb g') grades)
         && supplied_ok (ur_year input) (within 2000 2100)
      then Some {| result_id := result_id r;
                   result_studentId := result_studentId r;
                   result_courseId := result_courseId r;
                   result_score := s;
                   result_grade := g;
                   result_year := y |}
      else None
  | _, _, _ => None
  end.

(** [if (year) where.year = year]: a missing year and the year 0 select
    every row. *)
Definition year_where (year : optional Z) : Result -> bool :=
  match year with
  | given y => if y =? 0 then fun _ => true else fun r => result_year r =? y
  | _ => fun _ => true
  end.

(** [order: [["year", "DESC"], ["score", "DESC"]]] *)
Definition newest_best_first : option (Result -> Result -> bool) :=
  Some (fun a b =>
          (result_year b <? result_year a)
          || ((result_year a =? result_year b)
              && Qle_bool (result_score b) (result_score a))).

Section ResultResolvers.
Context {ext : Collaborators}.

Definition result (id : ID) (context : AuthContext) : M ResultDetail :=
  requireAuth context ;;
  found <- including (findByPk ResultModel id) result_detail ;;
  match found with
  | None => throw (not_found "Result not found")
  | Some r => ret r
  end.

Definition results (args : ResultListArgs) (context : AuthContext)
    : M (PaginatedResult ResultDetail) :=
  requireAuth context ;;
  let w := getPaginationParams (rl_page args) in
  found <- findAndCountAll ResultModel (year_where (rl_year args))
             newest_best_first (Some (win_limit w)) (Some (win_offset w)) ;;
  rows0 <- read (fun st => map (result_detail st) (snd found)) ;;
  ret (paginate rows0 (fst found) (Some (win_limit w)) (Some (win_offset w))).

Definition createResult (input : CreateResultInput) (context : AuthContext)
    : M Result :=
  requireAuth context ;;
  student0 <- findByPk StudentModel (cr_studentId input) ;;
  match student0 with
  | None => throw (bad_user_input "Student not found")
  | Some _ =>
      course0 <- findByPk CourseModel (cr_courseId input) ;;
      match course0 with
      | None => throw (bad_user_input "Course not found")
      | Some _ =>
          create ResultModel
            (fun id => {| result_id := id;
                          result_studentId := cr_studentId input;
                          result_courseId := cr_courseId input;
                          result_score := cr_score input;
                          result_grade := cr_grade input;
                          result_year := cr_year input |})
      end
  end.

Definition updateResult (id : ID) (input : UpdateResultInput)
    (context : AuthContext) : M Result :=
  requireAuth context ;;
  found <- findByPk ResultModel id ;;
  match found with
  | None => throw (not_found "Result not found")
  | Some r => update ResultModel r (patch_result r input)
  end.

Definition deleteResult (id : ID) (context : AuthContext) : M bool :=
  requireAuth context ;;
  found <- findByPk ResultModel id ;;
  match found with
  | None => throw (not_found "Result not found")
  | Some r => destroy ResultModel r ;; ret true
  end.

End ResultResolvers.

(** ** Numbers of the analytics resolvers

    A JavaScript number is a binary64 float.  [parseFloat] reads a decimal
    text as the float nearest to the value it denotes, and [+] and [/]
    round their exact result to the nearest float, ties to even. *)

Module Float64.
Import SpecFloat.

Definition double : Type := spec_float.

(** The float nearest to [n / d]. *)
Definition of_fraction (n : Z) (d : positive) : double :=
  match n with
  | Z0 => S754_zero false
  | Zpos m => SFdiv 53 1024 (S754_finite false m 0) (S754_finite false d 0)
  | Zneg m => SFdiv 53 1024 (S754_finite true m 0) (S754_finite false d 0)
  end.

(** An integer as a number. *)
Definition Number (z : Z) : double := of_fraction z 1.

Definition parseFloat (q : Q) : double := of_fraction (Qnum q) (Qden q).

Definition add : double -> double -> double := SFadd 53 1024.

Definition div : double -> double -> double := SFdiv 53 1024.

(** The rational a finite float stands for. *)
Definition value (x : double) : option Q :=
  match x with
  | S754_zero _ => Some 0%Q
  | S754_finite s m e =>
      let n := if s then Zneg m else Zpos m in
      Some match e with
           | Z0 => inject_Z n
           | Zpos p => inject_Z (n * 2 ^ Zpos p)
           | Zneg p => Qmake n (2 ^ p)%positive
           end
  | _ => None
  end.

End Float64.

Import Float64.

(** ** src/graphql/resolvers/analytics.ts *)

Record ResultWithCourse : Type := {
  rwc_result : Result;
  rwc_course : option Course
}.

Record StudentWithResults : Type := {
  swr_student : Student;
  swr_results : list ResultWithCourse
}.

Record InstituteTree : Type := {
  it_institute : Institute;
  it_students : list StudentWithResults
}.

(** The nested [include]: students of the institute, results of each
    student, the course of each result. *)
Definition course_of_result (st : Store) (r : Result) : ResultWithCourse :=
  {| rwc_result := r;
     rwc_course :=
       find (fun c => String.eqb (course_id c) (result_courseId r))
            (tbl_courses st) |}.

Definition results_of_student (st : Store) (s : Student)
    : StudentWithResults :=
  {| swr_student := s;
     swr_results :=
       map (course_of_result st)
         (filter (fun r => String.eqb (result_studentId r) (student_id s))
                 (tbl_results st)) |}.

Definition institute_tree (st : Store) (i : Institute) : InstituteTree :=
  {| it_institute := i;
     it_students :=
       map (results_of_student st)
         (filter (fun s => String.eqb (student_instituteId s) (institute_id i))
                 (tbl_students st)) |}.

Record InstituteRef : Type := {
  ref_id : ID;
  ref_name : string;
  ref_location : string
}.

Record StudentRef : Type := {
  sref_id : ID;
  sref_name : string;
  sref_email : string;
  sref_institute : InstituteRef
}.

(** [{ ...result, student: {...} }] *)
Record FlatResult : Type := {
  flat_result : ResultWithCourse;
  flat_student : StudentRef
}.

Record InstituteResults : Type := {
  ir_institute : InstituteRef;
  ir_results : list FlatResult;
  ir_averageScore : double;
  ir_totalStudents : Z
}.

Definition institute_ref (i : Institute) : InstituteRef :=
  {| ref_id := institute_id i;
     ref_name := institute_name i;
     ref_location := institute_location i |}.

(** The body of the inner [forEach]: push the annotated result and add its
    score, read by [parseFloat], to the running total. *)
Definition push_result (instituteData : InstituteTree)
    (student0 : StudentWithResults) (acc : list FlatResult * double)
    (result0 : ResultWithCourse) : list FlatResult * double :=
  ((fst acc ++
     [{| flat_result := result0;
         flat_student :=
           {| sref_id := student_id (swr_student student0);
              sref_name := student_name (swr_student student0);
              sref_email := student_email (swr_student student0);
              sref_institute := institute_ref (it_institute instituteData) |}
      |}])%list,
   add (snd acc) (parseFloat (result_score (rwc_result result0)))).

(** The two nested [forEach] loops over [allResults] and [totalScore]. *)
Definition aggregate (instituteData : InstituteTree)
    : list FlatResult * double :=
  fold_left
    (fun acc student0 =>
       fold_left (push_result instituteData student0)
                 (swr_results student0) acc)
    (it_students instituteData) ([], Number 0).

Definition count_of {A : Type} (l : list A) : Z := Z.of_nat (List.length l).

(** The callback of [institutes.map]. *)
Definition rollup (instituteData : InstituteTree) : InstituteResults :=
  let allResults := fst (aggregate instituteData) in
  let totalScore := snd (aggregate instituteData) in
  {| ir_institute := institute_ref (it_institute instituteData);
     ir_results := allResults;
     ir_averageScore :=
       if 0 <? count_of allResults
       then div totalScore (Number (count_of allResults))
       else Number 0;
     ir_totalStudents := count_of (it_students instituteData) |}.

(** [GROUP BY]: one group per distinct key, in order of first appearance.
    The [include] with [attributes: []] joins each result to the one row
    its foreign key names, so grouping by the pair (foreign key, joined
    primary key) is grouping by the foreign key. *)
Fixpoint distinct (keys : list string) : list string :=
  match keys with
  | [] => []
  | k :: ks => k :: filter (fun k' => negb (String.eqb k k')) (distinct ks)
  end.

Definition group_by {R : Type} (key : R -> string) (l : list R)
    : list (string * list R) :=
  map (fun k => (k, filter (fun r => String.eqb (key r) k) l))
      (distinct (map key l)).

Definition Qsum (l : list Q) : Q := fold_right Qplus 0%Q l.

(** The engine's numeric division picks the scale of its result by the
    weights of the operands: the position of the first non-zero digit in
    base 10000, and that digit ([0] and [0] for zero). *)
Fixpoint weigh (fuel : nat) (n d w : Z) : Z * Z :=
  match fuel with
  | O => (w, n / d)
  | S fuel' =>
      if n <? d then weigh fuel' (n * 10000) d (w - 1)
      else if 10000 * d <=? n then weigh fuel' n (d * 10000) (w + 1)
      else (w, n / d)
  end.

Definition weight_and_digit (q : Q) : Z * Z :=
  if Qnum q =? 0 then (0, 0)
  else weigh (Z.to_nat (Z.log2 (Z.abs (Qnum q)) + Z.log2 (Zpos (Qden q)) + 2))
             (Z.abs (Qnum q)) (Zpos (Qden q)) 0.

(** At least sixteen significant digits, and no fewer decimals than either
    operand displays. *)
Definition select_div_scale (dscale1 dscale2 : Z) (var1 var2 : Q) : Z :=
  let (weight1, firstdigit1) := weight_and_digit var1 in
  let (weight2, firstdigit2) := weight_and_digit var2 in
  let qweight :=
    if firstdigit1 <=? firstdigit2
    then weight1 - weight2 - 1
    else weight1 - weight2 in
  Z.min (Z.max (Z.max (Z.max (16 - qweight * 4) dscale1) dscale2) 0) 1000.

(** [AVG] over a [DECIMAL(5, 2)] column: the sum, of scale 2, divided by
    the count and rounded at the scale of the division. *)
Definition numeric_avg (l : list Q) : Q :=
  let sumX := Qsum l in
  let N := inject_Z (Z.of_nat (List.length l)) in
  round_at (select_div_scale 2 0 sumX N) (sumX / N).

Record CourseCount : Type := {
  agg_courseId : ID;
  agg_enrollmentCount : Z
}.

Record StudentScore : Type := {
  agg_studentId : ID;
  agg_totalScore : Q;
  agg_averageScore : Q;
  agg_resultCount : Z
}.

Definition course_count (g : string * list Result) : CourseCount :=
  {| agg_courseId := fst g; agg_enrollmentCount := count_of (snd g) |}.

Definition student_score (g : string * list Result) : StudentScore :=
  {| agg_studentId := fst g;
     agg_totalScore := Qsum (map result_score (snd g));
     agg_averageScore := numeric_avg (map result_score (snd g));
     agg_resultCount := count_of (snd g) |}.

(** ["enrollmentCount" DESC] and ["totalScore" DESC]: [a] comes no later
    than [b]. *)
Definition by_enrollment (a b : CourseCount) : bool :=
  agg_enrollmentCount b <=? agg_enrollmentCount a.

Definition by_total_score (a b : StudentScore) : bool :=
  Qle_bool (agg_totalScore b) (agg_totalScore a).

Section Aggregates.
Context {ext : Collaborators}.

(** [where: { year }, group: courseId, order: "enrollmentCount" DESC, limit] *)
Definition enrollment_counts (year : Z) (limit0 : option Z) (st : Store)
    : Outcome (list CourseCount) :=
  window limit0 None
    (ordered (Some by_enrollment)
       (map course_count
          (group_by result_courseId
             (filter (fun r => result_year r =? year) (tbl_results st))))).

(** [group: studentId, order: "totalScore" DESC, limit] *)
Definition student_scores (limit0 : option Z) (st : Store)
    : Outcome (list StudentScore) :=
  window limit0 None
    (ordered (Some by_total_score)
       (map student_score (group_by result_studentId (tbl_results st)))).

End Aggregates.

Record TopCourse : Type := {
  tc_course : option Course;
  tc_enrollmentCount : Z;
  tc_year : Z
}.

(** [totalScore] is read by [parseFloat] from the text of a sum of scores,
    a decimal of two places; a number read from a decimal of at most
    fifteen significant digits is written back as that same decimal, and
    the record holds the decimal.  [averageScore] is read from a text of
    sixteen places and more, and is kept as the number read. *)
Record TopStudent : Type := {
  ts_student : option StudentWithInstitute;
  ts_totalScore : Q;
  ts_averageScore : double;
  ts_resultCount : Z
}.

Section AnalyticsResolvers.
Context {ext : Collaborators}.

Definition allData (context : AuthContext) : M (list InstituteTree) :=
  requireAuth context ;;
  including_each
    (findAll InstituteModel [] (fun _ => true) (ascending institute_name)
       None None)
    institute_tree.

Definition resultsPerInstitute (instituteId : optional ID)
    (context : AuthContext) : M (list InstituteResults) :=
  requireAuth context ;;
  (* instituteId ? { id: instituteId } : {} *)
  let keys : list ID :=
    match truthy instituteId with
    | Some id => [id]
    | None => []
    end in
  let whereClause : Institute -> bool :=
    match truthy instituteId with
    | Some id => fun i => String.eqb (institute_id i) id
    | None => fun _ => true
    end in
  (* limit: instituteId ? undefined : 10; no [order] option *)
  let limit0 : option Z :=
    match truthy instituteId with
    | Some _ => None
    | None => Some 10
    end in
  institutes0 <-
    including_each (findAll InstituteModel keys whereClause None limit0 None)
                   institute_tree ;;
  ret (map rollup institutes0).

Definition topCourses (year : Z) (limit0 : optional Z)
    (context : AuthContext) : M (list TopCourse) :=
  requireAuth context ;;
  record_query (Q_findAll Results) ;;
  results0 <- lift (enrollment_counts year (clause (with_default limit0 10))) ;;
  mapM (fun result0 =>
          course0 <- findByPk CourseModel (agg_courseId result0) ;;
          ret {| tc_course := course0;
                 tc_enrollmentCount := agg_enrollmentCount result0;
                 tc_year := year |})
       results0.

Definition topStudents (limit0 : optional Z) (context : AuthContext)
    : M (list TopStudent) :=
  requireAuth context ;;
  record_query (Q_findAll Results) ;;
  results0 <- lift (student_scores (clause (with_default limit0 10))) ;;
  mapM (fun result0 =>
          student0 <- including
                        (findByPk StudentModel (agg_studentId result0))
                        institute_of_student ;;
          ret {| ts_student := student0;
                 ts_totalScore := agg_totalScore result0;
                 ts_averageScore := parseFloat (agg_averageScore result0);
                 ts_resultCount := agg_resultCount result0 |})
       results0.

End AnalyticsResolvers.

(** ** src/graphql/resolvers/index.ts: the merged resolver map *)

Inductive Operation : Type :=
| Query_me
| Query_institute (id : ID)
| Query_institutes (args : ListArgs)
| Query_student (id : ID)
| Query_students (args : ListArgs)
| Query_course (id : ID)
| Query_courses (args : ListArgs)
| Query_result (id : ID)
| Query_results (args : ResultListArgs)
| Query_allData
| Query_resultsPerInstitute (instituteId : optional ID)
| Query_topCourses (year : Z) (limit0 : optional Z)
| Query_topStudents (limit0 : optional Z)
| Mutation_signUp (input : SignUpInput)
| Mutation_signIn (input : SignInInput)
| Mutation_createInstitute (input : CreateInstituteInput)
| Mutation_updateInstitute (id : ID) (input : UpdateInstituteInput)
| Mutation_deleteInstitute (id : ID)
| Mutation_createStudent (input : CreateStudentInput)
| Mutation_updateStudent (id : ID) (input : UpdateStudentInput)
| Mutation_deleteStudent (id : ID)
| Mutation_createCourse (input : CreateCourseInput)
| Mutation_updateCourse (id : ID) (input : UpdateCourseInput)
| Mutation_deleteCourse (id : ID)
| Mutation_createResult (input : CreateResultInput)
| Mutation_updateResult (id : ID) (input : UpdateResultInput)
| Mutation_deleteResult (id : ID).

Inductive Value : Type :=
| V_me (v : option UserWithStudent)
| V_auth (v : AuthPayload)
| V_institute (v : InstituteWithStudents)
| V_institutes (v : PaginatedResult Institute)
| V_institute_row (v : Institute)
| V_student (v : StudentDetail)
| V_students (v : PaginatedResult StudentWithInstitute)
| V_student_row (v : Student)
| V_course (v : CourseWithResults)
| V_courses (v : PaginatedResult Course)
| V_course_row (v : Course)
| V_result (v : ResultDetail)
| V_results (v : PaginatedResult ResultDetail)
| V_result_row (v : Result)
| V_allData (v : list InstituteTree)
| V_resultsPerInstitute (v : list InstituteResults)
| V_topCourses (v : list TopCourse)
| V_topStudents (v : list TopStudent)
| V_deleted (v : bool).

Definition returning {A : Type} (wrap : A -> Value) (c : M A) : M Value :=
  a <- c ;; ret (wrap a).

Section Resolvers.
Context {ext : Collaborators}.

Definition resolve (op : Operation) (context : AuthContext) : M Value :=
  match op with
  | Query_me => returning V_me (me context)
  | Query_institute id => returning V_institute (institute id context)
  | Query_institutes args => returning V_institutes (institutes args)
  | Query_student id => returning V_student (student id context)
  | Query_students args => returning V_students (students args context)
  | Query_course id => returning V_course (course id context)
  | Query_courses args => returning V_courses (courses args context)
  | Query_result id => returning V_result (result id context)
  | Query_results args => returning V_results (results args context)
  | Query_allData => returning V_allData (allData context)
  | Query_resultsPerInstitute instituteId =>
      returning V_resultsPerInstitute (resultsPerInstitute instituteId context)
  | Query_topCourses year limit0 =>
      returning V_topCourses (topCourses year limit0 context)
  | Query_topStudents limit0 =>
      returning V_topStudents (topStudents limit0 context)
  | Mutation_signUp input => returning V_auth (signUp input)
  | Mutation_signIn input => returning V_auth (signIn input)
  | Mutation_createInstitute input =>
      returning V_institute_row (createInstitute input context)
  | Mutation_updateInstitute id input =>
      returning V_institute_row (updateInstitute id input context)
  | Mutation_deleteInstitute id =>
      returning V_deleted (deleteInstitute id context)
  | Mutation_createStudent input =>
      returning V_student_row (createStudent input context)
  | Mutation_updateStudent id input =>
      returning V_student_row (updateStudent id input context)
  | Mutation_deleteStudent id =>
      returning V_deleted (deleteStudent id context)
  | Mutation_createCourse input =>
      returning V_course_row (createCourse input context)
  | Mutation_updateCourse id input =>
      returning V_course_row (updateCourse id input context)
  | Mutation_deleteCourse id => returning V_deleted (deleteCourse id context)
  | Mutation_createResult input =>
      returning V_result_row (createResult input context)
  | Mutation_updateResult id input =>
      returning V_result_row (updateResult id input context)
  | Mutation_deleteResult id => returning V_deleted (deleteResult id context)
  end.

End Resolvers.

(** ** Concrete collaborators and sample data

    Simple stand-ins for the external libraries, and the small inputs on
    which the statements of Part II are exercised. *)

(** [n] in [width] lower-case hexadecimal digits. *)
Fixpoint hex (width : nat) (n : Z) : string :=
  match width with
  | O => ""
  | S width' =>
      hex width' (n / 16)
      ++ String (nth (Z.to_nat (n mod 16))
                     (list_ascii_of_string "0123456789abcdef") "0"%char) ""
  end.

(** The key number [n] of the table number [kind], in the form the engine
    prints. *)
Definition key (kind n : Z) : ID :=
  hex 8 kind ++ "-0000-4000-8000-" ++ hex 12 n.

(** An engine that yields rows in stored order. *)
Definition plain : Collaborators :=
  {| bcrypt_hash := fun password => "hash:" ++ password;
     bcrypt_compare := fun password hash =>
       String.eqb ("hash:" ++ password) hash;
     jwt_sign := fun id email role => id ++ "." ++ email ++ "." ++ role;
     uuidv4 := fun n => key 0 (Z.of_nat n);
     iLike := fun _ _ => true;
     isEmail := fun _ => true;
     unordered := fun _ l => l;
     unordered_perm := fun _ l => Permutation_refl l |}.

(** An engine that yields the rows stored last first. *)
Definition latest_first : Collaborators :=
  {| bcrypt_hash := bcrypt_hash (Collaborators := plain);
     bcrypt_compare := bcrypt_compare (Collaborators := plain);
     jwt_sign := jwt_sign (Collaborators := plain);
     uuidv4 := uuidv4 (Collaborators := plain);
     iLike := iLike (Collaborators := plain);
     isEmail := isEmail (Collaborators := plain);
     unordered := fun _ l => rev l;
     unordered_perm := fun _ l => Permutation_sym (Permutation_rev l) |}.

Definition empty_store : Store :=
  {| tbl_users := []; tbl_institutes := []; tbl_students := [];
     tbl_courses := []; tbl_results := []; uuid_draws := O; queries := [] |}.

Definition anonymous : AuthContext := {| ctx_user := None |}.

Definition signed_in (id email role : string) : AuthContext :=
  {| ctx_user := Some {| principal_id := id;
                         principal_email := email;
                         principal_role := role |} |}.

Definition a_student : AuthContext :=
  signed_in (key 2 1) "ada@uni.edu" "student".

(** A negative limit and a negative offset. *)
Definition negative_page : PaginationArgs :=
  {| arg_limit := given (-5); arg_offset := given (-3) |}.

Definition mkUser (id email password role : string) : User :=
  {| user_id := id; user_email := email;
     user_password := password; user_role := role |}.

Definition mkStudent (id name email instituteId userId : string) : Student :=
  {| student_id := id; student_name := name; student_email := email;
     student_instituteId := instituteId; student_userId := userId |}.

Definition mkResult (id studentId courseId : string) (score : Q)
    (grade : string) (year : Z) : Result :=
  {| result_id := id; result_studentId := studentId;
     result_courseId := courseId; result_score := score;
     result_grade := grade; result_year := year |}.

(** A small campus: two institutes, three students with one account each,
    three courses, and the results 90 and 80 of student 1, 100 of student 2
    and 50 of student 3.  Keys are in the form the engine prints: table 1
    holds the institutes, 2 the users, 3 the students, 4 the courses and 5
    the results. *)
Definition campus : Store :=
  {| tbl_users :=
       [mkUser (key 2 0) "root@uni.edu" "hash:admin" "admin";
        mkUser (key 2 1) "ada@uni.edu" "hash:secret" "student";
        mkUser (key 2 2) "bob@uni.edu" "hash:hunter2" "student";
        mkUser (key 2 3) "cy@uni.edu" "hash:pass" "student"];
     tbl_institutes :=
       [{| institute_id := key 1 1; institute_name := "North Institute";
           institute_location := "Dhaka" |};
        {| institute_id := key 1 2; institute_name := "Bay College";
           institute_location := "Khulna" |}];
     tbl_students :=
       [mkStudent (key 3 1) "Ada" "ada@uni.edu" (key 1 1) (key 2 1);
        mkStudent (key 3 2) "Bob" "bob@uni.edu" (key 1 1) (key 2 2);
        mkStudent (key 3 3) "Cy" "cy@uni.edu" (key 1 2) (key 2 3)];
     tbl_courses :=
       [{| course_id := key 4 1; course_title := "Algorithms";
           course_code := "CS101"; course_credits := 3 |};
        {| course_id := key 4 2; course_title := "Databases";
           course_code := "CS102"; course_credits := 4 |};
        {| course_id := key 4 3; course_title := "Logic";
           course_code := "CS103"; course_credits := 3 |}];
     tbl_results :=
       [mkResult (key 5 1) (key 3 1) (key 4 1) 90 "A" 2023;
        mkResult (key 5 2) (key 3 2) (key 4 1) 100 "A+" 2024;
        mkResult (key 5 3) (key 3 1) (key 4 2) 80 "A-" 2024;
        mkResult (key 5 4) (key 3 3) (key 4 1) 50 "D" 2024];
     uuid_draws := O;
     queries := [] |}.

(** The campus with other results in place of its own. *)
Definition with_results (l : list Result) : Store :=
  set_results l campus.

(** Enrolments under such keys: course 1 has 5 and course 2 has 5 in 2024,
    course 3 has 2 in 2024 and 4 more in 2023. *)
Definition enrolled_from (first : Z) (course year : Z) (n : nat)
    : list Result :=
  map (fun k => mkResult (key 5 (first + Z.of_nat k)) (key 3 1) (key 4 course)
                  75 "B" year)
      (seq 0 n).

Definition enrolment_book : Store :=
  with_results
    (enrolled_from 1 1 2024 5 ++ enrolled_from 6 3 2023 4
     ++ enrolled_from 10 2 2024 5 ++ enrolled_from 15 3 2024 2)%list.

(** Three small scores of one student: 0.10, 0.20 and 0.30. *)
Definition dimes : Store :=
  with_results
    [mkResult (key 5 1) (key 3 1) (key 4 1) 0.10 "F" 2024;
     mkResult (key 5 2) (key 3 1) (key 4 2) 0.20 "F" 2024;
     mkResult (key 5 3) (key 3 1) (key 4 3) 0.30 "F" 2024].

(** Three scores of one student whose mean has no end in decimals: 100,
    100 and 50. *)
Definition thirds : Store :=
  with_results
    [mkResult (key 5 1) (key 3 1) (key 4 1) 100 "A+" 2024;
     mkResult (key 5 2) (key 3 1) (key 4 2) 100 "A+" 2024;
     mkResult (key 5 3) (key 3 1) (key 4 3) 50 "D" 2024].


(** Eleven institutes stored in an order that is not the order of their
    names: the last row carries the smallest name. *)
Definition hall (n : Z) (name : string) : Institute :=
  {| institute_id := key 1 n; institute_name := name;
     institute_location := "Dhaka" |}.

Definition eleven_institutes : Store :=
  {| tbl_users := [];
     tbl_institutes :=
       [hall 1 "Hall 01"; hall 2 "Hall 02"; hall 3 "Hall 03";
        hall 4 "Hall 04"; hall 5 "Hall 05"; hall 6 "Hall 06";
        hall 7 "Hall 07"; hall 8 "Hall 08"; hall 9 "Hall 09";
        hall 10 "Hall 10"; hall 11 "Academy"];
     tbl_students := []; tbl_courses := []; tbl_results := [];
     uuid_draws := O; queries := [] |}.

(** "The first 10 institutes ordered by name", as the specification words
    the selection made when no institute id is given. *)
Definition first_ten_by_name (st : Store) : list Institute :=
  firstn 10
    (sort_by (fun a b => String.leb (institute_name a) (institute_name b))
       (tbl_institutes st)).

(** ** Vocabulary of the statements *)

(** The same principal under another role claim. *)
Definition with_role (p : Principal) (role : string) : Principal :=
  {| principal_id := principal_id p;
     principal_email := principal_email p;
     principal_role := role |}.

(** The errors by which a request is stopped at authorization: Forbidden,
    or one of the two "no principal" errors. *)
Definition authorization_error (e : Error) : Prop :=
  error_code e = "FORBIDDEN"
  \/ e = authentication_required
  \/ e = not_authenticated.

(** Every error the computation can raise, from any store, satisfies [P]. *)
Definition raises_only {A : Type} (P : Error -> Prop) (c : M A) : Prop :=
  forall st e, fst (c st) = Throw e -> P e.

(** The students of an institute and the results of a student, as the
    foreign keys relate them. *)
Definition students_in (st : Store) (i : Institute) : list Student :=
  filter (fun s => String.eqb (student_instituteId s) (institute_id i))
         (tbl_students st).

Definition results_by (st : Store) (s : Student) : list Result :=
  filter (fun r => String.eqb (result_studentId r) (student_id s))
         (tbl_results st).

(** The scores of all results of an institute, flattened across its
    students. *)
Definition scores_of_institute (st : Store) (i : Institute) : list Q :=
  flat_map (fun s => map result_score (results_by st s)) (students_in st i).

(** The score a flattened result carries. *)
Definition flat_score (f : FlatResult) : Q :=
  result_score (rwc_result (flat_result f)).

(** The arithmetic mean, 0 for no values. *)
Definition mean (l : list Q) : Q :=
  match l with
  | [] => 0%Q
  | _ => (Qsum l / inject_Z (Z.of_nat (List.length l)))%Q
  end.

(** The mean as a loop over numbers computes it: the scores are read
    and added from left to right, and the sum is divided by their number;
    0 for no scores. *)
Definition float_mean (l : list Q) : double :=
  match l with
  | [] => Number 0
  | _ =>
      div (fold_left add (map parseFloat l) (Number 0))
          (Number (Z.of_nat (List.length l)))
  end.

(** The number of results of a course in a year. *)
Definition enrollment (st : Store) (year : Z) (courseId : ID) : Z :=
  count_of (filter (fun r => (result_year r =? year)
                             && String.eqb (result_courseId r) courseId)
                   (tbl_results st)).

(** The store with the results of one year only. *)
Definition year_only (year : Z) (st : Store) : Store :=
  set_results (filter (fun r => result_year r =? year) (tbl_results st)) st.

(** What [topCourses] and [topStudents] make of an aggregate row, once
    the lookup of its key has returned. *)
Definition top_course_of (st : Store) (year : Z) (row : CourseCount)
    : TopCourse :=
  {| tc_course :=
       find (fun c => String.eqb (course_id c) (agg_courseId row))
            (tbl_courses st);
     tc_enrollmentCount := agg_enrollmentCount row;
     tc_year := year |}.

Definition top_student_of (st : Store) (row : StudentScore) : TopStudent :=
  {| ts_student :=
       option_map (institute_of_student st)
         (find (fun s => String.eqb (student_id s) (agg_studentId row))
               (tbl_students st));
     ts_totalScore := agg_totalScore row;
     ts_averageScore := parseFloat (agg_averageScore row);
     ts_resultCount := agg_resultCount row |}.

(** The scores of the results of one student, over all years. *)
Definition scores_of_student (st : Store) (studentId : ID) : list Q :=
  map result_score
      (filter (fun r => String.eqb (result_studentId r) studentId)
              (tbl_results st)).

(** ** src/index.ts and src/middleware/auth.ts: from header to context

    Signature and expiry checking belong to the token library; it hands
    back the decoded claims or fails. *)

Class TokenVerifier : Type := {
  jwt_verify : string -> option Principal
}.

(** [s] with the leading [p] taken off, when [s] starts with [p]. *)
Fixpoint strip_prefix (p s : string) : option string :=
  match p with
  | EmptyString => Some s
  | String a p' =>
      match s with
      | EmptyString => None
      | String b s' => if Ascii.eqb a b then strip_prefix p' s' else None
      end
  end.

(** [s.replace(pattern, replacement)] for a string pattern: the first
    occurrence only. *)
Fixpoint replace_first (pattern replacement s : string) : string :=
  match strip_prefix pattern s with
  | Some rest => replacement ++ rest
  | None =>
      match s with
      | EmptyString => EmptyString
      | String c s' => String c (replace_first pattern replacement s')
      end
  end.

Definition invalid_token : Error :=
  GraphQLError "Invalid or expired token" "UNAUTHENTICATED".

Section RequestContext.
Context {verifier : TokenVerifier}.

Definition verifyToken (token0 : string) : Outcome Principal :=
  match jwt_verify token0 with
  | Some decoded => Ok decoded
  | None => Throw invalid_token
  end.

(** The [context] function handed to [expressMiddleware]; the argument is
    [req.headers.authorization]. *)
Definition context (authorization : option string) : AuthContext :=
  match option_map (replace_first "Bearer " "") authorization with
  | Some token0 =>
      if String.eqb token0 ""
      then {| ctx_user := None |}
      else
        match verifyToken token0 with
        | Ok decoded => {| ctx_user := Some decoded |}
        | Throw _ => {| ctx_user := None |} (* catch: continue without user *)
        end
  | None => {| ctx_user := None |}
  end.

End RequestContext.

(** ** src/scripts/seeder.ts and src/scripts/seeder-worker.ts: how the work
    is cut up *)

(** [Math.ceil(a / b)] on integers, [b] positive. *)
Definition ceil_div (a b : Z) : Z := - ((- a) / b).

(** [Array.from({ length }, (_, idx) => f(idx))] *)
Definition Array_from {A : Type} (length0 : Z) (f : Z -> A) : list A :=
  map (fun idx => f (Z.of_nat idx)) (seq 0 (Z.to_nat length0)).

(** The [for (let i = 0; i < CPU_COUNT; i++)] loops of [seedData]: the
    [(startIndex, count)] pairs handed to [createWorker]. *)
Definition worker_ranges (total CPU_COUNT : Z) : list (Z * Z) :=
  let perWorker := ceil_div total CPU_COUNT in
  flat_map
    (fun i =>
       let start := i * perWorker in
       let count := Z.min perWorker (total - start) in
       if 0 <? count then [(start, count)] else [])
    (Array_from CPU_COUNT (fun i => i)).

(** The [for (let i = 0; i < count; i += size)] loops of [seedData] and of
    the worker: the [(i, batchSize)] pairs, one per pass.  A pass moves [i]
    forward by [size], so for a positive [size] there are at most [count]
    passes; that many are unrolled. *)
Fixpoint batches_from (passes : nat) (i count size : Z) : list (Z * Z) :=
  match passes with
  | O => []
  | S passes' =>
      if i <? count
      then (i, Z.min size (count - i))
           :: batches_from passes' (i + size) count size
      else []
  end.

Definition batches (count size : Z) : list (Z * Z) :=
  batches_from (Z.to_nat count) 0 count size.

(** The worker's [inserted] counter after all passes. *)
Definition inserted_after (count size : Z) : Z :=
  fold_left (fun inserted b => inserted + snd b) (batches count size) 0.

(** [globalIdx = i + idx] over every batch, in the order the rows are made. *)
Definition global_indices (count size : Z) : list Z :=
  flat_map (fun b => Array_from (snd b) (fun idx => fst b + idx))
           (batches count size).

(** ** More vocabulary *)

(** Operations that no resolver guards: the public listing and the two
    ways in. *)
Definition is_public (op : Operation) : bool :=
  match op with
  | Query_institutes _ | Mutation_signUp _ | Mutation_signIn _ => true
  | _ => false
  end.

Definition is_query (op : Operation) : bool :=
  match op with
  | Query_me | Query_institute _ | Query_institutes _ | Query_student _
  | Query_students _ | Query_course _ | Query_courses _ | Query_result _
  | Query_results _ | Query_allData | Query_resultsPerInstitute _
  | Query_topCourses _ _ | Query_topStudents _ => true
  | _ => false
  end.

(** The five tables of two stores agree. *)
Definition same_rows (st st' : Store) : Prop :=
  tbl_users st' = tbl_users st
  /\ tbl_institutes st' = tbl_institutes st
  /\ tbl_students st' = tbl_students st
  /\ tbl_courses st' = tbl_courses st
  /\ tbl_results st' = tbl_results st.

(** A computation carries a property of the store from before to after,
    whether it returns or throws. *)
Definition keeps {A : Type} (I : Store -> Prop) (c : M A) : Prop :=
  forall st, I st -> I (snd (c st)).

(** What the schema promises of the stored rows: primary keys, user e-mails
    and course codes are unique, and every foreign key names a stored
    row. *)
Record integrity (st : Store) : Prop := {
  user_ids_unique : NoDup (map user_id (tbl_users st));
  user_emails_unique : NoDup (map user_email (tbl_users st));
  institute_ids_unique : NoDup (map institute_id (tbl_institutes st));
  student_ids_unique : NoDup (map student_id (tbl_students st));
  course_ids_unique : NoDup (map course_id (tbl_courses st));
  course_codes_unique : NoDup (map course_code (tbl_courses st));
  result_ids_unique : NoDup (map result_id (tbl_results st));
  students_refer :
    Forall (fun s =>
              has_id institute_id (student_instituteId s) (tbl_institutes st)
              = true
              /\ has_id user_id (student_userId s) (tbl_users st) = true)
           (tbl_students st);
  results_refer :
    Forall (fun r =>
              has_id student_id (result_studentId r) (tbl_students st) = true
              /\ has_id course_id (result_courseId r) (tbl_courses st) = true)
           (tbl_results st)
}.

(** What the validators of the models promise of the stored rows: e-mails
    the [isEmail] validator accepts, credits from 1 to 6, scores from 0 to
    100, one of the twelve grades, years from 2000 to 2100. *)
Record validated {ext : Collaborators} (st : Store) : Prop := {
  user_emails_valid :
    Forall (fun u => isEmail (user_email u) = true) (tbl_users st);
  student_emails_valid :
    Forall (fun s => isEmail (student_email s) = true) (tbl_students st);
  credits_valid :
    Forall (fun c => 1 <= course_credits c <= 6) (tbl_courses st);
  results_valid :
    Forall (fun r => (0 <= result_score r <= 100)%Q
                     /\ In (result_grade r) grades
                     /\ 2000 <= result_year r <= 2100)
           (tbl_results st)
}.

(** The claims [signUp] and [signIn] sign into the token of a user. *)
Definition claims_of (u : User) : Principal :=
  {| principal_id := user_id u;
     principal_email := user_email u;
     principal_role := user_role u |}.

(** A verifier for the sample data: it accepts the tokens that the [plain]
    signer issues for the accounts of the campus, and no other. *)
Definition campus_verifier : TokenVerifier :=
  {| jwt_verify := fun token0 =>
       option_map claims_of
         (find (fun u => String.eqb (issue_token (ext := plain) u) token0)
               (tbl_users campus)) |}.

(** The sum of a list of counts. *)
Definition Zsum (l : list Z) : Z := fold_right Z.add 0 l.

(* ================================================================== *)
(** * Part II. Properties                                              *)
(* ================================================================== *)

(** ** The embedding at work on the sample data *)

(** Creating an institute in an empty store draws the first identifier. *)
Example createInstitute_first :
  fst (createInstitute (ext := plain)
         {| ci_name := "North Institute"; ci_location := "Dhaka" |}
         a_student empty_store)
  = Ok {| institute_id := "00000000-0000-4000-8000-000000000000";
          institute_name := "North Institute";
          institute_location := "Dhaka" |}.
Proof. reflexivity. Qed.

(** Deleting the first institute takes its two students and their results
    along; the user accounts stay. *)
Example deleteInstitute_cascades :
  map student_id
      (tbl_students (snd (deleteInstitute (key 1 1) a_student campus)))
    = [key 3 3]
  /\ map result_id
         (tbl_results (snd (deleteInstitute (key 1 1) a_student campus)))
    = [key 5 4]
  /\ tbl_users (snd (deleteInstitute (key 1 1) a_student campus))
     = tbl_users campus.
Proof. repeat split. Qed.

(** Listing institutes needs no principal; rows come ordered by name. *)
Example institutes_public :
  match fst (institutes (ext := plain)
               {| page := {| arg_limit := given 1; arg_offset := undefined |};
                  search := undefined |} campus) with
  | Ok bundle => (map institute_name (items bundle), totalCount bundle,
                  hasMore bundle)
  | Throw _ => ([], 0, false)
  end
  = (["Bay College"], 2, true).
Proof. reflexivity. Qed.

(** A negative limit passes the normalizer and is refused by the engine. *)
Example institutes_negative_limit :
  fst (institutes (ext := plain)
         {| page := negative_page; search := undefined |} campus)
  = Throw (SequelizeError "SequelizeDatabaseError").
Proof. reflexivity. Qed.

(** [me] without a principal, and a sign-up followed by the new account. *)
Example me_anonymous :
  fst (me (ext := plain) anonymous campus)
  = Throw (GraphQLError "Not authenticated" "UNAUTHENTICATED").
Proof. reflexivity. Qed.

Example signUp_creates_pair :
  map user_email
      (tbl_users (snd (signUp (ext := plain)
                         {| su_email := "dee@uni.edu"; su_password := "pw";
                            su_name := "Dee"; su_instituteId := key 1 2 |}
                         campus)))
  = ["root@uni.edu"; "ada@uni.edu"; "bob@uni.edu"; "cy@uni.edu";
     "dee@uni.edu"]
  /\ map student_userId
         (tbl_students (snd (signUp (ext := plain)
                               {| su_email := "dee@uni.edu";
                                  su_password := "pw"; su_name := "Dee";
                                  su_instituteId := key 1 2 |} campus)))
     = [key 2 1; key 2 2; key 2 3; key 0 0].
Proof. repeat split. Qed.

(** The analytics limit: a negative one is refused by the engine, an
    explicit [null] switches the default off and lifts the bound. *)
Example topCourses_negative_limit :
  fst (topCourses (ext := plain) 2024 (given (-1)) a_student enrolment_book)
  = Throw (SequelizeError "SequelizeDatabaseError").
Proof. reflexivity. Qed.

Example topCourses_null_limit :
  match fst (topCourses (ext := plain) 2024 null a_student enrolment_book) with
  | Ok tops => map tc_enrollmentCount tops
  | Throw _ => []
  end
  = [5; 5; 2].
Proof. vm_compute. reflexivity. Qed.

(** ** Pagination *)

Lemma num_or_given_nonzero (v d : Z) : v <> 0 -> num_or (given v) d = v.
Proof.
  intros Hv. unfold num_or.
  destruct (Z.eqb_spec v 0) as [E | _]; [contradiction | reflexivity].
Qed.

(** C3. For every list of items, total count, limit and offset handed to
    [paginate], [hasMore] is true exactly when
    [offset + number of items < totalCount], and the [items], [totalCount],
    [limit] and [offset] fields are the inputs unchanged. *)
Theorem paginate_bundle :
  forall (T : Type) (items0 : list T) (totalCount0 limit0 offset0 : Z),
    (hasMore (paginate items0 totalCount0 (Some limit0) (Some offset0)) = true
     <-> offset0 + Z.of_nat (List.length items0) < totalCount0)
    /\ items (paginate items0 totalCount0 (Some limit0) (Some offset0))
       = items0
    /\ totalCount (paginate items0 totalCount0 (Some limit0) (Some offset0))
       = totalCount0
    /\ limit (paginate items0 totalCount0 (Some limit0) (Some offset0))
       = limit0
    /\ offset (paginate items0 totalCount0 (Some limit0) (Some offset0))
       = offset0.
Proof.
  intros T items0 totalCount0 limit0 offset0. cbn.
  split; [apply Z.ltb_lt | repeat split].
Qed.

(** C3, on a page of two rows at offset 10 out of 13. *)
Lemma paginate_bundle_witness :
  hasMore (paginate ["a"; "b"] 13 (Some 2) (Some 10)) = true.
Proof.
  apply (proj1 (paginate_bundle string ["a"; "b"] 13 2 10)).
  cbn. lia.
Defined.

(** C1 as stated fails: a negative limit is not replaced by 10 and a
    negative offset is not replaced by 0; both pass through. *)
Lemma getPaginationParams_negative_passthrough :
  win_limit (getPaginationParams negative_page) = -5
  /\ win_limit (getPaginationParams negative_page) <> 10
  /\ win_offset (getPaginationParams negative_page) = -3
  /\ win_offset (getPaginationParams negative_page) <> 0.
Proof.
  repeat split; cbn; lia.
Qed.

(** C1, amended. A limit above 100 comes back as exactly 100; an absent,
    [null] or zero limit comes back as 10; every other limit, a negative one
    included, comes back unchanged.  An absent, [null] or zero offset comes
    back as 0 and every given offset, a negative one included, comes back
    unchanged. *)
Theorem getPaginationParams_window :
  forall args : PaginationArgs,
    (forall l, arg_limit args = given l -> 100 < l ->
               win_limit (getPaginationParams args) = 100)
    /\ (arg_limit args = undefined \/ arg_limit args = null
        \/ arg_limit args = given 0 ->
        win_limit (getPaginationParams args) = 10)
    /\ (forall l, arg_limit args = given l -> l <> 0 -> l <= 100 ->
                  win_limit (getPaginationParams args) = l)
    /\ (arg_offset args = undefined \/ arg_offset args = null ->
        win_offset (getPaginationParams args) = 0)
    /\ (forall o, arg_offset args = given o ->
                  win_offset (getPaginationParams args) = o).
Proof.
  intros [l0 o0]. unfold getPaginationParams. cbn [arg_limit arg_offset
    win_limit win_offset].
  repeat split.
  - intros l -> Hl. rewrite num_or_given_nonzero by lia. lia.
  - intros [-> | [-> | ->]]; reflexivity.
  - intros l -> Hz Hl. rewrite num_or_given_nonzero by assumption. lia.
  - intros [-> | ->]; reflexivity.
  - intros o ->. unfold num_or. destruct (Z.eqb_spec o 0); congruence.
Qed.

(** C1 amended, at limit 250: the window is capped at 100. *)
Lemma getPaginationParams_window_witness :
  win_limit (getPaginationParams
               {| arg_limit := given 250; arg_offset := undefined |}) = 100.
Proof.
  apply (proj1 (getPaginationParams_window
                  {| arg_limit := given 250; arg_offset := undefined |}) 250).
  - reflexivity.
  - lia.
Defined.

(** ** Lookups *)

Lemma Ok_inj {A : Type} (a b : A) : Ok a = Ok b -> a = b.
Proof. intros H. injection H as ->. reflexivity. Qed.

Lemma find_absent {A : Type} (f : A -> bool) (l : list A) :
  (forall x, In x l -> f x = false) -> find f l = None.
Proof.
  induction l as [| a l IH]; intros H; cbn.
  - reflexivity.
  - rewrite (H a) by (left; reflexivity).
    apply IH. intros x Hx. apply H. right. exact Hx.
Qed.

Lemma find_present {A : Type} (f : A -> bool) (l : list A) (a : A) :
  In a l -> f a = true -> exists b, find f l = Some b /\ In b l /\ f b = true.
Proof.
  induction l as [| x l IH]; intros Hin Ha.
  - contradiction.
  - cbn. destruct (f x) eqn:Hx.
    + exists x. repeat split; [now left | exact Hx].
    + destruct Hin as [-> | Hin]; [congruence |].
      destruct (IH Hin Ha) as (b & Hb & Hbin & Hfb).
      exists b. repeat split; [exact Hb | now right | exact Hfb].
Qed.

Lemma find_id_absent {R : Type} (get : R -> ID) (id : ID) (l : list R) :
  (forall x, In x l -> get x <> id) ->
  find (fun x => String.eqb (get x) id) l = None.
Proof.
  intros H. apply find_absent. intros x Hx.
  apply String.eqb_neq. apply H. exact Hx.
Qed.

(** ** Sign-in *)

Section SignIn.
Context {ext : Collaborators}.

Lemma signIn_unknown_email (input : SignInInput) (st : Store) :
  (forall x, In x (tbl_users st) -> user_email x <> si_email input) ->
  fst (signIn input st) = Throw invalid_credentials.
Proof.
  intros Hnone. unfold signIn, findOne, bind, record_query, read. cbn.
  rewrite find_id_absent by exact Hnone. reflexivity.
Qed.

Lemma signIn_wrong_password (input : SignInInput) (st : Store) :
  (exists x, In x (tbl_users st) /\ user_email x = si_email input) ->
  (forall x, In x (tbl_users st) -> user_email x = si_email input ->
             bcrypt_compare (si_password input) (user_password x) = false) ->
  fst (signIn input st) = Throw invalid_credentials.
Proof.
  intros (x & Hx & Hmail) Hbad.
  destruct (find_present (fun y => String.eqb (user_email y) (si_email input))
              (tbl_users st) x Hx) as (u & Hu & Huin & Hueq).
  { apply String.eqb_eq. exact Hmail. }
  unfold signIn, findOne, bind, record_query, read. cbn.
  rewrite Hu. cbn.
  rewrite (Hbad u Huin) by (apply String.eqb_eq; exact Hueq).
  reflexivity.
Qed.

(** C7. Over one and the same user table, a sign-in whose e-mail matches no
    user and a sign-in whose e-mail exists but whose password does not match
    the stored hash fail with one and the same error, whose message is
    "Invalid credentials" and whose extension code is UNAUTHENTICATED. *)
Theorem signIn_failures_indistinguishable :
  forall (st : Store) (unknown wrong : SignInInput),
    (forall x, In x (tbl_users st) -> user_email x <> si_email unknown) ->
    (exists x, In x (tbl_users st) /\ user_email x = si_email wrong) ->
    (forall x, In x (tbl_users st) -> user_email x = si_email wrong ->
               bcrypt_compare (si_password wrong) (user_password x) = false) ->
    exists e,
      fst (signIn unknown st) = Throw e
      /\ fst (signIn wrong st) = Throw e
      /\ error_message e = "Invalid credentials"
      /\ error_code e = "UNAUTHENTICATED".
Proof.
  intros st unknown wrong Hnone Hsome Hbad.
  exists invalid_credentials.
  rewrite (signIn_unknown_email unknown st Hnone).
  rewrite (signIn_wrong_password wrong st Hsome Hbad).
  repeat split.
Qed.

End SignIn.

(** C7, on the campus: nobody@uni.edu is unknown, ada@uni.edu exists and
    "guess" is not the password of that account. *)
Lemma signIn_failures_indistinguishable_witness :
  exists e,
    fst (signIn (ext := plain)
           {| si_email := "nobody@uni.edu"; si_password := "secret" |} campus)
    = Throw e
    /\ fst (signIn (ext := plain)
              {| si_email := "ada@uni.edu"; si_password := "guess" |} campus)
       = Throw e
    /\ error_message e = "Invalid credentials"
    /\ error_code e = "UNAUTHENTICATED".
Proof.
  apply (signIn_failures_indistinguishable (ext := plain) campus).
  - cbn. intros x H.
    repeat (destruct H as [<- | H]; [discriminate |]). contradiction.
  - exists (mkUser (key 2 1) "ada@uni.edu" "hash:secret" "student").
    cbn. split; [right; left; reflexivity | reflexivity].
  - cbn. intros x H Hmail.
    repeat (destruct H as [<- | H]; [first [discriminate | reflexivity] |]).
    contradiction.
Defined.

(** ** Lookups by key *)

Lemma existsb_none {A : Type} (f : A -> bool) (l : list A) :
  (forall x, In x l -> f x = false) -> existsb f l = false.
Proof.
  induction l as [| a l IH]; intros H; cbn.
  - reflexivity.
  - rewrite (H a) by (left; reflexivity). cbn.
    apply IH. intros x Hx. apply H. right. exact Hx.
Qed.

Lemma canonical_is_uuid (s : string) :
  canonical_uuid s = true -> is_uuid s = true.
Proof.
  unfold canonical_uuid. intros H.
  repeat (apply andb_prop in H; destruct H as [H _]). exact H.
Qed.

Lemma lookup_found {R : Type} (get : R -> ID) (id : ID) (l : list R) (r : R) :
  find (fun x => String.eqb (get x) id) l = Some r ->
  lookup_key get id l = Ok (Some r).
Proof. unfold lookup_key. intros ->. reflexivity. Qed.

Lemma lookup_missing {R : Type} (get : R -> ID) (id : ID) (l : list R) :
  (forall x, In x l -> get x <> id) -> is_uuid id = true ->
  lookup_key get id l = Ok None.
Proof.
  intros Hno Hid. unfold lookup_key.
  rewrite (find_id_absent get id l Hno), Hid. reflexivity.
Qed.

Lemma lookup_refused {R : Type} (get : R -> ID) (id : ID) (l : list R) :
  (forall x, In x l -> get x <> id) -> is_uuid id = false ->
  lookup_key get id l = Throw database_error.
Proof.
  intros Hno Hid. unfold lookup_key.
  rewrite (find_id_absent get id l Hno), Hid. reflexivity.
Qed.

(** What a lookup by key comes to: the first stored row of that key; or
    nothing, for a key that reads as a UUID; or the engine's refusal. *)
Lemma lookup_cases {R : Type} (get : R -> ID) (id : ID) (l : list R) :
  (exists r, find (fun x => String.eqb (get x) id) l = Some r
             /\ lookup_key get id l = Ok (Some r))
  \/ (find (fun x => String.eqb (get x) id) l = None
      /\ is_uuid id = true /\ lookup_key get id l = Ok None)
  \/ (find (fun x => String.eqb (get x) id) l = None
      /\ is_uuid id = false /\ lookup_key get id l = Throw database_error).
Proof.
  unfold lookup_key.
  destruct (find _ l) as [r |]; [left; exists r; split; reflexivity |].
  destruct (is_uuid id); [right; left | right; right]; repeat split.
Qed.

Lemma findByPk_run {R : Type} (m : Model R) (id : ID) (st : Store) :
  findByPk m id st
  = (lookup_key (pk m) id (rows m (logged (Q_findByPk (table m) id) st)),
     logged (Q_findByPk (table m) id) st).
Proof. reflexivity. Qed.

(** ** Creating a student *)

(** C9 as stated fails: on the campus no institute is stored under the
    text "i9", and a signed-in [createStudent] that names it fails with the
    engine's error, which the server reports as INTERNAL_SERVER_ERROR, not
    with BAD_USER_INPUT: "i9" does not read as a UUID. *)
Lemma createStudent_key_not_a_uuid :
  (forall i, In i (tbl_institutes campus) -> institute_id i <> "i9")
  /\ fst (createStudent (ext := plain)
            {| cs_name := "Dee"; cs_email := "dee@uni.edu";
               cs_instituteId := "i9"; cs_userId := key 2 1 |}
            a_student campus)
     = Throw (SequelizeError "SequelizeDatabaseError")
  /\ error_code (SequelizeError "SequelizeDatabaseError") <> "BAD_USER_INPUT".
Proof.
  split; [| split].
  - cbn. intros i H.
    repeat (destruct H as [<- | H]; [discriminate |]). contradiction.
  - vm_compute. reflexivity.
  - discriminate.
Qed.

Section CreateStudent.
Context {ext : Collaborators}.

(** C9, amended.  For an authenticated context, [createStudent] is stopped
    before the insert when a key it is given names no stored row: the
    student table is the one it was and no insert was issued.  The
    institute is looked up first: when its key is missing and is in the
    form of a UUID the error is BAD_USER_INPUT "Institute not found", and
    when it does not read as a UUID the error is the engine's
    SequelizeDatabaseError; with the institute stored the same holds of
    the user key, with BAD_USER_INPUT "User not found". *)
Theorem createStudent_missing_reference :
  forall (st : Store) (p : Principal) (input : CreateStudentInput),
    let run := createStudent input {| ctx_user := Some p |} st in
    let e :=
      if has_id institute_id (cs_instituteId input) (tbl_institutes st)
      then if is_uuid (cs_userId input)
           then bad_user_input "User not found"
           else database_error
      else if is_uuid (cs_instituteId input)
           then bad_user_input "Institute not found"
           else database_error in
    ((forall i, In i (tbl_institutes st) ->
                institute_id i <> cs_instituteId input)
     /\ (canonical_uuid (cs_instituteId input) = true
         \/ is_uuid (cs_instituteId input) = false))
    \/ ((exists i, In i (tbl_institutes st)
                   /\ institute_id i = cs_instituteId input)
        /\ (forall u, In u (tbl_users st) -> user_id u <> cs_userId input)
        /\ (canonical_uuid (cs_userId input) = true
            \/ is_uuid (cs_userId input) = false)) ->
    fst run = Throw e
    /\ (error_code e = "BAD_USER_INPUT"
        \/ e = SequelizeError "SequelizeDatabaseError")
    /\ tbl_students (snd run) = tbl_students st
    /\ exists issued,
         queries (snd run) = (queries st ++ issued)%list
         /\ forall t, ~ In (Q_create t) issued.
Proof.
  intros st p input run e Hmissing. subst run e.
  unfold createStudent, requireAuth, bind, ret, throw.
  cbn [ctx_user]. rewrite findByPk_run.
  change (rows InstituteModel (logged _ st)) with (tbl_institutes st).
  change (pk InstituteModel) with institute_id.
  destruct Hmissing as [[Hno Hform] | [(i & Hi & Hid) [Hno Hform]]].
  - unfold has_id.
    rewrite (existsb_none _ _
               (fun x Hx => proj2 (String.eqb_neq _ _) (Hno x Hx))).
    destruct (is_uuid (cs_instituteId input)) eqn:Huuid.
    + rewrite (lookup_missing _ _ _ Hno Huuid).
      split; [reflexivity |]. split; [left; reflexivity |].
      split; [reflexivity |].
      exists [Q_findByPk Institutes (cs_instituteId input)].
      split; [reflexivity |]. intros t [H | []]; discriminate.
    + rewrite (lookup_refused _ _ _ Hno Huuid).
      split; [reflexivity |]. split; [right; reflexivity |].
      split; [reflexivity |].
      exists [Q_findByPk Institutes (cs_instituteId input)].
      split; [reflexivity |]. intros t [H | []]; discriminate.
  - destruct (find_present
                (fun x => String.eqb (institute_id x) (cs_instituteId input))
                (tbl_institutes st) i Hi) as (b & Hb & _ & _).
    { apply String.eqb_eq. exact Hid. }
    rewrite (lookup_found _ _ _ _ Hb).
    assert (Hhas : has_id institute_id (cs_instituteId input)
                     (tbl_institutes st) = true).
    { apply existsb_exists. exists i. split; [exact Hi |].
      apply String.eqb_eq. exact Hid. }
    rewrite Hhas. rewrite findByPk_run.
    change (rows UserModel (logged _ (logged _ st))) with (tbl_users st).
    change (pk UserModel) with user_id.
    destruct (is_uuid (cs_userId input)) eqn:Huuid.
    + rewrite (lookup_missing _ _ _ Hno Huuid).
      split; [reflexivity |]. split; [left; reflexivity |].
      split; [reflexivity |].
      exists [Q_findByPk Institutes (cs_instituteId input);
              Q_findByPk Users (cs_userId input)].
      split; [cbn; rewrite <- app_assoc; reflexivity |].
      intros t [H | [H | []]]; discriminate.
    + rewrite (lookup_refused _ _ _ Hno Huuid).
      split; [reflexivity |]. split; [right; reflexivity |].
      split; [reflexivity |].
      exists [Q_findByPk Institutes (cs_instituteId input);
              Q_findByPk Users (cs_userId input)].
      split; [cbn; rewrite <- app_assoc; reflexivity |].
      intros t [H | [H | []]]; discriminate.
Qed.

End CreateStudent.

(** C9 amended, on the campus: no institute has the key number 9. *)
Lemma createStudent_missing_reference_witness :
  fst (createStudent (ext := plain)
         {| cs_name := "Dee"; cs_email := "dee@uni.edu";
            cs_instituteId := key 1 9; cs_userId := key 2 1 |}
         a_student campus)
  = Throw (GraphQLError "Institute not found" "BAD_USER_INPUT")
  /\ tbl_students
       (snd (createStudent (ext := plain)
               {| cs_name := "Dee"; cs_email := "dee@uni.edu";
                  cs_instituteId := key 1 9; cs_userId := key 2 1 |}
               a_student campus))
     = tbl_students campus.
Proof.
  destruct (createStudent_missing_reference (ext := plain) campus
              {| principal_id := key 2 1; principal_email := "ada@uni.edu";
                 principal_role := "student" |}
              {| cs_name := "Dee"; cs_email := "dee@uni.edu";
                 cs_instituteId := key 1 9; cs_userId := key 2 1 |})
    as (Hrun & _ & Htable & _).
  - left. split.
    + cbn. intros i H.
      repeat (destruct H as [<- | H]; [discriminate |]). contradiction.
    + left. reflexivity.
  - split; [exact Hrun | exact Htable].
Defined.

(** ** Course codes *)



Section CourseCodes.
Context {ext : Collaborators}.




End CourseCodes.



(** ** No operation asks for the admin role *)

Section RaisesOnly.
Variable P : Error -> Prop.

Lemma raises_only_ret {A : Type} (a : A) : raises_only P (ret a).
Proof. intros st e H. discriminate. Qed.

Lemma raises_only_throw {A : Type} (e : Error) :
  P e -> raises_only P (@throw A e).
Proof. intros He st e' H. cbn in H. congruence. Qed.

Lemma raises_only_bind {A B : Type} (c : M A) (k : A -> M B) :
  raises_only P c -> (forall a, raises_only P (k a)) ->
  raises_only P (bind c k).
Proof.
  intros Hc Hk st e. unfold bind.
  destruct (c st) as [[a | e'] st1] eqn:E.
  - apply Hk.
  - cbn. intros H. injection H as <-. apply (Hc st). rewrite E. reflexivity.
Qed.

Lemma raises_only_read {A : Type} (f : Store -> A) : raises_only P (read f).
Proof. intros st e H. discriminate. Qed.

Lemma raises_only_record_query (q : Query) : raises_only P (record_query q).
Proof. intros st e H. discriminate. Qed.

Lemma raises_only_lift {A : Type} (f : Store -> Outcome A) :
  (forall st e, f st = Throw e -> P e) -> raises_only P (lift f).
Proof. intros H st e. cbn. apply H. Qed.

Lemma raises_only_mapM {A B : Type} (f : A -> M B) (l : list A) :
  (forall a, raises_only P (f a)) -> raises_only P (mapM f l).
Proof.
  intros Hf. induction l as [| x xs IH]; cbn [mapM].
  - apply raises_only_ret.
  - apply raises_only_bind; [apply Hf |]. intros y.
    apply raises_only_bind; [apply IH |]. intros ys.
    apply raises_only_ret.
Qed.

Lemma raises_only_findOne {R : Type} (m : Model R) (column : string)
    (get : R -> string) (value : string) :
  raises_only P (findOne m column get value).
Proof.
  apply raises_only_bind;
    [apply raises_only_record_query | intros; apply raises_only_read].
Qed.

Lemma raises_only_including {R X : Type} (q : M (option R))
    (inc : Store -> R -> X) :
  raises_only P q -> raises_only P (including q inc).
Proof.
  intros H. apply raises_only_bind;
    [exact H | intros; apply raises_only_read].
Qed.

Lemma raises_only_including_each {R X : Type} (q : M (list R))
    (inc : Store -> R -> X) :
  raises_only P q -> raises_only P (including_each q inc).
Proof.
  intros H. apply raises_only_bind;
    [exact H | intros; apply raises_only_read].
Qed.

Lemma raises_only_destroy {R : Type} (m : Model R) (r : R) :
  raises_only P (destroy m r).
Proof.
  apply raises_only_bind; [apply raises_only_record_query |].
  intros _ st e H. discriminate.
Qed.

(** What the ORM itself raises is never a [GraphQLError]. *)
Hypothesis P_sequelize : forall name, P (SequelizeError name).

Lemma window_raises {A : Type} (limit0 offset0 : option Z) (l : list A)
    (e : Error) :
  window limit0 offset0 l = Throw e -> P e.
Proof.
  unfold window.
  destruct (is_negative limit0 || is_negative offset0); intros H.
  - injection H as <-. apply P_sequelize.
  - discriminate.
Qed.

Lemma raises_only_findByPk {R : Type} (m : Model R) (id : ID) :
  raises_only P (findByPk m id).
Proof.
  apply raises_only_bind; [apply raises_only_record_query |].
  intros _. apply raises_only_lift. intros st e. unfold lookup_key.
  destruct (find _ _); [discriminate |].
  destruct (is_uuid id); [discriminate |].
  intros H. injection H as <-. apply P_sequelize.
Qed.

Lemma raises_only_findAll {ext : Collaborators} {R : Type} (m : Model R)
    (keys : list ID) (where_ : R -> bool)
    (order : option (R -> R -> bool)) (limit0 offset0 : option Z) :
  raises_only P (findAll m keys where_ order limit0 offset0).
Proof.
  apply raises_only_bind; [apply raises_only_record_query |].
  intros _. apply raises_only_lift. intros st e.
  destruct (forallb _ keys).
  - unfold select. apply window_raises.
  - intros H. injection H as <-. apply P_sequelize.
Qed.

Lemma raises_only_findAndCountAll {ext : Collaborators} {R : Type}
    (m : Model R) (where_ : R -> bool) (order : option (R -> R -> bool))
    (limit0 offset0 : option Z) :
  raises_only P (findAndCountAll m where_ order limit0 offset0).
Proof.
  apply raises_only_bind; [apply raises_only_record_query |].
  intros _. apply raises_only_lift. intros st e.
  unfold select.
  destruct (window limit0 offset0 _) as [l | e'] eqn:E; intros H.
  - discriminate.
  - injection H as <-. exact (window_raises _ _ _ _ E).
Qed.

Lemma raises_only_create {ext : Collaborators} {R : Type} (m : Model R)
    (mk : ID -> R) :
  raises_only P (create m mk).
Proof.
  apply raises_only_bind; [apply raises_only_record_query |].
  intros _ st e. cbv beta zeta.
  destruct (negb (valid m (mk (uuidv4 (uuid_draws st))))).
  - cbn. intros H. injection H as <-. apply P_sequelize.
  - destruct (settle m _ None _) as [stored |].
    + destruct (existsb _ _).
      * cbn. intros H. injection H as <-. apply P_sequelize.
      * destruct (violation m _ _); cbn; intros H.
        -- injection H as <-. apply P_sequelize.
        -- discriminate.
    + cbn. intros H. injection H as <-. apply P_sequelize.
Qed.

Lemma raises_only_update {R : Type} (m : Model R) (r : R)
    (r' : option R) :
  raises_only P (update m r r').
Proof.
  apply raises_only_bind; [apply raises_only_record_query |].
  intros _. destruct r' as [r' |].
  - intros st e. destruct (settle m st (Some r) r') as [stored |].
    + destruct (violation m st stored); cbn; intros H.
      * injection H as <-. apply P_sequelize.
      * discriminate.
    + cbn. intros H. injection H as <-. apply P_sequelize.
  - apply raises_only_throw. apply P_sequelize.
Qed.

End RaisesOnly.

Lemma sequelize_not_authorization (name : string) :
  ~ authorization_error (SequelizeError name).
Proof.
  unfold authorization_error. cbn. intros [H | [H | H]]; discriminate.
Qed.

Create HintDb raises.

#[local] Hint Resolve raises_only_ret raises_only_read
  raises_only_record_query raises_only_findByPk raises_only_findOne
  raises_only_destroy raises_only_including raises_only_including_each
  raises_only_findAll raises_only_findAndCountAll raises_only_create
  raises_only_update raises_only_mapM sequelize_not_authorization : raises.

(** Walk down a resolver: split at every [bind], case on what a lookup
    returned, and leave each [throw] to be compared with the three
    authorization errors. *)
Ltac step_resolver :=
  repeat first
    [ progress (auto with raises)
    | apply raises_only_bind
    | match goal with
      | |- forall _, raises_only _ _ => intro
      | |- raises_only _ (match ?x with _ => _ end) => destruct x
      | |- raises_only _ (if ?b then _ else _) => destruct b
      | |- raises_only _ (lift _) =>
          apply raises_only_lift; intros ? ?;
          unfold enrollment_counts, student_scores;
          apply (window_raises (fun e => ~ authorization_error e)
                   sequelize_not_authorization)
      | |- raises_only _ (mapM _ _) => apply raises_only_mapM
      | |- raises_only _ (throw ?e) =>
          apply raises_only_throw; unfold authorization_error; cbn;
          intros [H | [H | H]]; discriminate
      end ].

Section NoAdmin.
Context {ext : Collaborators}.

Lemma resolve_past_authorization (op : Operation) (p : Principal) :
  raises_only (fun e => ~ authorization_error e)
    (resolve op {| ctx_user := Some p |}).
Proof.
  destruct op; unfold resolve, returning;
    apply raises_only_bind; try (intros; apply raises_only_ret).
  all: unfold me, institute, institutes, student, students, course, courses,
         result, results, allData, resultsPerInstitute, topCourses,
         topStudents, signUp, signIn, createInstitute, updateInstitute,
         deleteInstitute, createStudent, updateStudent, deleteStudent,
         createCourse, updateCourse, deleteCourse, createResult,
         updateResult, deleteResult, requireAuth;
       cbn [ctx_user]; cbv zeta.
  all: step_resolver.
Qed.

End NoAdmin.

(** C10. For every authenticated principal, whatever its role, every query
    and mutation of the resolver map gets past authorization: it raises
    neither Forbidden nor a "no principal" error, and swapping the role
    claim changes neither its outcome nor the store it leaves.
    [requireAdmin], the only source of Forbidden, refuses every role other
    than "admin" and is called by none of them. *)
Theorem no_operation_requires_admin :
  forall (ext : Collaborators) (op : Operation) (p : Principal) (st : Store),
    (forall e, fst (resolve op {| ctx_user := Some p |} st) = Throw e ->
               ~ authorization_error e)
    /\ (forall role,
           resolve op {| ctx_user := Some (with_role p role) |} st
           = resolve op {| ctx_user := Some p |} st)
    /\ (principal_role p <> "admin" ->
        fst (requireAdmin {| ctx_user := Some p |} st)
        = Throw (GraphQLError "Admin access required" "FORBIDDEN")).
Proof.
  intros ext op p st. split; [| split].
  - intros e. apply (resolve_past_authorization op p st e).
  - intros role. destruct op; reflexivity.
  - intros Hrole. unfold requireAdmin, requireAuth, bind. cbn.
    apply String.eqb_neq in Hrole. rewrite Hrole. reflexivity.
Qed.

(** C10, for the signed-in student of the campus deleting a course: the
    check that would refuse that student is not on the path. *)
Lemma no_operation_requires_admin_witness :
  fst (requireAdmin a_student campus)
  = Throw (GraphQLError "Admin access required" "FORBIDDEN")
  /\ fst (resolve (ext := plain) (Mutation_deleteCourse (key 4 3)) a_student
            campus)
     = Ok (V_deleted true).
Proof.
  split.
  - apply (no_operation_requires_admin plain (Mutation_deleteCourse (key 4 3))
             {| principal_id := key 2 1; principal_email := "ada@uni.edu";
                principal_role := "student" |} campus).
    discriminate.
  - reflexivity.
Defined.

(** ** The per-institute rollup *)

Lemma in_firstn {A : Type} (n : nat) (l : list A) (x : A) :
  In x (firstn n l) -> In x l.
Proof.
  revert l. induction n as [| n IH]; intros [| y l]; cbn; try tauto.
  intros [-> | H]; [now left | right; now apply IH].
Qed.

Lemma flat_map_of_map {A B C : Type} (f : A -> B) (g : B -> list C)
    (l : list A) :
  flat_map g (map f l) = flat_map (fun x => g (f x)) l.
Proof.
  induction l as [| x l IH]; cbn; [reflexivity | now rewrite IH].
Qed.

(** The inner loop appends the student's annotated results and adds their
    scores, in order. *)
Lemma inner_loop (t : InstituteTree) (s : StudentWithResults)
    (rs : list ResultWithCourse) (acc : list FlatResult * double) :
  map flat_score (fst (fold_left (push_result t s) rs acc))
  = (map flat_score (fst acc)
     ++ map (fun r => result_score (rwc_result r)) rs)%list
  /\ snd (fold_left (push_result t s) rs acc)
     = fold_left add
         (map parseFloat (map (fun r => result_score (rwc_result r)) rs))
         (snd acc).
Proof.
  revert acc. induction rs as [| r rs IH]; intros acc; cbn [fold_left map].
  - now rewrite app_nil_r.
  - destruct (IH (push_result t s acc r)) as [Hfst Hsnd].
    rewrite Hfst, Hsnd. cbn [push_result fst snd].
    rewrite map_app, <- app_assoc. split; reflexivity.
Qed.

Lemma outer_loop (t : InstituteTree) (ss : list StudentWithResults)
    (acc : list FlatResult * double) :
  let run :=
    fold_left
      (fun a s => fold_left (push_result t s) (swr_results s) a) ss acc in
  let scores :=
    flat_map (fun s => map (fun r => result_score (rwc_result r))
                           (swr_results s)) ss in
  map flat_score (fst run) = (map flat_score (fst acc) ++ scores)%list
  /\ snd run = fold_left add (map parseFloat scores) (snd acc).
Proof.
  revert acc. induction ss as [| s ss IH]; intros acc; cbn [fold_left flat_map].
  - cbn. now rewrite app_nil_r.
  - destruct (IH (fold_left (push_result t s) (swr_results s) acc))
      as [Hfst Hsnd].
    destruct (inner_loop t s (swr_results s) acc) as [Ifst Isnd].
    cbv zeta in *. rewrite Hfst, Hsnd, Ifst, Isnd.
    rewrite map_app, fold_left_app, <- app_assoc. split; reflexivity.
Qed.

Lemma tree_scores (st : Store) (i : Institute) :
  flat_map (fun s => map (fun r => result_score (rwc_result r))
                         (swr_results s))
           (it_students (institute_tree st i))
  = scores_of_institute st i.
Proof.
  unfold institute_tree, scores_of_institute, students_in. cbn [it_students].
  rewrite flat_map_of_map. apply flat_map_ext. intros s.
  unfold results_of_student, results_by. cbn [swr_results].
  rewrite map_map. reflexivity.
Qed.

Lemma aggregate_scores (st : Store) (i : Institute) :
  map flat_score (fst (aggregate (institute_tree st i)))
  = scores_of_institute st i
  /\ snd (aggregate (institute_tree st i))
     = fold_left add (map parseFloat (scores_of_institute st i)) (Number 0).
Proof.
  unfold aggregate.
  destruct (outer_loop (institute_tree st i)
              (it_students (institute_tree st i)) ([], Number 0))
    as [Hfst Hsnd].
  cbv zeta in *. rewrite Hfst, Hsnd, tree_scores. split; reflexivity.
Qed.

Lemma rollup_of_institute (st : Store) (i : Institute) :
  ir_institute (rollup (institute_tree st i)) = institute_ref i
  /\ map flat_score (ir_results (rollup (institute_tree st i)))
     = scores_of_institute st i
  /\ ir_averageScore (rollup (institute_tree st i))
     = float_mean (scores_of_institute st i)
  /\ ir_totalStudents (rollup (institute_tree st i))
     = Z.of_nat (List.length (students_in st i)).
Proof.
  destruct (aggregate_scores st i) as [Hfst Hsnd].
  assert (Hlen : List.length (fst (aggregate (institute_tree st i)))
                 = List.length (scores_of_institute st i)).
  { rewrite <- Hfst. symmetry. apply length_map. }
  unfold rollup.
  cbn [ir_institute ir_results ir_averageScore ir_totalStudents].
  unfold count_of. rewrite Hlen, Hsnd.
  split; [reflexivity |]. split; [exact Hfst |]. split.
  - unfold float_mean.
    destruct (scores_of_institute st i) as [| x l] eqn:E.
    + reflexivity.
    + replace (0 <? Z.of_nat (List.length (x :: l))) with true
        by (symmetry; apply Z.ltb_lt; cbn [List.length]; lia).
      reflexivity.
  - unfold institute_tree, students_in. cbn [it_students].
    now rewrite length_map.
Qed.

Lemma filter_all {R : Type} (table0 : list R) :
  filter (fun _ => true) table0 = table0.
Proof. induction table0 as [| x l IH]; cbn; [| rewrite IH]; reflexivity. Qed.

Section InstituteRollups.
Context {ext : Collaborators}.

(** The institutes that [resultsPerInstitute] rolls up: the rows of the
    given key when a truthy key is given, else ten of the rows as the
    engine yields them; a key that names no row has to read as a UUID. *)
Lemma resultsPerInstitute_run (st : Store) (p : Principal)
    (instituteId : optional ID) :
  resultsPerInstitute instituteId {| ctx_user := Some p |} st
  = (match truthy instituteId with
     | Some id =>
         if has_id institute_id id (tbl_institutes st) || is_uuid id
         then
           Ok (map (fun i => rollup (institute_tree st i))
                 (unordered
                    (filter (fun i => String.eqb (institute_id i) id)
                            (tbl_institutes st))))
         else Throw database_error
     | None =>
         Ok (map (fun i => rollup (institute_tree st i))
               (firstn 10 (unordered (tbl_institutes st))))
     end,
     logged (Q_findAll Institutes) st).
Proof.
  unfold resultsPerInstitute, requireAuth, including_each, findAll, bind,
    record_query, lift, read, select, window, ordered, ret.
  cbn [ctx_user fst snd].
  destruct (truthy instituteId) as [id |];
    cbn [forallb rows pk InstituteModel logged tbl_institutes is_negative orb
         andb].
  - rewrite andb_true_r.
    destruct (has_id institute_id id (tbl_institutes st) || is_uuid id);
      [| reflexivity].
    rewrite map_map. reflexivity.
  - rewrite filter_all. cbn -[rollup institute_tree firstn].
    rewrite map_map. reflexivity.
Qed.

Lemma resultsPerInstitute_anonymous (st : Store) (instituteId : optional ID) :
  fst (resultsPerInstitute instituteId {| ctx_user := None |} st)
  = Throw authentication_required.
Proof. reflexivity. Qed.

(** Every rollup answers for a stored institute. *)
Lemma resultsPerInstitute_stored (st : Store) (p : Principal)
    (instituteId : optional ID) (rollups : list InstituteResults) :
  fst (resultsPerInstitute instituteId {| ctx_user := Some p |} st)
  = Ok rollups ->
  forall r, In r rollups ->
            exists i, In i (tbl_institutes st)
                      /\ r = rollup (institute_tree st i).
Proof.
  rewrite resultsPerInstitute_run. cbn [fst].
  destruct (truthy instituteId) as [id |].
  - destruct (_ || _); [| discriminate].
    intros H r Hr. apply Ok_inj in H. subst rollups.
    apply in_map_iff in Hr. destruct Hr as (i & <- & Hi).
    apply (Permutation_in _ (unordered_perm _)) in Hi.
    apply filter_In in Hi. exists i. tauto.
  - intros H r Hr. apply Ok_inj in H. subst rollups.
    apply in_map_iff in Hr. destruct Hr as (i & <- & Hi).
    apply in_firstn in Hi.
    apply (Permutation_in _ (unordered_perm _)) in Hi.
    exists i. tauto.
Qed.

End InstituteRollups.

(** C4 as stated fails: the student of the first institute of [dimes] has
    the scores 0.10, 0.20 and 0.30, whose mean is 0.2; the [averageScore]
    of the rollup is the number 7205759403792795 / 2^55, which prints as
    0.20000000000000004.  It is not the mean, and not the number nearest
    to the mean either. *)
Lemma resultsPerInstitute_mean_is_rounded :
  exists r,
    fst (resultsPerInstitute (ext := plain) (given (key 1 1)) a_student
           dimes) = Ok [r]
    /\ map flat_score (ir_results r) = [0.10; 0.20; 0.30]%Q
    /\ value (ir_averageScore r)
       = Some (7205759403792795 # 36028797018963968)
    /\ ~ (7205759403792795 # 36028797018963968
          == mean [0.10; 0.20; 0.30])%Q
    /\ ir_averageScore r <> parseFloat (mean [0.10; 0.20; 0.30]%Q).
Proof.
  eexists. split; [vm_compute; reflexivity |].
  split; [vm_compute; reflexivity |].
  split; [vm_compute; reflexivity |].
  split; [intros H; vm_compute in H; discriminate H |].
  vm_compute. discriminate.
Qed.

(** C4, amended.  Every rollup in a list returned by [resultsPerInstitute]
    is that of a stored institute: its flattened results carry the scores
    of all results of that institute's students; its [averageScore] is what
    the loop computes in binary64, the scores read and added in the order
    of the flattened results and the sum divided by their number, which is
    the arithmetic mean up to the rounding of each step, and is 0 when
    there are no results; its [totalStudents] is the number of that
    institute's students.  There is a rollup for every stored institute of
    a given id, and without an id there are ten rollups, or as many as
    there are institutes when these are fewer.  With a principal such a
    list is returned when no id is given, and when the given id names a
    stored institute or reads as a UUID. *)
Theorem resultsPerInstitute_rollups :
  (forall (ext : Collaborators) (st : Store) (context : AuthContext)
         (instituteId : optional ID) (rollups : list InstituteResults),
    fst (resultsPerInstitute instituteId context st) = Ok rollups ->
    Forall
      (fun r =>
         exists i,
           In i (tbl_institutes st)
           /\ ir_institute r = institute_ref i
           /\ Permutation (map flat_score (ir_results r))
                          (scores_of_institute st i)
           /\ ir_averageScore r = float_mean (map flat_score (ir_results r))
           /\ (ir_results r = [] -> ir_averageScore r = Number 0)
           /\ ir_totalStudents r
              = Z.of_nat (List.length (students_in st i)))
      rollups
    /\ (forall id i,
           truthy instituteId = Some id ->
           In i (tbl_institutes st) -> institute_id i = id ->
           exists r, In r rollups /\ ir_institute r = institute_ref i)
    /\ (truthy instituteId = None ->
        List.length rollups
        = Nat.min 10 (List.length (tbl_institutes st))))
  /\ forall (ext : Collaborators) (st : Store) (p : Principal)
            (instituteId : optional ID),
      (forall id, truthy instituteId = Some id ->
                  has_id institute_id id (tbl_institutes st) = true
                  \/ is_uuid id = true) ->
      exists rollups,
        fst (resultsPerInstitute instituteId {| ctx_user := Some p |} st)
        = Ok rollups.
Proof.
  split.
  2: { intros ext st p instituteId Hid.
       rewrite resultsPerInstitute_run. cbn [fst].
       destruct (truthy instituteId) as [id |]; [| eexists; reflexivity].
       destruct (Hid id eq_refl) as [-> | ->]; rewrite ?orb_true_r;
         eexists; reflexivity. }
  intros ext st [[p |]] instituteId rollups Hrun; [| discriminate].
  split; [| split].
  - apply Forall_forall. intros r Hr.
    destruct (resultsPerInstitute_stored st p instituteId rollups Hrun r Hr)
      as (i & Hi & ->).
    destruct (rollup_of_institute st i) as (Href & Hscores & Havg & Hcount).
    exists i. split; [exact Hi |]. split; [exact Href |].
    split; [rewrite Hscores; apply Permutation_refl |].
    split; [rewrite Hscores; exact Havg |].
    split; [| exact Hcount].
    intros Hnone. rewrite Havg, <- Hscores, Hnone. reflexivity.
  - intros id i Hid Hi Heq.
    rewrite resultsPerInstitute_run, Hid in Hrun. cbn [fst] in Hrun.
    destruct (_ || _); [| discriminate].
    apply Ok_inj in Hrun. subst rollups.
    exists (rollup (institute_tree st i)). split.
    + apply (in_map (fun j => rollup (institute_tree st j))).
      apply (Permutation_in _ (Permutation_sym (unordered_perm _))).
      apply filter_In. split; [exact Hi | now apply String.eqb_eq].
    + apply rollup_of_institute.
  - intros Hnone.
    rewrite resultsPerInstitute_run, Hnone in Hrun. cbn [fst] in Hrun.
    apply Ok_inj in Hrun. subst rollups.
    rewrite length_map, length_firstn.
    rewrite (Permutation_length (unordered_perm _)). reflexivity.
Qed.

(** C4, on the campus: North Institute has two students and the scores
    90, 100 and 80; Bay College has one student and the score 50.  Here
    the sums and quotients are exact. *)
Example resultsPerInstitute_rollups_campus :
  match fst (resultsPerInstitute (ext := plain) undefined a_student
               campus) with
  | Ok rollups =>
      map (fun r => (ref_name (ir_institute r),
                     option_map Qred (value (ir_averageScore r)),
                     ir_totalStudents r)) rollups
  | Throw _ => []
  end
  = [("North Institute", Some 90%Q, 2); ("Bay College", Some 50%Q, 1)].
Proof. vm_compute. reflexivity. Qed.

(** C4 amended, instantiated on the campus with no institute id. *)
Lemma resultsPerInstitute_rollups_witness :
  exists rollups,
    fst (resultsPerInstitute (ext := plain) undefined a_student campus)
    = Ok rollups
    /\ Forall
         (fun r =>
            ir_averageScore r = float_mean (map flat_score (ir_results r)))
         rollups
    /\ List.length rollups = 2%nat.
Proof.
  eexists. split; [reflexivity |].
  destruct (proj1 resultsPerInstitute_rollups plain campus a_student
              undefined _ eq_refl) as (Hall & _ & Hlen).
  split; [| exact (Hlen eq_refl)].
  eapply Forall_impl; [| exact Hall].
  intros r (i & _ & _ & _ & Havg & _). exact Havg.
Defined.

(** ** Which institutes are rolled up *)

Lemma filter_none {A : Type} (f : A -> bool) (l : list A) :
  (forall x, In x l -> f x = false) -> filter f l = [].
Proof.
  induction l as [| a l IH]; intros H; cbn.
  - reflexivity.
  - rewrite (H a) by (left; reflexivity).
    apply IH. intros x Hx. apply H. right. exact Hx.
Qed.

Lemma filter_unique_id {R : Type} (get : R -> ID) (id : ID) (l : list R) :
  NoDup (map get l) ->
  (List.length (filter (fun x => String.eqb (get x) id) l) <= 1)%nat.
Proof.
  induction l as [| x l IH]; intros Hnd; cbn.
  - lia.
  - cbn in Hnd. inversion Hnd as [| y ys Hnotin Hnd']; subst.
    destruct (String.eqb_spec (get x) id) as [E | _].
    + cbn. rewrite filter_none; [cbn; lia |].
      intros z Hz. apply String.eqb_neq. intros Ez.
      apply Hnotin. rewrite E, <- Ez. apply in_map. exact Hz.
    + apply IH. exact Hnd'.
Qed.

Lemma firstn_split_perm {A : Type} (n : nat) (l : list A) :
  Permutation (firstn n l ++ skipn n l) l.
Proof. rewrite firstn_skipn. apply Permutation_refl. Qed.

(** C2 as stated fails.  With no institute id, over eleven institutes of
    which the one stored last has the first name, an engine that yields
    rows in stored order gives the rollups of Hall 01 to Hall 10 and not
    that of Academy, and one that yields the latest rows first gives those
    of Academy and of Hall 02 to Hall 10 and not that of Hall 01; the
    first ten by name are Academy and Hall 01 to Hall 09, in this order.  An id that is given but empty is treated as no id: on
    the campus it yields both institutes.  An id that is given, names no
    institute and does not read as a UUID yields no list at all, and
    neither does a call without a principal. *)
Lemma resultsPerInstitute_not_ordered_by_name :
  (exists rollups,
      fst (resultsPerInstitute (ext := plain) undefined a_student
             eleven_institutes) = Ok rollups
      /\ Permutation
           (map (fun r => ref_name (ir_institute r)) rollups)
           ["Hall 01"; "Hall 02"; "Hall 03"; "Hall 04"; "Hall 05";
            "Hall 06"; "Hall 07"; "Hall 08"; "Hall 09"; "Hall 10"]
      /\ ~ In "Academy" (map (fun r => ref_name (ir_institute r)) rollups))
  /\ (exists rollups,
         fst (resultsPerInstitute (ext := latest_first) undefined a_student
                eleven_institutes) = Ok rollups
         /\ Permutation
              (map (fun r => ref_name (ir_institute r)) rollups)
              ["Academy"; "Hall 02"; "Hall 03"; "Hall 04"; "Hall 05";
               "Hall 06"; "Hall 07"; "Hall 08"; "Hall 09"; "Hall 10"]
         /\ ~ In "Hall 01"
                 (map (fun r => ref_name (ir_institute r)) rollups))
  /\ map institute_name (first_ten_by_name eleven_institutes)
     = ["Academy"; "Hall 01"; "Hall 02"; "Hall 03"; "Hall 04"; "Hall 05";
        "Hall 06"; "Hall 07"; "Hall 08"; "Hall 09"]
  /\ match fst (resultsPerInstitute (ext := plain) (given "") a_student
                  campus) with
     | Ok rollups => map (fun r => ref_name (ir_institute r)) rollups
     | Throw _ => []
     end
     = ["North Institute"; "Bay College"]
  /\ fst (resultsPerInstitute (ext := plain) (given "i9") a_student
            campus)
     = Throw (SequelizeError "SequelizeDatabaseError")
  /\ fst (resultsPerInstitute (ext := plain) (given (key 1 2)) anonymous
            campus)
     = Throw (GraphQLError "Authentication required" "UNAUTHENTICATED").
Proof.
  split; [| split; [| repeat split; vm_compute; reflexivity]].
  - eexists. split; [vm_compute; reflexivity |]. split.
    + apply Permutation_refl.
    + cbn. intros H. repeat (destruct H as [H | H]; [discriminate |]).
      exact H.
  - eexists. split; [vm_compute; reflexivity |]. split.
    + apply Permutation_sym.
      change (Permutation
                ("Academy" :: rev ["Hall 10"; "Hall 09"; "Hall 08"; "Hall 07";
                                   "Hall 06"; "Hall 05"; "Hall 04"; "Hall 03";
                                   "Hall 02"])
                ("Academy" :: ["Hall 10"; "Hall 09"; "Hall 08"; "Hall 07";
                               "Hall 06"; "Hall 05"; "Hall 04"; "Hall 03";
                               "Hall 02"])).
      apply perm_skip, Permutation_sym, Permutation_rev.
    + cbn. intros H. repeat (destruct H as [H | H]; [discriminate |]).
      exact H.
Qed.

(** C2, amended.  For an authenticated context: given a non-empty institute
    id that names stored institutes, [resultsPerInstitute] returns a list
    that is not empty and holds the rollups of exactly the institutes of
    that id, one as ids are unique; given one that names no stored
    institute, it returns the empty list when the id is in the form of a
    UUID and fails with the engine's SequelizeDatabaseError when the id does
    not read as a UUID; given no id (absent, [null] or the empty string),
    it returns the rollups of ten of the stored institutes, or of all when
    these are fewer, each stored institute at most once; which ten, and in
    which order, is the engine's choice: no ordering by name is applied. *)
Theorem resultsPerInstitute_selection :
  forall (ext : Collaborators) (st : Store) (p : Principal)
         (instituteId : optional ID),
    (forall id,
        instituteId = given id -> id <> "" ->
        ((exists i, In i (tbl_institutes st) /\ institute_id i = id) ->
         exists rollups,
           fst (resultsPerInstitute instituteId {| ctx_user := Some p |} st)
           = Ok rollups
           /\ rollups <> []
           /\ Forall (fun r => ref_id (ir_institute r) = id) rollups
           /\ Permutation
                (map ir_institute rollups)
                (map institute_ref
                   (filter (fun i => String.eqb (institute_id i) id)
                           (tbl_institutes st)))
           /\ (NoDup (map institute_id (tbl_institutes st)) ->
               List.length rollups = 1%nat))
        /\ ((forall i, In i (tbl_institutes st) -> institute_id i <> id) ->
            (canonical_uuid id = true ->
             fst (resultsPerInstitute instituteId {| ctx_user := Some p |} st)
             = Ok [])
            /\ (is_uuid id = false ->
                fst (resultsPerInstitute instituteId
                       {| ctx_user := Some p |} st)
                = Throw (SequelizeError "SequelizeDatabaseError"))))
    /\ (instituteId = undefined \/ instituteId = null
        \/ instituteId = given "" ->
        exists rollups rest,
          fst (resultsPerInstitute instituteId {| ctx_user := Some p |} st)
          = Ok rollups
          /\ List.length rollups
             = Nat.min 10 (List.length (tbl_institutes st))
          /\ Permutation (map ir_institute rollups ++ rest)
                         (map institute_ref (tbl_institutes st))).
Proof.
  intros ext st p instituteId. rewrite resultsPerInstitute_run. cbn [fst].
  split.
  - intros id -> Hid. cbn [truthy].
    apply String.eqb_neq in Hid. rewrite Hid.
    set (named := filter (fun i => String.eqb (institute_id i) id)
                         (tbl_institutes st)).
    split.
    + intros (i & Hi & Heq).
      assert (Hhas : has_id institute_id id (tbl_institutes st) = true).
      { apply existsb_exists. exists i. split; [exact Hi |].
        now apply String.eqb_eq. }
      rewrite Hhas. cbn [orb]. eexists. split; [reflexivity |].
      assert (Hin : In i named).
      { apply filter_In. split; [exact Hi | now apply String.eqb_eq]. }
      split; [| split; [| split]].
      * intros Hnil. apply map_eq_nil in Hnil.
        apply (Permutation_in _ (Permutation_sym (unordered_perm named)))
          in Hin.
        rewrite Hnil in Hin. contradiction.
      * apply Forall_forall. intros r Hr.
        apply in_map_iff in Hr. destruct Hr as (j & <- & Hj).
        apply (Permutation_in _ (unordered_perm named)) in Hj.
        apply filter_In in Hj. destruct Hj as [_ Hj].
        apply String.eqb_eq in Hj.
        destruct (rollup_of_institute st j) as [-> _]. exact Hj.
      * rewrite map_map.
        rewrite (map_ext (fun j => ir_institute (rollup (institute_tree st j)))
                   institute_ref)
          by (intros j; apply rollup_of_institute).
        apply Permutation_map. apply unordered_perm.
      * intros Hnd. rewrite length_map.
        rewrite (Permutation_length (unordered_perm named)).
        pose proof (filter_unique_id institute_id id (tbl_institutes st) Hnd)
          as Hmost.
        fold named in Hmost. destruct named as [| x l]; [contradiction |].
        cbn [List.length] in *. lia.
    + intros Hno.
      assert (Hhas : has_id institute_id id (tbl_institutes st) = false).
      { apply existsb_none. intros x Hx. apply String.eqb_neq.
        apply Hno. exact Hx. }
      rewrite Hhas. cbn [orb]. split.
      * intros Hform. rewrite (canonical_is_uuid id Hform).
        assert (Hnamed : named = []).
        { apply filter_none. intros x Hx. apply String.eqb_neq.
          apply Hno. exact Hx. }
        rewrite Hnamed.
        rewrite (Permutation_nil (Permutation_sym (unordered_perm []))).
        reflexivity.
      * intros ->. reflexivity.
  - intros Hnone.
    assert (truthy instituteId = None) as ->
      by (destruct Hnone as [-> | [-> | ->]]; reflexivity).
    exists (map (fun i => rollup (institute_tree st i))
                (firstn 10 (unordered (tbl_institutes st)))),
           (map institute_ref (skipn 10 (unordered (tbl_institutes st)))).
    split; [reflexivity |]. split.
    + rewrite length_map, length_firstn.
      rewrite (Permutation_length (unordered_perm _)). reflexivity.
    + rewrite map_map.
      rewrite (map_ext (fun j => ir_institute (rollup (institute_tree st j)))
                 institute_ref)
        by (intros j; apply rollup_of_institute).
      rewrite <- map_app. apply Permutation_map.
      eapply perm_trans; [apply firstn_split_perm | apply unordered_perm].
Qed.

(** C2 amended, on the campus: asking for Bay College, and asking for an
    institute number 9 that is not there. *)
Lemma resultsPerInstitute_selection_witness :
  (exists rollups,
      fst (resultsPerInstitute (ext := plain) (given (key 1 2)) a_student
             campus) = Ok rollups
      /\ rollups <> []
      /\ Forall (fun r => ref_id (ir_institute r) = key 1 2) rollups
      /\ List.length rollups = 1%nat)
  /\ fst (resultsPerInstitute (ext := plain) (given (key 1 9)) a_student
            campus) = Ok [].
Proof.
  destruct (resultsPerInstitute_selection plain campus
              {| principal_id := key 2 1; principal_email := "ada@uni.edu";
                 principal_role := "student" |} (given (key 1 2)))
    as [Hgiven _].
  destruct (resultsPerInstitute_selection plain campus
              {| principal_id := key 2 1; principal_email := "ada@uni.edu";
                 principal_role := "student" |} (given (key 1 9)))
    as [Hmissing _].
  split.
  - destruct (Hgiven (key 1 2) eq_refl) as [Hstored _]; [discriminate |].
    destruct Hstored as (rollups & Hrun & Hsome & Hfor & _ & Hone).
    { exists {| institute_id := key 1 2; institute_name := "Bay College";
                institute_location := "Khulna" |}.
      split; [right; left; reflexivity | reflexivity]. }
    exists rollups. split; [exact Hrun |]. split; [exact Hsome |].
    split; [exact Hfor |].
    apply Hone. cbn. repeat constructor; cbn; intuition discriminate.
  - destruct (Hmissing (key 1 9) eq_refl) as [_ Hnone]; [discriminate |].
    apply Hnone.
    + cbn. intros i H.
      repeat (destruct H as [<- | H]; [discriminate |]). contradiction.
    + reflexivity.
Defined.

(** ** Ordering and grouping, as the aggregate queries use them *)

Section Sorting.
Variable A : Type.
Variable leb : A -> A -> bool.
Hypothesis leb_total : forall a b, leb a b = true \/ leb b a = true.
Hypothesis leb_trans :
  forall a b c, leb a b = true -> leb b c = true -> leb a c = true.

Lemma insert_by_perm (x : A) (l : list A) :
  Permutation (insert_by leb x l) (x :: l).
Proof.
  induction l as [| y ys IH]; cbn.
  - apply Permutation_refl.
  - destruct (leb x y).
    + apply Permutation_refl.
    + eapply perm_trans; [apply perm_skip, IH | apply perm_swap].
Qed.

Lemma sort_by_perm (l : list A) : Permutation (sort_by leb l) l.
Proof.
  induction l as [| x xs IH]; cbn.
  - apply perm_nil.
  - eapply perm_trans; [apply insert_by_perm | apply perm_skip, IH].
Qed.

Lemma insert_by_sorted (x : A) (l : list A) :
  StronglySorted (fun a b => leb a b = true) l ->
  StronglySorted (fun a b => leb a b = true) (insert_by leb x l).
Proof.
  induction l as [| y ys IH]; intros Hs; cbn.
  - constructor; constructor.
  - apply StronglySorted_inv in Hs. destruct Hs as [Hys Hall].
    destruct (leb x y) eqn:Hxy.
    + constructor; [constructor; assumption |].
      constructor; [exact Hxy |].
      apply Forall_forall. intros z Hz.
      apply leb_trans with y; [exact Hxy |].
      revert z Hz. apply Forall_forall. exact Hall.
    + constructor; [apply IH; exact Hys |].
      apply Forall_forall. intros z Hz.
      apply (Permutation_in z (insert_by_perm x ys)) in Hz.
      destruct Hz as [<- | Hz].
      * destruct (leb_total x y) as [H | H]; [congruence | exact H].
      * revert z Hz. apply Forall_forall. exact Hall.
Qed.

Lemma sort_by_sorted (l : list A) :
  StronglySorted (fun a b => leb a b = true) (sort_by leb l).
Proof.
  induction l as [| x xs IH]; cbn.
  - constructor.
  - apply insert_by_sorted. exact IH.
Qed.

End Sorting.

(** Sorting what the engine yields gives the same rows. *)
Lemma sort_unordered_perm {ext : Collaborators} {A : Type}
    (leb : A -> A -> bool) (l : list A) :
  Permutation (sort_by leb (unordered l)) l.
Proof.
  eapply perm_trans; [apply sort_by_perm | apply unordered_perm].
Qed.

Lemma firstn_sorted {A : Type} (R : A -> A -> Prop) (n : nat) (l : list A) :
  StronglySorted R l -> StronglySorted R (firstn n l).
Proof.
  revert l. induction n as [| n IH]; intros [| x l] Hs; cbn;
    try constructor.
  - apply IH. apply StronglySorted_inv in Hs. tauto.
  - apply StronglySorted_inv in Hs. destruct Hs as [_ Hall].
    apply Forall_forall. intros z Hz. apply in_firstn in Hz.
    revert z Hz. apply Forall_forall. exact Hall.
Qed.

Lemma firstn_nodup {A : Type} (n : nat) (l : list A) :
  NoDup l -> NoDup (firstn n l).
Proof.
  revert l. induction n as [| n IH]; intros [| x l] Hnd; cbn;
    try constructor.
  - inversion Hnd; subst. intros Hin. apply in_firstn in Hin. contradiction.
  - inversion Hnd; subst. apply IH. assumption.
Qed.

Lemma map_firstn {A B : Type} (f : A -> B) (n : nat) (l : list A) :
  map f (firstn n l) = firstn n (map f l).
Proof.
  revert l. induction n as [| n IH]; intros [| x l]; cbn;
    try reflexivity.
  now rewrite IH.
Qed.

Lemma distinct_in (k : string) (ks : list string) :
  In k (distinct ks) <-> In k ks.
Proof.
  induction ks as [| x xs IH]; cbn; [tauto |].
  rewrite filter_In, IH.
  destruct (String.eqb_spec x k) as [-> | Hne]; cbn.
  - tauto.
  - split; [tauto |]. intros [H | H]; [now left | right; tauto].
Qed.

Lemma distinct_nodup (ks : list string) : NoDup (distinct ks).
Proof.
  induction ks as [| x xs IH]; cbn; constructor.
  - rewrite filter_In. intros [_ H]. rewrite String.eqb_refl in H.
    discriminate.
  - apply NoDup_filter. exact IH.
Qed.

Lemma group_by_keys {R : Type} (key : R -> string) (l : list R) :
  map fst (group_by key l) = distinct (map key l).
Proof.
  unfold group_by. rewrite map_map. cbn. apply map_id.
Qed.

Lemma group_by_in {R : Type} (key : R -> string) (l : list R)
    (g : string * list R) :
  In g (group_by key l) ->
  snd g = filter (fun r => String.eqb (key r) (fst g)) l
  /\ exists r, In r l /\ key r = fst g.
Proof.
  unfold group_by. intros H. apply in_map_iff in H.
  destruct H as (k & <- & Hk). cbn. split; [reflexivity |].
  apply (proj1 (distinct_in _ _)) in Hk. apply in_map_iff in Hk.
  destruct Hk as (r & Hr & Hin). exists r. tauto.
Qed.

Lemma window_limit {A : Type} (n : Z) (l : list A) :
  0 <= n -> window (Some n) None l = Ok (firstn (Z.to_nat n) l).
Proof.
  intros Hn. unfold window, is_negative.
  replace (n <? 0) with false by (symmetry; apply Z.ltb_ge; exact Hn).
  reflexivity.
Qed.

Lemma window_firstn {A : Type} (limit0 : option Z) (l rows : list A) :
  window limit0 None l = Ok rows ->
  exists k, rows = firstn k l
            /\ forall n, limit0 = Some n -> 0 <= n /\ k = Z.to_nat n.
Proof.
  unfold window. destruct limit0 as [n |]; cbn [is_negative].
  - rewrite orb_false_r. destruct (Z.ltb_spec n 0) as [Hneg | Hpos];
      intros H; [discriminate |].
    apply Ok_inj in H. exists (Z.to_nat n). split; [now symmetry |].
    intros m Hm. injection Hm as <-. split; [exact Hpos | reflexivity].
  - cbn. intros H. apply Ok_inj in H. exists (List.length l).
    split; [rewrite firstn_all; now symmetry | intros n Hn; discriminate].
Qed.

Lemma Forall2_of_maps {A B C : Type} (P : B -> C -> Prop) (f : A -> B)
    (g : A -> C) (l : list A) :
  Forall (fun a => P (f a) (g a)) l -> Forall2 P (map f l) (map g l).
Proof.
  induction 1; cbn; constructor; assumption.
Qed.

Lemma sorted_map {A B : Type} (R : A -> A -> Prop) (S : B -> B -> Prop)
    (f : A -> B) (l : list A) :
  (forall a b, R a b -> S (f a) (f b)) ->
  StronglySorted R l -> StronglySorted S (map f l).
Proof.
  intros HRS. induction 1 as [| a l Hs IH Hall]; cbn; constructor.
  - exact IH.
  - apply Forall_forall. intros b Hb. apply in_map_iff in Hb.
    destruct Hb as (x & <- & Hx). apply HRS.
    revert x Hx. apply Forall_forall. exact Hall.
Qed.

Lemma sorted_impl {A : Type} (R S : A -> A -> Prop) (l : list A) :
  (forall a b, R a b -> S a b) -> StronglySorted R l -> StronglySorted S l.
Proof.
  intros HRS Hs. rewrite <- (map_id l).
  apply sorted_map with (R := R); assumption.
Qed.

Lemma filter_twice {A : Type} (f g : A -> bool) (l : list A) :
  filter g (filter f l) = filter (fun x => f x && g x) l.
Proof.
  induction l as [| x l IH]; cbn; [reflexivity |].
  destruct (f x); cbn; [destruct (g x) |]; now rewrite IH.
Qed.

(** ** Top courses of a year *)

(** Of what comes sorted, nothing among the first [k] is behind anything
    that follows them. *)
Lemma sorted_firstn_skipn {A : Type} (R : A -> A -> Prop) (k : nat)
    (l : list A) :
  StronglySorted R l ->
  forall y x, In y (firstn k l) -> In x (skipn k l) -> R y x.
Proof.
  revert l. induction k as [| k IH]; intros [| a l] Hs y x Hy Hx;
    cbn in Hy, Hx; try contradiction.
  apply StronglySorted_inv in Hs. destruct Hs as [Hl Hall].
  destruct Hy as [<- | Hy].
  - apply (proj1 (Forall_forall _ _) Hall).
    rewrite <- (firstn_skipn k l). apply in_or_app. right. exact Hx.
  - apply (IH l Hl y x Hy Hx).
Qed.

(** Counts in descending order are the same list whenever they are the
    same counts. *)
Lemma descending_unique (l1 l2 : list Z) :
  StronglySorted (fun a b => b <= a) l1 ->
  StronglySorted (fun a b => b <= a) l2 ->
  Permutation l1 l2 -> l1 = l2.
Proof.
  revert l2. induction l1 as [| a l1 IH]; intros l2 H1 H2 Hp.
  - apply Permutation_nil in Hp. now subst.
  - destruct l2 as [| b l2].
    { apply Permutation_sym, Permutation_nil in Hp. discriminate. }
    apply StronglySorted_inv in H1, H2.
    destruct H1 as [H1 Ha], H2 as [H2 Hb].
    assert (Hab : a = b).
    { assert (In a (b :: l2)) as [E | Hin]
        by (apply (Permutation_in _ Hp); now left); [now symmetry |].
      assert (In b (a :: l1)) as [E | Hin']
        by (apply (Permutation_in _ (Permutation_sym Hp)); now left);
        [exact E |].
      pose proof (proj1 (Forall_forall _ _) Hb a Hin) as Hle.
      pose proof (proj1 (Forall_forall _ _) Ha b Hin') as Hge.
      cbv beta in Hle, Hge. lia. }
    subst b. f_equal. apply IH; [exact H1 | exact H2 |].
    apply (Permutation_cons_inv Hp).
Qed.

Lemma window_all {A : Type} (l rows : list A) :
  window None None l = Ok rows -> rows = l.
Proof. cbn. intros H. apply Ok_inj in H. now symmetry. Qed.

Lemma window_negative {A : Type} (n : Z) (l : list A) :
  n < 0 -> window (Some n) None l = Throw database_error.
Proof.
  intros Hn. unfold window, is_negative.
  replace (n <? 0) with true by (symmetry; apply Z.ltb_lt; exact Hn).
  reflexivity.
Qed.

(** The limit in force: the one given, 10 when it is left out, none when
    it is given as [null]. *)
Lemma limit_in_force (limit0 : optional Z) (n : Z) :
  clause (with_default limit0 10) = Some n
  <-> limit0 = given n \/ (limit0 = undefined /\ n = 10).
Proof.
  destruct limit0 as [| | m]; cbn; split.
  - intros H. injection H as <-. right. split; reflexivity.
  - intros [H | [_ ->]]; [discriminate | reflexivity].
  - discriminate.
  - intros [H | [H _]]; discriminate.
  - intros H. injection H as ->. left. reflexivity.
  - intros [H | [H _]]; [injection H as -> | discriminate]. reflexivity.
Qed.

(** The lookups that follow an aggregate query change no table; each
    returns the first stored row of the key it is given. *)
Lemma mapM_returned {A B : Type} (f : A -> M B) (g : A -> B)
    (inv : Store -> Prop) :
  (forall a st, inv st ->
                inv (snd (f a st))
                /\ forall b, fst (f a st) = Ok b -> b = g a) ->
  forall l st bs, inv st -> fst (mapM f l st) = Ok bs -> bs = map g l.
Proof.
  intros Hf. induction l as [| x xs IH]; intros st bs Hst; cbn [mapM map].
  - intros H. apply Ok_inj in H. now symmetry.
  - unfold bind. destruct (Hf x st Hst) as [Hinv Hx].
    destruct (f x st) as [[y | e] st1]; cbn [fst snd] in Hx, Hinv;
      [| discriminate].
    specialize (IH st1).
    destruct (mapM f xs st1) as [[ys | e] st2]; cbn [fst snd] in IH |- *;
      [| discriminate].
    intros H. apply Ok_inj in H. subst bs.
    rewrite (Hx y eq_refl), (IH ys Hinv eq_refl). reflexivity.
Qed.

Lemma mapM_returns {A B : Type} (f : A -> M B) (g : A -> B)
    (inv : Store -> Prop) (l : list A) :
  (forall a, In a l ->
             forall st, inv st ->
                        fst (f a st) = Ok (g a) /\ inv (snd (f a st))) ->
  forall st, inv st ->
             fst (mapM f l st) = Ok (map g l) /\ inv (snd (mapM f l st)).
Proof.
  induction l as [| x xs IH]; intros Hf st Hst; cbn [mapM map].
  - split; [reflexivity | exact Hst].
  - destruct (Hf x (or_introl eq_refl) st Hst) as [Hx Hinv]. unfold bind.
    destruct (f x st) as [[y | e] st1]; cbn [fst snd] in Hx, Hinv;
      [| discriminate].
    injection Hx as ->.
    destruct (IH (fun a Ha => Hf a (or_intror Ha)) st1 Hinv) as [Hxs Hinv'].
    destruct (mapM f xs st1) as [[ys | e] st2]; cbn [fst snd] in Hxs, Hinv';
      [| discriminate].
    injection Hxs as ->. split; [reflexivity | exact Hinv'].
Qed.

Lemma lookup_returned {R : Type} (get : R -> ID) (id : ID) (l : list R)
    (found : option R) :
  lookup_key get id l = Ok found ->
  found = find (fun x => String.eqb (get x) id) l.
Proof.
  unfold lookup_key. destruct (find _ l) as [r |].
  - intros H. apply Ok_inj in H. now symmetry.
  - destruct (is_uuid id); [| discriminate].
    intros H. apply Ok_inj in H. now symmetry.
Qed.

Lemma lookup_stored {R : Type} (get : R -> ID) (id : ID) (l : list R) :
  has_id get id l = true ->
  lookup_key get id l = Ok (find (fun x => String.eqb (get x) id) l).
Proof.
  unfold has_id, lookup_key. intros H.
  apply existsb_exists in H. destruct H as (x & Hx & Heq).
  destruct (find_present (fun y => String.eqb (get y) id) l x Hx Heq)
    as (b & -> & _).
  reflexivity.
Qed.

Section SortedRows.
Context {ext : Collaborators}.
Variable A : Type.
Variable leb : A -> A -> bool.
Hypothesis leb_total : forall a b, leb a b = true \/ leb b a = true.
Hypothesis leb_trans :
  forall a b c, leb a b = true -> leb b c = true -> leb a c = true.

(** What a query with an [order] and a [limit] option yields of the rows
    [l] it selects: the first [k] of these rows in some sorted order, where
    [k] is the limit, or the number of rows when there is none. *)
Lemma sorted_window (limit0 : option Z) (l rows : list A) :
  window limit0 None (ordered (Some leb) l) = Ok rows ->
  exists all k,
    rows = firstn k all
    /\ Permutation all l
    /\ StronglySorted (fun a b => leb a b = true) all
    /\ (forall n, limit0 = Some n -> 0 <= n /\ k = Z.to_nat n)
    /\ (limit0 = None -> k = List.length all).
Proof.
  intros H. exists (ordered (Some leb) l).
  assert (Hperm : Permutation (ordered (Some leb) l) l).
  { cbn [ordered].
    eapply perm_trans; [apply sort_by_perm | apply unordered_perm]. }
  assert (Hsorted : StronglySorted (fun a b => leb a b = true)
                                   (ordered (Some leb) l))
    by (apply sort_by_sorted; assumption).
  destruct limit0 as [n |].
  - apply window_firstn in H. destruct H as (k & -> & Hk).
    exists k. split; [reflexivity |]. split; [exact Hperm |].
    split; [exact Hsorted |]. split; [exact Hk | discriminate].
  - apply window_all in H. subst rows.
    exists (List.length (ordered (Some leb) l)).
    rewrite firstn_all. split; [reflexivity |]. split; [exact Hperm |].
    split; [exact Hsorted |]. split; [discriminate | reflexivity].
Qed.

(** A row that is selected and not yielded is behind every row that is, and
    the limit is then used up. *)
Lemma sorted_window_left_out (limit0 : option Z) (l rows : list A) (x : A) :
  window limit0 None (ordered (Some leb) l) = Ok rows ->
  In x l -> ~ In x rows ->
  (forall y, In y rows -> leb y x = true)
  /\ exists n, limit0 = Some n /\ List.length rows = Z.to_nat n.
Proof.
  intros H Hx Hout.
  destruct (sorted_window limit0 l rows H)
    as (all & k & -> & Hperm & Hsorted & Hsome & Hnone).
  assert (Hrest : In x (skipn k all)).
  { apply (Permutation_in _ (Permutation_sym Hperm)) in Hx.
    rewrite <- (firstn_skipn k all) in Hx.
    apply in_app_or in Hx. destruct Hx; [contradiction | assumption]. }
  split.
  - intros y Hy.
    apply (sorted_firstn_skipn _ k all Hsorted y x Hy Hrest).
  - destruct limit0 as [n |].
    + exists n. split; [reflexivity |].
      destruct (Hsome n eq_refl) as [_ ->].
      apply firstn_length_le.
      destruct (Nat.le_gt_cases (Z.to_nat n) (List.length all)) as [Hle | Hgt];
        [exact Hle |].
      rewrite skipn_all2 in Hrest by lia. contradiction.
    + rewrite (Hnone eq_refl), skipn_all in Hrest. contradiction.
Qed.

End SortedRows.

Section CourseCounts.
Context {ext : Collaborators}.

Lemma by_enrollment_total (a b : CourseCount) :
  by_enrollment a b = true \/ by_enrollment b a = true.
Proof.
  unfold by_enrollment.
  destruct (Z.leb_spec (agg_enrollmentCount b) (agg_enrollmentCount a));
    [now left | right; apply Z.leb_le; lia].
Qed.

Lemma by_enrollment_trans (a b c : CourseCount) :
  by_enrollment a b = true -> by_enrollment b c = true ->
  by_enrollment a c = true.
Proof.
  unfold by_enrollment. intros Hab Hbc.
  apply Z.leb_le in Hab, Hbc. apply Z.leb_le. lia.
Qed.

Lemma course_groups (st : Store) (year : Z) (row : CourseCount) :
  In row (map course_count
            (group_by result_courseId
               (filter (fun r => result_year r =? year) (tbl_results st)))) ->
  agg_enrollmentCount row = enrollment st year (agg_courseId row)
  /\ 0 < agg_enrollmentCount row.
Proof.
  intros Hrow. apply in_map_iff in Hrow. destruct Hrow as (g & <- & Hg).
  apply group_by_in in Hg. destruct Hg as [Hsnd (r & Hr & Hkey)].
  unfold course_count, enrollment.
  cbn [agg_enrollmentCount agg_courseId].
  unfold count_of. rewrite Hsnd, filter_twice. split; [reflexivity |].
  rewrite <- filter_twice.
  assert (Hin : In r (filter (fun x => String.eqb (result_courseId x)
                                                 (fst g))
                        (filter (fun x => result_year x =? year)
                                (tbl_results st)))).
  { apply filter_In. split; [exact Hr | now apply String.eqb_eq]. }
  destruct (filter _ (filter _ _)); [contradiction | cbn; lia].
Qed.

(** A course with results in the year has its group. *)
Lemma course_group_of (st : Store) (year : Z) (courseId : ID) :
  0 < enrollment st year courseId ->
  In {| agg_courseId := courseId;
        agg_enrollmentCount := enrollment st year courseId |}
     (map course_count
        (group_by result_courseId
           (filter (fun r => result_year r =? year) (tbl_results st)))).
Proof.
  intros Hpos. unfold enrollment, count_of in Hpos.
  destruct (filter _ (tbl_results st)) as [| r l] eqn:E;
    [cbn in Hpos; lia |].
  assert (Hr : In r (filter (fun r => (result_year r =? year)
                                      && String.eqb (result_courseId r)
                                                    courseId)
                            (tbl_results st)))
    by (rewrite E; now left).
  apply filter_In in Hr. destruct Hr as [Hr Hboth].
  apply andb_prop in Hboth. destruct Hboth as [Hyear Hcourse].
  apply String.eqb_eq in Hcourse.
  apply in_map_iff.
  exists (courseId,
          filter (fun x => String.eqb (result_courseId x) courseId)
                 (filter (fun x => result_year x =? year) (tbl_results st))).
  split.
  - unfold course_count, enrollment. cbn [fst snd].
    rewrite filter_twice. reflexivity.
  - unfold group_by. apply in_map_iff. exists courseId.
    split; [reflexivity |]. apply distinct_in. apply in_map_iff.
    exists r. split; [exact Hcourse |].
    apply filter_In. split; assumption.
Qed.

Lemma course_groups_nodup (st : Store) (year : Z) :
  NoDup (map agg_courseId
           (map course_count
              (group_by result_courseId
                 (filter (fun r => result_year r =? year)
                         (tbl_results st))))).
Proof.
  rewrite map_map. cbn.
  change (NoDup (map fst (group_by result_courseId
                            (filter (fun r => result_year r =? year)
                                    (tbl_results st))))).
  rewrite group_by_keys. apply distinct_nodup.
Qed.

(** The aggregate rows behind [topCourses]. *)
Lemma enrollment_counts_rows (st : Store) (year : Z) (limit0 : option Z)
    (rows : list CourseCount) :
  enrollment_counts year limit0 st = Ok rows ->
  (forall n, limit0 = Some n ->
             0 <= n /\ (List.length rows <= Z.to_nat n)%nat)
  /\ NoDup (map agg_courseId rows)
  /\ StronglySorted
       (fun a b => agg_enrollmentCount b <= agg_enrollmentCount a) rows
  /\ Forall
       (fun row =>
          agg_enrollmentCount row = enrollment st year (agg_courseId row)
          /\ 0 < agg_enrollmentCount row)
       rows
  /\ (forall courseId,
         0 < enrollment st year courseId ->
         ~ In courseId (map agg_courseId rows) ->
         (forall row, In row rows ->
                      enrollment st year courseId <= agg_enrollmentCount row)
         /\ exists n, limit0 = Some n /\ List.length rows = Z.to_nat n).
Proof.
  unfold enrollment_counts. intros H.
  set (groups := map course_count
                   (group_by result_courseId
                      (filter (fun r => result_year r =? year)
                              (tbl_results st)))) in *.
  pose proof (fun x => sorted_window_left_out _ by_enrollment
                         by_enrollment_total by_enrollment_trans limit0
                         groups rows x H) as Hout.
  destruct (sorted_window _ by_enrollment by_enrollment_total
              by_enrollment_trans limit0 groups rows H)
    as (all & k & Hrows & Hperm & Hsorted & Hsome & Hnone).
  split; [| split; [| split; [| split]]].
  - intros n Hn. destruct (Hsome n Hn) as [Hpos ->].
    split; [exact Hpos |]. rewrite Hrows. apply firstn_le_length.
  - rewrite Hrows, map_firstn. apply firstn_nodup.
    apply (Permutation_NoDup
             (Permutation_sym (Permutation_map agg_courseId Hperm))).
    apply course_groups_nodup.
  - rewrite Hrows. apply firstn_sorted.
    apply sorted_impl with (R := fun a b => by_enrollment a b = true);
      [| exact Hsorted].
    intros a b Hab. apply Z.leb_le. exact Hab.
  - apply Forall_forall. intros row Hrow. rewrite Hrows in Hrow.
    apply in_firstn in Hrow. apply (Permutation_in _ Hperm) in Hrow.
    apply course_groups. exact Hrow.
  - intros courseId Hpos Hnot.
    destruct (Hout {| agg_courseId := courseId;
                      agg_enrollmentCount := enrollment st year courseId |})
      as [Hbehind Hfull].
    + apply course_group_of. exact Hpos.
    + intros Hin. apply Hnot.
      apply (in_map agg_courseId) in Hin. exact Hin.
    + split; [| exact Hfull].
      intros row Hrow. apply Z.leb_le. apply (Hbehind row Hrow).
Qed.

(** The counts of the aggregate rows are the same under any two engines,
    and results of other years play no part in them. *)
Lemma enrollment_counts_engines (ext' : Collaborators) (st : Store)
    (year : Z) (limit0 : option Z) (rows rows' : list CourseCount) :
  enrollment_counts (ext := ext) year limit0 st = Ok rows ->
  enrollment_counts (ext := ext') year limit0 (year_only year st)
  = Ok rows' ->
  map agg_enrollmentCount rows' = map agg_enrollmentCount rows.
Proof.
  unfold enrollment_counts, year_only. cbn [tbl_results set_results].
  rewrite filter_twice.
  rewrite (filter_ext (fun r => (result_year r =? year)
                                && (result_year r =? year))
                      (fun r => result_year r =? year))
    by (intros r; destruct (result_year r =? year); reflexivity).
  set (groups := map course_count _).
  intros H H'.
  destruct (sorted_window (ext := ext) _ by_enrollment by_enrollment_total
              by_enrollment_trans limit0 groups rows H)
    as (all & k & -> & Hperm & Hsorted & Hsome & Hnone).
  destruct (sorted_window (ext := ext') _ by_enrollment by_enrollment_total
              by_enrollment_trans limit0 groups rows' H')
    as (all' & k' & -> & Hperm' & Hsorted' & Hsome' & Hnone').
  assert (Hall : map agg_enrollmentCount all' = map agg_enrollmentCount all).
  { apply descending_unique.
    - revert Hsorted'. apply sorted_map. intros a b Hab.
      apply Z.leb_le. exact Hab.
    - revert Hsorted. apply sorted_map. intros a b Hab.
      apply Z.leb_le. exact Hab.
    - apply Permutation_map.
      eapply perm_trans; [exact Hperm' | apply Permutation_sym, Hperm]. }
  assert (Hk : k' = k).
  { destruct limit0 as [n |].
    - destruct (Hsome n eq_refl) as [_ ->].
      destruct (Hsome' n eq_refl) as [_ ->]. reflexivity.
    - rewrite (Hnone eq_refl), (Hnone' eq_refl).
      rewrite <- (length_map agg_enrollmentCount all'), Hall.
      apply length_map. }
  rewrite !map_firstn, Hall, Hk. reflexivity.
Qed.

(** [topCourses] with a principal: the aggregate query, then one course
    lookup per row. *)
Lemma topCourses_refused (st : Store) (p : Principal) (year : Z)
    (limit0 : optional Z) (e : Error) :
  enrollment_counts year (clause (with_default limit0 10)) st = Throw e ->
  fst (topCourses year limit0 {| ctx_user := Some p |} st) = Throw e.
Proof.
  intros H. unfold topCourses, requireAuth, bind, record_query, lift.
  cbn [ctx_user ret fst snd].
  change (enrollment_counts year (clause (with_default limit0 10))
            (logged (Q_findAll Results) st))
    with (enrollment_counts year (clause (with_default limit0 10)) st).
  rewrite H. reflexivity.
Qed.

Lemma topCourses_returned (st : Store) (p : Principal) (year : Z)
    (limit0 : optional Z) (tops : list TopCourse) :
  fst (topCourses year limit0 {| ctx_user := Some p |} st) = Ok tops ->
  exists rows,
    enrollment_counts year (clause (with_default limit0 10)) st = Ok rows
    /\ tops = map (top_course_of st year) rows.
Proof.
  unfold topCourses, requireAuth, bind, record_query, lift.
  cbn [ctx_user ret fst snd].
  change (enrollment_counts year (clause (with_default limit0 10))
            (logged (Q_findAll Results) st))
    with (enrollment_counts year (clause (with_default limit0 10)) st).
  destruct (enrollment_counts year (clause (with_default limit0 10)) st)
    as [counted | e]; [| discriminate].
  intros H. exists counted. split; [reflexivity |].
  revert H.
  apply (mapM_returned _ (top_course_of st year)
           (fun st' => tbl_courses st' = tbl_courses st));
    [| reflexivity].
  intros row st' Hst'. rewrite findByPk_run. unfold bind, ret, lift.
  change (rows CourseModel (logged _ st')) with (tbl_courses st').
  change (pk CourseModel) with course_id. rewrite Hst'.
  split.
  - destruct (lookup_key _ _ _); exact Hst'.
  - intros b.
    destruct (lookup_key course_id (agg_courseId row) (tbl_courses st))
      as [found | e] eqn:E; [| discriminate].
    cbn [fst]. intros H. apply Ok_inj in H. subst b.
    unfold top_course_of. rewrite (lookup_returned _ _ _ _ E). reflexivity.
Qed.

Lemma topCourses_returns (st : Store) (p : Principal) (year : Z)
    (limit0 : optional Z) (counted : list CourseCount) :
  enrollment_counts year (clause (with_default limit0 10)) st = Ok counted ->
  (forall row, In row counted ->
               has_id course_id (agg_courseId row) (tbl_courses st) = true) ->
  fst (topCourses year limit0 {| ctx_user := Some p |} st)
  = Ok (map (top_course_of st year) counted).
Proof.
  intros H Hstored. unfold topCourses, requireAuth, bind, record_query, lift.
  cbn [ctx_user ret fst snd].
  change (enrollment_counts year (clause (with_default limit0 10))
            (logged (Q_findAll Results) st))
    with (enrollment_counts year (clause (with_default limit0 10)) st).
  rewrite H.
  apply (mapM_returns _ (top_course_of st year)
           (fun st' => tbl_courses st' = tbl_courses st));
    [| reflexivity].
  intros row Hrow st' Hst'. rewrite findByPk_run. unfold bind, ret, lift.
  change (rows CourseModel (logged _ st')) with (tbl_courses st').
  change (pk CourseModel) with course_id. rewrite Hst'.
  rewrite (lookup_stored _ _ _ (Hstored row Hrow)).
  split; [reflexivity | exact Hst'].
Qed.

Lemma topCourses_anonymous (st : Store) (year : Z) (limit0 : optional Z) :
  fst (topCourses year limit0 {| ctx_user := None |} st)
  = Throw authentication_required.
Proof. reflexivity. Qed.

End CourseCounts.

(** A list that holds the same three rows as [[a; b; c]] is one of their
    six orders. *)
Lemma three_rows {A : Type} (a b c : A) (l : list A) :
  Permutation l [a; b; c] ->
  l = [a; b; c] \/ l = [a; c; b] \/ l = [b; a; c]
  \/ l = [b; c; a] \/ l = [c; a; b] \/ l = [c; b; a].
Proof.
  intros Hp. pose proof (Permutation_length Hp) as Hlen.
  destruct l as [| x [| y [| z [| w l]]]]; try discriminate Hlen.
  assert (Hx : In x [a; b; c]) by (apply (Permutation_in _ Hp); cbn; tauto).
  destruct Hx as [<- | [<- | [<- | []]]].
  - apply Permutation_cons_inv in Hp.
    apply Permutation_sym, Permutation_length_2_inv in Hp.
    destruct Hp as [H | H]; injection H as -> ->; tauto.
  - assert (Hp' : Permutation (b :: [y; z]) (b :: [a; c])).
    { eapply perm_trans; [exact Hp | apply perm_swap]. }
    apply Permutation_cons_inv in Hp'.
    apply Permutation_sym, Permutation_length_2_inv in Hp'.
    destruct Hp' as [H | H]; injection H as -> ->; tauto.
  - assert (Hp' : Permutation (c :: [y; z]) (c :: [a; b])).
    { eapply perm_trans; [exact Hp |].
      eapply perm_trans; [apply perm_skip, perm_swap | apply perm_swap]. }
    apply Permutation_cons_inv in Hp'.
    apply Permutation_sym, Permutation_length_2_inv in Hp'.
    destruct Hp' as [H | H]; injection H as -> ->; tauto.
Qed.

Lemma sorted_three {A : Type} (R : A -> A -> Prop) (x y z : A) :
  StronglySorted R [x; y; z] -> R x y /\ R x z /\ R y z.
Proof.
  intros H. apply StronglySorted_inv in H. destruct H as [H Hx].
  apply StronglySorted_inv in H. destruct H as [_ Hy].
  inversion Hx as [| ? ? Hxy Hx']; subst.
  inversion Hx' as [| ? ? Hxz _]; subst.
  inversion Hy as [| ? ? Hyz _]; subst. tauto.
Qed.

(** The answer on the sample enrolments, whatever the engine: courses 1
    and 2 with five results each, in either order. *)
Lemma enrolment_book_counts (ext : Collaborators) :
  enrollment_counts 2024 (Some 2) enrolment_book
  = Ok [{| agg_courseId := key 4 1; agg_enrollmentCount := 5 |};
        {| agg_courseId := key 4 2; agg_enrollmentCount := 5 |}]
  \/ enrollment_counts 2024 (Some 2) enrolment_book
     = Ok [{| agg_courseId := key 4 2; agg_enrollmentCount := 5 |};
           {| agg_courseId := key 4 1; agg_enrollmentCount := 5 |}].
Proof.
  unfold enrollment_counts.
  set (groups := map course_count _).
  assert (Hgroups :
            groups
            = [{| agg_courseId := key 4 1; agg_enrollmentCount := 5 |};
               {| agg_courseId := key 4 2; agg_enrollmentCount := 5 |};
               {| agg_courseId := key 4 3; agg_enrollmentCount := 2 |}])
    by (vm_compute; reflexivity).
  clearbody groups. subst groups.
  rewrite window_limit by lia.
  assert (Hperm : Permutation
                    (ordered (Some by_enrollment)
                       [{| agg_courseId := key 4 1; agg_enrollmentCount := 5 |};
                        {| agg_courseId := key 4 2; agg_enrollmentCount := 5 |};
                        {| agg_courseId := key 4 3; agg_enrollmentCount := 2 |}])
                    [{| agg_courseId := key 4 1; agg_enrollmentCount := 5 |};
                     {| agg_courseId := key 4 2; agg_enrollmentCount := 5 |};
                     {| agg_courseId := key 4 3; agg_enrollmentCount := 2 |}]).
  { cbn [ordered].
    eapply perm_trans; [apply sort_by_perm | apply unordered_perm]. }
  assert (Hsorted : StronglySorted (fun a b => by_enrollment a b = true)
                      (ordered (Some by_enrollment)
                         [{| agg_courseId := key 4 1; agg_enrollmentCount := 5 |};
                          {| agg_courseId := key 4 2; agg_enrollmentCount := 5 |};
                          {| agg_courseId := key 4 3; agg_enrollmentCount := 2 |}]))
    by (apply sort_by_sorted;
        [apply by_enrollment_total | apply by_enrollment_trans]).
  destruct (three_rows _ _ _ _ Hperm) as [H | [H | [H | [H | [H | H]]]]];
    rewrite H in Hsorted |- *;
    apply sorted_three in Hsorted; destruct Hsorted as (H1 & H2 & H3);
    try discriminate H1; try discriminate H2; try discriminate H3;
    [left | right]; reflexivity.
Qed.

(** C6 as stated fails: a limit below zero is passed on to the engine,
    which refuses the query; nothing is returned then. *)
Lemma topCourses_negative_limit_refused :
  fst (topCourses (ext := plain) 2024 (given (-1)) a_student
         enrolment_book)
  = Throw (SequelizeError "SequelizeDatabaseError").
Proof. reflexivity. Qed.

(** C6, amended.  For every engine, year, limit and context, a list
    returned by [topCourses] holds one entry per course, for distinct
    courses, in descending order of [enrollmentCount]; the count of an
    entry is the number of results of that course whose year is the given
    year, and is positive.  The list holds at most [limit] entries (10 when
    the limit is left out), and these are the most enrolled: a course with
    results in that year that is left out has no more of them than any
    course in the list, and the list then holds exactly [limit] entries; so
    with the limit [null] no such course is left out.  The counts are the
    same, in the same order, under any other engine and with every result
    of another year dropped from the store.  With a principal, a limit
    below zero ends in the engine's SequelizeDatabaseError, and any other
    limit returns a list when every result names a stored course.  On the
    sample enrolments (course 1: 5, course 2: 5, course 3: 2 in 2024 and 4
    more in 2023) with year 2024 and limit 2 the answer is courses 1 and 2,
    in either order, five each, and course 3 is not in it. *)
Theorem topCourses_by_enrollment :
  (forall (ext : Collaborators) (st : Store) (context : AuthContext)
          (year : Z) (limit0 : optional Z) (tops : list TopCourse),
      fst (topCourses year limit0 context st) = Ok tops ->
      exists courseIds,
        NoDup courseIds
        /\ Forall2
             (fun courseId t =>
                tc_year t = year
                /\ tc_course t
                   = find (fun c => String.eqb (course_id c) courseId)
                          (tbl_courses st)
                /\ tc_enrollmentCount t = enrollment st year courseId
                /\ 0 < tc_enrollmentCount t)
             courseIds tops
        /\ StronglySorted
             (fun a b => tc_enrollmentCount b <= tc_enrollmentCount a) tops
        /\ (forall n, limit0 = given n \/ (limit0 = undefined /\ n = 10) ->
                      0 <= n /\ (List.length tops <= Z.to_nat n)%nat)
        /\ (forall courseId,
               0 < enrollment st year courseId ->
               ~ In courseId courseIds ->
               (forall t, In t tops ->
                          enrollment st year courseId <= tc_enrollmentCount t)
               /\ exists n,
                    (limit0 = given n \/ (limit0 = undefined /\ n = 10))
                    /\ List.length tops = Z.to_nat n)
        /\ (forall (ext' : Collaborators) (tops' : list TopCourse),
               fst (topCourses (ext := ext') year limit0 context
                      (year_only year st)) = Ok tops' ->
               map tc_enrollmentCount tops' = map tc_enrollmentCount tops))
  /\ (forall (ext : Collaborators) (st : Store) (p : Principal) (year : Z)
             (limit0 : optional Z),
         (forall n, limit0 = given n \/ (limit0 = undefined /\ n = 10) ->
                    n < 0 ->
                    fst (topCourses year limit0 {| ctx_user := Some p |} st)
                    = Throw (SequelizeError "SequelizeDatabaseError"))
         /\ ((forall n, limit0 = given n -> 0 <= n) ->
             (forall r, In r (tbl_results st) ->
                        has_id course_id (result_courseId r) (tbl_courses st)
                        = true) ->
             exists tops,
               fst (topCourses year limit0 {| ctx_user := Some p |} st)
               = Ok tops))
  /\ forall ext : Collaborators,
       exists tops,
         fst (topCourses 2024 (given 2) a_student enrolment_book) = Ok tops
         /\ Permutation
              (map (fun t => option_map course_id (tc_course t)) tops)
              [Some (key 4 1); Some (key 4 2)]
         /\ Forall (fun t => tc_enrollmentCount t = 5) tops
         /\ ~ In (Some (key 4 3))
                 (map (fun t => option_map course_id (tc_course t)) tops).
Proof.
  split; [| split].
  - intros ext st [[p |]] year limit0 tops Hrun.
    2: { rewrite topCourses_anonymous in Hrun. discriminate. }
    destruct (topCourses_returned st p year limit0 tops Hrun)
      as (rows & Hrows & ->).
    destruct (enrollment_counts_rows st year _ rows Hrows)
      as (Hlen & Hnodup & Hsorted & Hcounts & Hout).
    exists (map agg_courseId rows).
    split; [exact Hnodup |]. split; [| split; [| split; [| split]]].
    + apply Forall2_of_maps. cbn.
      revert Hcounts. apply Forall_impl. intros row [Hcount Hpos].
      repeat split; assumption.
    + revert Hsorted. apply sorted_map. intros a b H. exact H.
    + intros n Hlimit. rewrite length_map. apply Hlen.
      apply limit_in_force. exact Hlimit.
    + intros courseId Hpos Hnot.
      destruct (Hout courseId Hpos Hnot) as [Hbehind (n & Hn & Hfull)].
      split.
      * intros t Ht. apply in_map_iff in Ht.
        destruct Ht as (row & <- & Hrow). apply (Hbehind row Hrow).
      * exists n. split; [apply limit_in_force; exact Hn |].
        rewrite length_map. exact Hfull.
    + intros ext' tops' Hrun'.
      destruct (topCourses_returned (ext := ext') _ p year limit0 tops' Hrun')
        as (rows' & Hrows' & ->).
      rewrite !map_map. cbn [tc_enrollmentCount top_course_of].
      apply (@enrollment_counts_engines ext ext' st year _ rows rows'
               Hrows Hrows').
  - intros ext st p year limit0. split.
    + intros n Hlimit Hn. apply topCourses_refused.
      apply limit_in_force in Hlimit. rewrite Hlimit.
      unfold enrollment_counts. apply window_negative. exact Hn.
    + intros Hlimit Hrefer.
      assert (exists rows,
                 enrollment_counts year (clause (with_default limit0 10)) st
                 = Ok rows) as [rows Hrows].
      { unfold enrollment_counts.
        destruct limit0 as [| | n]; cbn [clause with_default].
        - rewrite window_limit by lia. eexists. reflexivity.
        - eexists. reflexivity.
        - rewrite window_limit by (apply Hlimit; reflexivity).
          eexists. reflexivity. }
      exists (map (top_course_of st year) rows).
      apply (topCourses_returns st p year limit0 rows Hrows).
      intros row Hrow.
      destruct (enrollment_counts_rows st year _ rows Hrows)
        as (_ & _ & _ & Hcounts & _).
      destruct (proj1 (Forall_forall _ _) Hcounts row Hrow) as [Hcount Hpos].
      rewrite Hcount in Hpos. unfold enrollment, count_of in Hpos.
      destruct (filter _ (tbl_results st)) as [| r l] eqn:E;
        [cbn in Hpos; lia |].
      assert (Hr : In r (filter (fun r => (result_year r =? year)
                                          && String.eqb (result_courseId r)
                                                        (agg_courseId row))
                                (tbl_results st)))
        by (rewrite E; now left).
      apply filter_In in Hr. destruct Hr as [Hr Hboth].
      apply andb_prop in Hboth. destruct Hboth as [_ Hcourse].
      apply String.eqb_eq in Hcourse. rewrite <- Hcourse.
      apply Hrefer. exact Hr.
  - intros ext.
    destruct (enrolment_book_counts ext) as [Hrows | Hrows];
      eexists;
      (split;
       [apply (topCourses_returns enrolment_book
                 {| principal_id := key 2 1; principal_email := "ada@uni.edu";
                    principal_role := "student" |} 2024 (given 2) _ Hrows);
        intros row [<- | [<- | []]]; reflexivity |]).
    + cbn. split; [apply Permutation_refl |].
      split; [repeat constructor |].
      intros [H | [H | []]]; discriminate.
    + cbn. split; [apply perm_swap |].
      split; [repeat constructor |].
      intros [H | [H | []]]; discriminate.
Qed.

(** C6 amended, instantiated on the sample enrolments with year 2024 and
    limit 2, for the engine that yields the latest rows first. *)
Lemma topCourses_by_enrollment_witness :
  exists tops,
    fst (topCourses (ext := latest_first) 2024 (given 2) a_student
           enrolment_book) = Ok tops
    /\ (List.length tops <= Z.to_nat 2)%nat
    /\ StronglySorted
         (fun a b => tc_enrollmentCount b <= tc_enrollmentCount a) tops
    /\ map tc_enrollmentCount tops = [5; 5].
Proof.
  destruct topCourses_by_enrollment as (Hall & _ & Hsample).
  destruct (Hsample latest_first) as (tops & Hrun & _ & Hfive & _).
  exists tops. split; [exact Hrun |].
  destruct (Hall latest_first enrolment_book a_student 2024 (given 2) tops
              Hrun) as (courseIds & _ & _ & Hsorted & Hlen & _).
  split; [apply (Hlen 2); left; reflexivity |].
  split; [exact Hsorted |].
  revert Hrun. vm_compute. intros H. injection H as <-. reflexivity.
Defined.

(** ** Top students by cumulative score *)

Lemma Qle_bool_total (a b : Q) : Qle_bool a b = true \/ Qle_bool b a = true.
Proof.
  destruct (Qlt_le_dec b a) as [H | H].
  - right. apply Qle_bool_iff. apply Qlt_le_weak. exact H.
  - left. apply Qle_bool_iff. exact H.
Qed.

Lemma by_total_score_total (a b : StudentScore) :
  by_total_score a b = true \/ by_total_score b a = true.
Proof. apply Qle_bool_total. Qed.

Lemma by_total_score_trans (a b c : StudentScore) :
  by_total_score a b = true -> by_total_score b c = true ->
  by_total_score a c = true.
Proof.
  unfold by_total_score. intros Hab Hbc.
  apply Qle_bool_iff in Hab, Hbc. apply Qle_bool_iff.
  eapply Qle_trans; eassumption.
Qed.

(** The engine's average is the mean, rounded at a scale of two decimals
    at least. *)
Lemma numeric_avg_rounds (l : list Q) :
  l <> [] ->
  exists scale, 2 <= scale <= 1000
                /\ numeric_avg l = round_at scale (mean l).
Proof.
  intros Hl. unfold numeric_avg.
  exists (select_div_scale 2 0 (Qsum l)
            (inject_Z (Z.of_nat (List.length l)))).
  split.
  - unfold select_div_scale.
    destruct (weight_and_digit (Qsum l)) as [w1 d1].
    destruct (weight_and_digit _) as [w2 d2]. lia.
  - destruct l; [contradiction | reflexivity].
Qed.

Lemma student_groups (st : Store) (row : StudentScore) :
  In row (map student_score (group_by result_studentId (tbl_results st))) ->
  row = student_score
          (agg_studentId row,
           filter (fun r => String.eqb (result_studentId r)
                                       (agg_studentId row))
                  (tbl_results st))
  /\ scores_of_student st (agg_studentId row) <> [].
Proof.
  intros Hrow. apply in_map_iff in Hrow. destruct Hrow as (g & <- & Hg).
  apply group_by_in in Hg. destruct Hg as [Hsnd (r & Hr & Hkey)].
  destruct g as [k rs]. cbn [fst snd] in *. subst rs.
  cbn [student_score agg_studentId fst]. split; [reflexivity |].
  unfold scores_of_student. intros Hnil. apply map_eq_nil in Hnil.
  assert (Hin : In r (filter (fun x => String.eqb (result_studentId x) k)
                             (tbl_results st))).
  { apply filter_In. split; [exact Hr | now apply String.eqb_eq]. }
  rewrite Hnil in Hin. contradiction.
Qed.

Lemma student_group_of (st : Store) (studentId : ID) :
  scores_of_student st studentId <> [] ->
  In (student_score
        (studentId,
         filter (fun r => String.eqb (result_studentId r) studentId)
                (tbl_results st)))
     (map student_score (group_by result_studentId (tbl_results st))).
Proof.
  intros Hsome. apply in_map. unfold group_by. apply in_map_iff.
  exists studentId. split; [reflexivity |]. apply distinct_in.
  unfold scores_of_student in Hsome.
  destruct (filter _ (tbl_results st)) as [| r l] eqn:E;
    [contradiction |].
  assert (Hr : In r (filter (fun r => String.eqb (result_studentId r)
                                                 studentId)
                            (tbl_results st)))
    by (rewrite E; now left).
  apply filter_In in Hr. destruct Hr as [Hr Heq].
  apply String.eqb_eq in Heq. apply in_map_iff. exists r. tauto.
Qed.

Lemma student_groups_nodup (st : Store) :
  NoDup (map agg_studentId
           (map student_score
              (group_by result_studentId (tbl_results st)))).
Proof.
  rewrite map_map. cbn.
  change (NoDup (map fst (group_by result_studentId (tbl_results st)))).
  rewrite group_by_keys. apply distinct_nodup.
Qed.

Section StudentScores.
Context {ext : Collaborators}.

(** The aggregate rows behind [topStudents]. *)
Lemma student_scores_rows (st : Store) (limit0 : option Z)
    (rows : list StudentScore) :
  student_scores limit0 st = Ok rows ->
  (forall n, limit0 = Some n ->
             0 <= n /\ (List.length rows <= Z.to_nat n)%nat)
  /\ NoDup (map agg_studentId rows)
  /\ StronglySorted
       (fun a b => (agg_totalScore b <= agg_totalScore a)%Q) rows
  /\ Forall
       (fun row =>
          agg_totalScore row
          = Qsum (scores_of_student st (agg_studentId row))
          /\ agg_averageScore row
             = numeric_avg (scores_of_student st (agg_studentId row))
          /\ agg_resultCount row
             = Z.of_nat
                 (List.length (scores_of_student st (agg_studentId row)))
          /\ scores_of_student st (agg_studentId row) <> [])
       rows
  /\ (forall studentId,
         scores_of_student st studentId <> [] ->
         ~ In studentId (map agg_studentId rows) ->
         (forall row, In row rows ->
                      (Qsum (scores_of_student st studentId)
                       <= agg_totalScore row)%Q)
         /\ exists n, limit0 = Some n /\ List.length rows = Z.to_nat n).
Proof.
  unfold student_scores. intros H.
  set (groups := map student_score
                   (group_by result_studentId (tbl_results st))) in *.
  pose proof (fun x => sorted_window_left_out _ by_total_score
                         by_total_score_total by_total_score_trans limit0
                         groups rows x H) as Hout.
  destruct (sorted_window _ by_total_score by_total_score_total
              by_total_score_trans limit0 groups rows H)
    as (all & k & Hrows & Hperm & Hsorted & Hsome & Hnone).
  split; [| split; [| split; [| split]]].
  - intros n Hn. destruct (Hsome n Hn) as [Hpos ->].
    split; [exact Hpos |]. rewrite Hrows. apply firstn_le_length.
  - rewrite Hrows, map_firstn. apply firstn_nodup.
    apply (Permutation_NoDup
             (Permutation_sym (Permutation_map agg_studentId Hperm))).
    apply student_groups_nodup.
  - rewrite Hrows. apply firstn_sorted.
    apply sorted_impl with (R := fun a b => by_total_score a b = true);
      [| exact Hsorted].
    intros a b Hab. apply Qle_bool_iff. exact Hab.
  - apply Forall_forall. intros row Hrow. rewrite Hrows in Hrow.
    apply in_firstn in Hrow. apply (Permutation_in _ Hperm) in Hrow.
    destruct (student_groups st row Hrow) as [Hshape Hsome'].
    split; [| split; [| split]]; try exact Hsome';
      rewrite Hshape at 1; unfold student_score, scores_of_student, count_of;
      cbn [agg_totalScore agg_averageScore agg_resultCount snd];
      rewrite ?length_map; reflexivity.
  - intros studentId Hhas Hnot.
    destruct (Hout (student_score
                      (studentId,
                       filter (fun r => String.eqb (result_studentId r)
                                                   studentId)
                              (tbl_results st))))
      as [Hbehind Hfull].
    + apply student_group_of. exact Hhas.
    + intros Hin. apply Hnot.
      apply (in_map agg_studentId) in Hin. exact Hin.
    + split; [| exact Hfull].
      intros row Hrow. apply Qle_bool_iff. apply (Hbehind row Hrow).
Qed.

(** [topStudents] with a principal: the aggregate query, then one student
    lookup, institute included, per row. *)
Lemma topStudents_refused (st : Store) (p : Principal)
    (limit0 : optional Z) (e : Error) :
  student_scores (clause (with_default limit0 10)) st = Throw e ->
  fst (topStudents limit0 {| ctx_user := Some p |} st) = Throw e.
Proof.
  intros H. unfold topStudents, requireAuth, bind, record_query, lift.
  cbn [ctx_user ret fst snd].
  change (student_scores (clause (with_default limit0 10))
            (logged (Q_findAll Results) st))
    with (student_scores (clause (with_default limit0 10)) st).
  rewrite H. reflexivity.
Qed.

Lemma topStudents_returned (st : Store) (p : Principal)
    (limit0 : optional Z) (tops : list TopStudent) :
  fst (topStudents limit0 {| ctx_user := Some p |} st) = Ok tops ->
  exists scored,
    student_scores (clause (with_default limit0 10)) st = Ok scored
    /\ tops = map (top_student_of st) scored.
Proof.
  unfold topStudents, requireAuth, bind, record_query, lift.
  cbn [ctx_user ret fst snd].
  change (student_scores (clause (with_default limit0 10))
            (logged (Q_findAll Results) st))
    with (student_scores (clause (with_default limit0 10)) st).
  destruct (student_scores (clause (with_default limit0 10)) st)
    as [scored | e]; [| discriminate].
  intros H. exists scored. split; [reflexivity |].
  revert H.
  apply (mapM_returned _ (top_student_of st)
           (fun st' => tbl_students st' = tbl_students st
                       /\ tbl_institutes st' = tbl_institutes st));
    [| split; reflexivity].
  intros row st' [Hs Hi]. unfold including, bind.
  rewrite findByPk_run. unfold ret, lift, read.
  change (rows StudentModel (logged _ st')) with (tbl_students st').
  change (pk StudentModel) with student_id. rewrite Hs.
  split.
  - destruct (lookup_key _ _ _); split; assumption.
  - intros b.
    destruct (lookup_key student_id (agg_studentId row) (tbl_students st))
      as [found | e] eqn:E; [| discriminate].
    cbn [fst]. intros H. apply Ok_inj in H. subst b.
    unfold top_student_of. rewrite (lookup_returned _ _ _ _ E).
    f_equal. destruct (find _ _) as [s |]; [| reflexivity].
    cbn [option_map]. unfold institute_of_student.
    cbn [tbl_institutes logged]. rewrite Hi. reflexivity.
Qed.

Lemma topStudents_returns (st : Store) (p : Principal)
    (limit0 : optional Z) (scored : list StudentScore) :
  student_scores (clause (with_default limit0 10)) st = Ok scored ->
  (forall row, In row scored ->
               has_id student_id (agg_studentId row) (tbl_students st)
               = true) ->
  fst (topStudents limit0 {| ctx_user := Some p |} st)
  = Ok (map (top_student_of st) scored).
Proof.
  intros H Hstored. unfold topStudents, requireAuth, bind, record_query, lift.
  cbn [ctx_user ret fst snd].
  change (student_scores (clause (with_default limit0 10))
            (logged (Q_findAll Results) st))
    with (student_scores (clause (with_default limit0 10)) st).
  rewrite H.
  apply (mapM_returns _ (top_student_of st)
           (fun st' => tbl_students st' = tbl_students st
                       /\ tbl_institutes st' = tbl_institutes st));
    [| split; reflexivity].
  intros row Hrow st' [Hs Hi]. unfold including, bind.
  rewrite findByPk_run. unfold ret, lift, read.
  change (rows StudentModel (logged _ st')) with (tbl_students st').
  change (pk StudentModel) with student_id. rewrite Hs.
  rewrite (lookup_stored _ _ _ (Hstored row Hrow)).
  split; [| split; assumption].
  cbn [fst]. unfold top_student_of. f_equal. f_equal.
  destruct (find _ _) as [s |]; [| reflexivity].
  cbn [option_map]. unfold institute_of_student.
  cbn [tbl_institutes logged]. rewrite Hi. reflexivity.
Qed.

Lemma topStudents_anonymous (st : Store) (limit0 : optional Z) :
  fst (topStudents limit0 {| ctx_user := None |} st)
  = Throw authentication_required.
Proof. reflexivity. Qed.

(** The aggregate rows over the campus, whatever the engine: the three
    totals differ, so their order is fixed. *)
Lemma campus_scores :
  student_scores (Some 3) campus
  = Ok (map student_score (group_by result_studentId (tbl_results campus))).
Proof.
  unfold student_scores.
  set (groups := map student_score _).
  rewrite window_limit by lia.
  assert (Hperm : Permutation (ordered (Some by_total_score) groups) groups).
  { cbn [ordered].
    eapply perm_trans; [apply sort_by_perm | apply unordered_perm]. }
  assert (Hsorted : StronglySorted (fun a b => by_total_score a b = true)
                      (ordered (Some by_total_score) groups))
    by (apply sort_by_sorted;
        [apply by_total_score_total | apply by_total_score_trans]).
  assert (Hgroups :
            exists a b c,
              groups = [a; b; c]
              /\ by_total_score b a = false /\ by_total_score c a = false
              /\ by_total_score c b = false).
  { do 3 eexists. split; [vm_compute; reflexivity |].
    repeat split; vm_compute; reflexivity. }
  destruct Hgroups as (a & b & c & Hshape & Hba & Hca & Hcb).
  clearbody groups. subst groups.
  destruct (three_rows _ _ _ _ Hperm) as [H | [H | [H | [H | [H | H]]]]];
    rewrite H in Hsorted |- *;
    apply sorted_three in Hsorted; destruct Hsorted as (H1 & H2 & H3);
    try congruence.
  reflexivity.
Qed.

End StudentScores.

(** C5 as stated fails.  A limit below zero is passed on to the engine,
    which refuses the query: nothing is returned then.  And over the three
    scores 100, 100 and 50 of one student, whose mean is 250/3, the
    [averageScore] is the number 5864062014805333 / 2^46, which prints as
    83.33333333333333: the engine rounds the mean to sixteen decimals and
    [parseFloat] reads the number nearest to that. *)
Lemma topStudents_average_is_rounded :
  fst (topStudents (ext := plain) (given (-1)) a_student campus)
  = Throw (SequelizeError "SequelizeDatabaseError")
  /\ exists t,
       fst (topStudents (ext := plain) (given 3) a_student thirds)
       = Ok [t]
       /\ scores_of_student thirds (key 3 1) = [100; 100; 50]%Q
       /\ numeric_avg [100; 100; 50]%Q = 83.3333333333333333%Q
       /\ value (ts_averageScore t)
          = Some (5864062014805333 # 70368744177664)
       /\ ~ (5864062014805333 # 70368744177664 == mean [100; 100; 50])%Q.
Proof.
  split; [reflexivity |].
  eexists. split; [vm_compute; reflexivity |].
  split; [vm_compute; reflexivity |].
  split; [vm_compute; reflexivity |].
  split; [vm_compute; reflexivity |].
  intros H. vm_compute in H. discriminate H.
Qed.

(** C5, amended.  For every engine, result table, limit and context, a
    list returned by [topStudents] holds one entry per student id, for
    distinct ids among the results, in descending order of [totalScore];
    for each entry [totalScore] is the sum and [resultCount] the count of
    the scores of that student's results, and [averageScore] is the number
    read from the engine's average of them, which is their mean rounded at
    a scale of two decimals at least.  The list holds at most [limit] entries (10 when the
    limit is left out), and these are the highest totals: a student with
    results who is left out has no higher total than any student in the
    list, and the list then holds exactly [limit] entries; so with the
    limit [null] no such student is left out.  With a principal, a limit
    below zero ends in the engine's SequelizeDatabaseError, and any other
    limit returns a list when every result names a stored student.  In the
    campus (student 1: 90 + 80, student 2: 100, student 3: 50) with limit
    3 the totals are 170, 100 and 50, the averages 85, 100 and 50, and the
    order is student 1, 2, 3, whatever the engine. *)
Theorem topStudents_by_total_score :
  (forall (ext : Collaborators) (st : Store) (context : AuthContext)
          (limit0 : optional Z) (tops : list TopStudent),
      fst (topStudents limit0 context st) = Ok tops ->
      exists studentIds,
        NoDup studentIds
        /\ Forall2
             (fun studentId t =>
                ts_student t
                = option_map (institute_of_student st)
                    (find (fun s => String.eqb (student_id s) studentId)
                          (tbl_students st))
                /\ ts_totalScore t = Qsum (scores_of_student st studentId)
                /\ ts_averageScore t
                   = parseFloat
                       (numeric_avg (scores_of_student st studentId))
                /\ (exists scale,
                       2 <= scale <= 1000
                       /\ numeric_avg (scores_of_student st studentId)
                          = round_at scale
                              (mean (scores_of_student st studentId)))
                /\ ts_resultCount t
                   = Z.of_nat (List.length (scores_of_student st studentId))
                /\ 0 < ts_resultCount t)
             studentIds tops
        /\ StronglySorted
             (fun a b => (ts_totalScore b <= ts_totalScore a)%Q) tops
        /\ (forall n, limit0 = given n \/ (limit0 = undefined /\ n = 10) ->
                      0 <= n /\ (List.length tops <= Z.to_nat n)%nat)
        /\ (forall studentId,
               scores_of_student st studentId <> [] ->
               ~ In studentId studentIds ->
               (forall t, In t tops ->
                          (Qsum (scores_of_student st studentId)
                           <= ts_totalScore t)%Q)
               /\ exists n,
                    (limit0 = given n \/ (limit0 = undefined /\ n = 10))
                    /\ List.length tops = Z.to_nat n))
  /\ (forall (ext : Collaborators) (st : Store) (p : Principal)
             (limit0 : optional Z),
         (forall n, limit0 = given n \/ (limit0 = undefined /\ n = 10) ->
                    n < 0 ->
                    fst (topStudents limit0 {| ctx_user := Some p |} st)
                    = Throw (SequelizeError "SequelizeDatabaseError"))
         /\ ((forall n, limit0 = given n -> 0 <= n) ->
             (forall r, In r (tbl_results st) ->
                        has_id student_id (result_studentId r)
                          (tbl_students st) = true) ->
             exists tops,
               fst (topStudents limit0 {| ctx_user := Some p |} st)
               = Ok tops))
  /\ forall ext : Collaborators,
       exists tops,
         fst (topStudents (given 3) a_student campus) = Ok tops
         /\ map (fun t => (option_map (fun s => student_id (swi_student s))
                                      (ts_student t),
                           ts_totalScore t,
                           option_map Qred (value (ts_averageScore t))))
                tops
            = [(Some (key 3 1), 170%Q, Some 85%Q);
               (Some (key 3 2), 100%Q, Some 100%Q);
               (Some (key 3 3), 50%Q, Some 50%Q)].
Proof.
  split; [| split].
  - intros ext st [[p |]] limit0 tops Hrun.
    2: { rewrite topStudents_anonymous in Hrun. discriminate. }
    destruct (topStudents_returned st p limit0 tops Hrun)
      as (scored & Hrows & ->).
    destruct (student_scores_rows st _ scored Hrows)
      as (Hlen & Hnodup & Hsorted & Hscores & Hout).
    exists (map agg_studentId scored).
    split; [exact Hnodup |]. split; [| split; [| split]].
    + apply Forall2_of_maps. cbn.
      revert Hscores. apply Forall_impl.
      intros row (Htotal & Havg & Hcount & Hsome).
      split; [reflexivity |]. split; [exact Htotal |].
      split; [cbn; rewrite Havg; reflexivity |].
      split; [| split; [exact Hcount |]].
      * apply numeric_avg_rounds. exact Hsome.
      * rewrite Hcount.
        destruct (scores_of_student st (agg_studentId row));
          [contradiction | cbn [List.length]; lia].
    + revert Hsorted. apply sorted_map. intros a b H. exact H.
    + intros n Hlimit. rewrite length_map. apply Hlen.
      apply limit_in_force. exact Hlimit.
    + intros studentId Hhas Hnot.
      destruct (Hout studentId Hhas Hnot) as [Hbehind (n & Hn & Hfull)].
      split.
      * intros t Ht. apply in_map_iff in Ht.
        destruct Ht as (row & <- & Hrow). apply (Hbehind row Hrow).
      * exists n. split; [apply limit_in_force; exact Hn |].
        rewrite length_map. exact Hfull.
  - intros ext st p limit0. split.
    + intros n Hlimit Hn. apply topStudents_refused.
      apply limit_in_force in Hlimit. rewrite Hlimit.
      unfold student_scores. apply window_negative. exact Hn.
    + intros Hlimit Hrefer.
      assert (exists scored,
                 student_scores (clause (with_default limit0 10)) st
                 = Ok scored) as [scored Hrows].
      { unfold student_scores.
        destruct limit0 as [| | n]; cbn [clause with_default].
        - rewrite window_limit by lia. eexists. reflexivity.
        - eexists. reflexivity.
        - rewrite window_limit by (apply Hlimit; reflexivity).
          eexists. reflexivity. }
      exists (map (top_student_of st) scored).
      apply (topStudents_returns st p limit0 scored Hrows).
      intros row Hrow.
      destruct (student_scores_rows st _ scored Hrows)
        as (_ & _ & _ & Hscores & _).
      destruct (proj1 (Forall_forall _ _) Hscores row Hrow)
        as (_ & _ & _ & Hsome).
      unfold scores_of_student in Hsome.
      destruct (filter _ (tbl_results st)) as [| r l] eqn:E;
        [contradiction |].
      assert (Hr : In r (filter (fun r => String.eqb (result_studentId r)
                                                     (agg_studentId row))
                                (tbl_results st)))
        by (rewrite E; now left).
      apply filter_In in Hr. destruct Hr as [Hr Heq].
      apply String.eqb_eq in Heq. rewrite <- Heq.
      apply Hrefer. exact Hr.
  - intros ext. eexists. split.
    + apply (topStudents_returns campus
               {| principal_id := key 2 1; principal_email := "ada@uni.edu";
                  principal_role := "student" |} (given 3) _ campus_scores).
      intros row Hrow. vm_compute in Hrow.
      destruct Hrow as [<- | [<- | [<- | []]]]; reflexivity.
    + vm_compute. reflexivity.
Qed.

(** C5 amended, instantiated on the campus with limit 3, for the engine
    that yields the latest rows first. *)
Lemma topStudents_by_total_score_witness :
  exists tops,
    fst (topStudents (ext := latest_first) (given 3) a_student campus)
    = Ok tops
    /\ (List.length tops <= Z.to_nat 3)%nat
    /\ StronglySorted
         (fun a b => (ts_totalScore b <= ts_totalScore a)%Q) tops.
Proof.
  destruct topStudents_by_total_score as (Hall & _ & Hsample).
  destruct (Hsample latest_first) as (tops & Hrun & _).
  exists tops. split; [exact Hrun |].
  destruct (Hall latest_first campus a_student (given 3) tops Hrun)
    as (studentIds & _ & _ & Hsorted & Hlen & _).
  split; [apply (Hlen 3); left; reflexivity | exact Hsorted].
Defined.

(* ================================================================== *)
(** * Part III. Further properties of the sources                      *)
(* ================================================================== *)

(** ** Requests without a principal *)

(** X1. Without a principal every operation other than the public listing
    of institutes, sign-up and sign-in is refused with an UNAUTHENTICATED
    error before the store is touched: nothing is queried, nothing is
    written.  The three public operations do not look at the context at
    all. *)
Theorem anonymous_is_refused :
  forall (ext : Collaborators) (op : Operation) (st : Store),
    (is_public op = false ->
     exists e,
       resolve op {| ctx_user := None |} st = (Throw e, st)
       /\ error_code e = "UNAUTHENTICATED")
    /\ (is_public op = true ->
        forall context0,
          resolve op context0 st = resolve op {| ctx_user := None |} st).
Proof.
  intros ext op st. split.
  - intros Hguarded. destruct op; try discriminate Hguarded;
      eexists; split; reflexivity.
  - intros Hpublic context0.
    destruct op; try discriminate Hpublic; reflexivity.
Qed.

(** X1, for an anonymous attempt to delete a course of the campus. *)
Lemma anonymous_is_refused_witness :
  exists e,
    resolve (ext := plain) (Mutation_deleteCourse (key 4 1))
            {| ctx_user := None |} campus
    = (Throw e, campus)
    /\ error_code e = "UNAUTHENTICATED".
Proof.
  apply (proj1 (anonymous_is_refused plain (Mutation_deleteCourse (key 4 1))
                  campus)).
  reflexivity.
Defined.

(** ** Properties carried across a request *)

Section Keeps.
Variable I : Store -> Prop.
Hypothesis I_logged : forall q st, I st -> I (logged q st).

Lemma keeps_ret {A : Type} (a : A) : keeps I (ret a).
Proof. intros st H. exact H. Qed.

Lemma keeps_throw {A : Type} (e : Error) : keeps I (@throw A e).
Proof. intros st H. exact H. Qed.

Lemma keeps_read {A : Type} (f : Store -> A) : keeps I (read f).
Proof. intros st H. exact H. Qed.

Lemma keeps_lift {A : Type} (f : Store -> Outcome A) : keeps I (lift f).
Proof. intros st H. exact H. Qed.

Lemma keeps_record_query (q : Query) : keeps I (record_query q).
Proof. intros st H. apply I_logged. exact H. Qed.

Lemma keeps_bind {A B : Type} (c : M A) (k : A -> M B) :
  keeps I c -> (forall a, keeps I (k a)) -> keeps I (bind c k).
Proof.
  intros Hc Hk st H. unfold bind.
  specialize (Hc st H). destruct (c st) as [[a | e] st1]; cbn [snd] in *.
  - apply Hk. exact Hc.
  - exact Hc.
Qed.

Lemma keeps_mapM {A B : Type} (f : A -> M B) (l : list A) :
  (forall a, keeps I (f a)) -> keeps I (mapM f l).
Proof.
  intros Hf. induction l as [| x xs IH]; cbn [mapM].
  - apply keeps_ret.
  - apply keeps_bind; [apply Hf |]. intros y.
    apply keeps_bind; [apply IH |]. intros ys. apply keeps_ret.
Qed.

Lemma keeps_findByPk {R : Type} (m : Model R) (id : ID) :
  keeps I (findByPk m id).
Proof.
  apply keeps_bind; [apply keeps_record_query | intros; apply keeps_lift].
Qed.

Lemma keeps_findOne {R : Type} (m : Model R) (column : string)
    (get : R -> string) (value : string) :
  keeps I (findOne m column get value).
Proof.
  apply keeps_bind; [apply keeps_record_query | intros; apply keeps_read].
Qed.

Lemma keeps_findAll {ext : Collaborators} {R : Type} (m : Model R)
    (keys : list ID) (where_ : R -> bool)
    (order : option (R -> R -> bool)) (limit0 offset0 : option Z) :
  keeps I (findAll m keys where_ order limit0 offset0).
Proof.
  apply keeps_bind; [apply keeps_record_query | intros; apply keeps_lift].
Qed.

Lemma keeps_findAndCountAll {ext : Collaborators} {R : Type} (m : Model R)
    (where_ : R -> bool) (order : option (R -> R -> bool))
    (limit0 offset0 : option Z) :
  keeps I (findAndCountAll m where_ order limit0 offset0).
Proof.
  apply keeps_bind; [apply keeps_record_query | intros; apply keeps_lift].
Qed.

Lemma keeps_including {R X : Type} (q : M (option R))
    (inc : Store -> R -> X) :
  keeps I q -> keeps I (including q inc).
Proof.
  intros H. apply keeps_bind; [exact H | intros; apply keeps_read].
Qed.

Lemma keeps_including_each {R X : Type} (q : M (list R))
    (inc : Store -> R -> X) :
  keeps I q -> keeps I (including_each q inc).
Proof.
  intros H. apply keeps_bind; [exact H | intros; apply keeps_read].
Qed.

End Keeps.

Create HintDb keeps.

#[local] Hint Resolve keeps_ret keeps_throw keeps_read keeps_lift
  keeps_record_query keeps_findByPk keeps_findOne keeps_findAll
  keeps_findAndCountAll keeps_including keeps_including_each : keeps.

(** Walk down a resolver for a [keeps] goal; what is left are the writes. *)
Ltac step_keeps :=
  repeat first
    [ progress (auto with keeps)
    | apply keeps_bind
    | match goal with
      | |- forall _, keeps _ _ => intro
      | |- keeps _ (match ?x with _ => _ end) => destruct x
      | |- keeps _ (if ?b then _ else _) => destruct b
      | |- keeps _ (mapM _ _) => apply keeps_mapM
      end ].

Ltac unfold_resolvers :=
  unfold resolve, returning, me, institute, institutes, student, students,
    course, courses, result, results, allData, resultsPerInstitute,
    topCourses, topStudents, signUp, signIn, createInstitute,
    updateInstitute, deleteInstitute, createStudent, updateStudent,
    deleteStudent, createCourse, updateCourse, deleteCourse, createResult,
    updateResult, deleteResult, requireAuth;
  cbv zeta.

(** ** Queries do not write *)

(** X2. Every query of the resolver map, and sign-in as well, leaves the
    five tables and the identifier supply exactly as they were, for every
    context and whatever the outcome; only the log of issued queries
    grows. *)
Theorem queries_do_not_write :
  forall (ext : Collaborators) (op : Operation) (context0 : AuthContext)
         (st : Store),
    (is_query op = true \/ exists input, op = Mutation_signIn input) ->
    same_rows st (snd (resolve op context0 st))
    /\ uuid_draws (snd (resolve op context0 st)) = uuid_draws st
    /\ exists issued,
         queries (snd (resolve op context0 st)) = (queries st ++ issued)%list.
Proof.
  intros ext op context0 st Hop.
  assert (Hkeeps :
            keeps (fun st' => same_rows st st'
                              /\ uuid_draws st' = uuid_draws st
                              /\ exists issued,
                                   queries st'
                                   = (queries st ++ issued)%list)
                  (resolve op context0)).
  { assert (Hlog : forall q st',
               (same_rows st st' /\ uuid_draws st' = uuid_draws st
                /\ exists issued, queries st' = (queries st ++ issued)%list) ->
               same_rows st (logged q st')
               /\ uuid_draws (logged q st') = uuid_draws st
               /\ exists issued,
                    queries (logged q st') = (queries st ++ issued)%list).
    { intros q st' (Hrows & Hdraws & issued & Hissued).
      split; [exact Hrows |]. split; [exact Hdraws |].
      exists (issued ++ [q])%list. cbn. rewrite Hissued.
      now rewrite app_assoc. }
    destruct Hop as [Hq | [input ->]];
      [destruct op; try discriminate Hq |];
      destruct context0 as [[p |]]; unfold_resolvers; cbn [ctx_user];
      step_keeps. }
  apply Hkeeps. split; [repeat split |].
  split; [reflexivity |]. exists []. now rewrite app_nil_r.
Qed.

(** X2, for the listing of the campus results of 2024. *)
Lemma queries_do_not_write_witness :
  same_rows campus
    (snd (resolve (ext := plain)
            (Query_results
               {| rl_page := {| arg_limit := undefined;
                                arg_offset := undefined |};
                  rl_search := undefined; rl_year := given 2024 |})
            a_student campus)).
Proof.
  apply (queries_do_not_write plain
           (Query_results
              {| rl_page := {| arg_limit := undefined;
                               arg_offset := undefined |};
                 rl_search := undefined; rl_year := given 2024 |})
           a_student campus).
  left. reflexivity.
Defined.

(** ** Keys and references *)

Lemma has_id_in {R : Type} (get : R -> ID) (id : ID) (l : list R) :
  has_id get id l = true <-> In id (map get l).
Proof.
  unfold has_id. rewrite existsb_exists, in_map_iff.
  split; intros (x & H1 & H2).
  - exists x. split; [now apply String.eqb_eq | exact H1].
  - exists x. split; [exact H2 | now apply String.eqb_eq].
Qed.

Lemma has_id_same_keys {R : Type} (get : R -> ID) (id : ID) (l l' : list R) :
  (forall k, In k (map get l) -> In k (map get l')) ->
  has_id get id l = true -> has_id get id l' = true.
Proof.
  intros Hsub H. apply has_id_in. apply Hsub. apply has_id_in. exact H.
Qed.

Lemma existsb_key_absent {R : Type} (get : R -> ID) (id : ID) (l : list R) :
  existsb (fun x => String.eqb (get x) id) l = false -> ~ In id (map get l).
Proof.
  intros H Hin. apply has_id_in in Hin. unfold has_id in Hin. congruence.
Qed.

Lemma NoDup_map_snoc {A B : Type} (f : A -> B) (l : list A) (x : A) :
  NoDup (map f l) -> ~ In (f x) (map f l) -> NoDup (map f (l ++ [x])).
Proof.
  intros Hnd Hx. rewrite map_app. cbn.
  apply NoDup_app; [exact Hnd | repeat constructor; intros [] |].
  intros y Hy [<- | []]. contradiction.
Qed.

Lemma NoDup_map_filter {R K : Type} (key : R -> K) (keep : R -> bool)
    (table0 : list R) (Hkeys : NoDup (map key table0)) :
  NoDup (map key (filter keep table0)).
Proof.
  induction table0 as [| x l IH]; cbn in *; [constructor |].
  inversion Hkeys as [| y ys Hnotin Hnd']; subst.
  destruct (keep x); cbn; [| now apply IH].
  constructor; [| now apply IH].
  intros Hin. apply Hnotin. apply in_map_iff in Hin.
  destruct Hin as (z & Hz & Hin). apply filter_In in Hin.
  apply in_map_iff. exists z. tauto.
Qed.

Lemma replace_row_keys {R : Type} (m : Model R) (id : ID) (r' : R)
    (l : list R) :
  pk m r' = id -> map (pk m) (replace_row m id r' l) = map (pk m) l.
Proof.
  intros Hpk. unfold replace_row. rewrite map_map. apply map_ext_in.
  intros x _. destruct (String.eqb_spec (pk m x) id) as [E | _];
    [congruence | reflexivity].
Qed.

Lemma replace_row_absent {R : Type} (m : Model R) (id : ID) (r' : R)
    (l : list R) :
  ~ In id (map (pk m) l) -> replace_row m id r' l = l.
Proof.
  intros Hnot. unfold replace_row. rewrite <- (map_id l) at 2.
  apply map_ext_in. intros x Hx.
  destruct (String.eqb_spec (pk m x) id) as [E | _]; [| reflexivity].
  exfalso. apply Hnot. rewrite <- E. apply in_map. exact Hx.
Qed.

(** Replacing the row of a key by one that carries the same key keeps a
    second column unique, provided no other row holds the new value. *)
Lemma replace_row_unique {R : Type} (m : Model R) (f : R -> string)
    (id : ID) (r' : R) (l : list R) :
  pk m r' = id ->
  NoDup (map (pk m) l) -> NoDup (map f l) ->
  (forall x, In x l -> f x = f r' -> pk m x = id) ->
  NoDup (map f (replace_row m id r' l)).
Proof.
  intros <-. induction l as [| x l IH]; intros Hkeys Hf Hother.
  - constructor.
  - cbn in Hkeys, Hf.
    inversion Hkeys as [| k ks Hk Hkeys']; subst.
    inversion Hf as [| v vs Hv Hf']; subst.
    change (replace_row m (pk m r') r' (x :: l))
      with ((if String.eqb (pk m x) (pk m r') then r' else x)
            :: replace_row m (pk m r') r' l).
    cbn [map].
    destruct (String.eqb_spec (pk m x) (pk m r')) as [E | Hne].
    + rewrite replace_row_absent by (rewrite <- E; exact Hk).
      constructor; [| exact Hf'].
      intros Hin. apply in_map_iff in Hin. destruct Hin as (y & Hy & Hin).
      apply Hk. rewrite E, <- (Hother y (or_intror Hin) Hy).
      apply in_map. exact Hin.
    + constructor.
      * intros Hin. apply in_map_iff in Hin. destruct Hin as (y & Hy & Hin).
        unfold replace_row in Hin. apply in_map_iff in Hin.
        destruct Hin as (z & Hz & Hin).
        destruct (String.eqb (pk m z) (pk m r')); subst y.
        -- apply Hne. apply Hother; [now left | now symmetry].
        -- apply Hv. rewrite <- Hy. apply in_map. exact Hin.
      * apply IH; try assumption.
        intros y Hy. apply Hother. now right.
Qed.

Lemma integrity_same_rows (st st' : Store) :
  same_rows st st' -> integrity st -> integrity st'.
Proof.
  intros (Hu & Hi & Hs & Hc & Hr) H. destruct H.
  constructor; rewrite ?Hu, ?Hi, ?Hs, ?Hc, ?Hr; assumption.
Qed.

Lemma integrity_logged (q : Query) (st : Store) :
  integrity st -> integrity (logged q st).
Proof. apply integrity_same_rows. repeat split. Qed.

(** No other row holds the value: what [unique_key] checks. *)
Lemma unique_key_free {R : Type} (get : R -> ID) (f : R -> string) (r : R)
    (l : list R) :
  unique_key
    (existsb (fun x => String.eqb (f x) (f r)
                       && negb (String.eqb (get x) (get r))) l) = None ->
  forall x, In x l -> f x = f r -> get x = get r.
Proof.
  unfold unique_key. destruct (existsb _ l) eqn:E; [discriminate |].
  intros _ x Hx Hfx.
  destruct (String.eqb_spec (get x) (get r)) as [Heq | Hne]; [exact Heq |].
  exfalso.
  assert (Hex : existsb (fun y => String.eqb (f y) (f r)
                                  && negb (String.eqb (get y) (get r))) l
                = true).
  { apply existsb_exists. exists x. split; [exact Hx |].
    rewrite (proj2 (String.eqb_eq _ _) Hfx).
    rewrite (proj2 (String.eqb_neq _ _) Hne). reflexivity. }
  congruence.
Qed.

Lemma foreign_keys_present (a b : bool) :
  first_violation (foreign_key a) (foreign_key b) = None ->
  a = true /\ b = true.
Proof. destruct a, b; cbn; intros H; try discriminate; split; reflexivity. Qed.

(** What the engine makes of a row on its way into a table: the rows of
    four tables go in as they are, a result goes in with its score
    rounded. *)
Lemma when_some {R : Type} (fits : bool) (r stored : R) :
  when fits r = Some stored -> fits = true /\ stored = r.
Proof.
  destruct fits; cbn; intros H; [| discriminate].
  injection H as <-. split; reflexivity.
Qed.

Lemma settle_institute (st : Store) (old : option Institute)
    (i stored : Institute) :
  settle InstituteModel st old i = Some stored -> stored = i.
Proof. cbn [settle InstituteModel]. intros H. apply (when_some _ _ _ H). Qed.

Lemma settle_course (st : Store) (old : option Course) (c stored : Course) :
  settle CourseModel st old c = Some stored -> stored = c.
Proof. cbn [settle CourseModel]. intros H. apply (when_some _ _ _ H). Qed.

Lemma settle_user {ext : Collaborators} (st : Store) (old : option User)
    (u stored : User) :
  settle UserModel st old u = Some stored -> stored = u.
Proof. cbn [settle UserModel]. intros H. apply (when_some _ _ _ H). Qed.

Lemma settle_student {ext : Collaborators} (st : Store)
    (old : option Student) (s stored : Student) :
  settle StudentModel st old s = Some stored -> stored = s.
Proof. cbn [settle StudentModel]. intros H. apply (when_some _ _ _ H). Qed.

Lemma settle_result (st : Store) (old : option Result) (r stored : Result) :
  settle ResultModel st old r = Some stored ->
  result_id stored = result_id r
  /\ result_studentId stored = result_studentId r
  /\ result_courseId stored = result_courseId r
  /\ result_grade stored = result_grade r
  /\ result_year stored = result_year r
  /\ decimal_5_2 (option_map result_score old) (result_score r)
     = Some (result_score stored).
Proof.
  cbn [settle ResultModel].
  destruct (_ && _); [| discriminate].
  destruct (decimal_5_2 _ _) as [score |]; cbn [option_map]; [| discriminate].
  intros H. injection H as <-. repeat split.
Qed.

(** The two ways [create] can end: an exception with nothing inserted, or
    the new row, as the engine took it, appended after its validators and
    constraints passed. *)
Lemma create_cases {ext : Collaborators} {R : Type} (m : Model R)
    (mk : ID -> R) (st : Store) :
  (exists name,
      create m mk st
      = (Throw (SequelizeError name),
         draw_uuid (logged (Q_create (table m)) st)))
  \/ (exists stored,
         settle m (draw_uuid (logged (Q_create (table m)) st)) None
           (mk (uuidv4 (uuid_draws st))) = Some stored
         /\ create m mk st
            = (Ok stored,
               with_rows m
                 (rows m (draw_uuid (logged (Q_create (table m)) st))
                  ++ [stored])
                 (draw_uuid (logged (Q_create (table m)) st)))
         /\ valid m (mk (uuidv4 (uuid_draws st))) = true
         /\ existsb (fun x => String.eqb (pk m x) (pk m stored))
                    (rows m (draw_uuid (logged (Q_create (table m)) st)))
            = false
         /\ violation m (draw_uuid (logged (Q_create (table m)) st)) stored
            = None).
Proof.
  unfold create, bind, record_query. cbv beta zeta iota.
  change (uuid_draws (logged (Q_create (table m)) st)) with (uuid_draws st).
  destruct (valid m (mk (uuidv4 (uuid_draws st)))) eqn:Hvalid; cbn [negb].
  2: { left. eexists. reflexivity. }
  destruct (settle m _ None _) as [stored |] eqn:Hsettle.
  2: { left. eexists. reflexivity. }
  destruct (existsb _ _) eqn:Hpk.
  { left. eexists. reflexivity. }
  destruct (violation m _ _) eqn:Hviol.
  { left. eexists. reflexivity. }
  right. exists stored. repeat split; assumption.
Qed.

Lemma integrity_drawn (q : Query) (st : Store) :
  integrity st -> integrity (draw_uuid (logged q st)).
Proof. apply integrity_same_rows. repeat split. Qed.

Section IntegrityOfWrites.
Context {ext : Collaborators}.

Lemma keeps_integrity_create_institute (mk : ID -> Institute) :
  keeps integrity (create InstituteModel mk).
Proof.
  intros st H.
  destruct (create_cases InstituteModel mk st)
    as [[name ->] | (stored & Hsettle & -> & _ & Hpk & _)]; cbn [snd].
  - apply integrity_drawn. exact H.
  - apply existsb_key_absent in Hpk. cbn in Hpk.
    destruct H. constructor; cbn; try assumption.
    + apply NoDup_map_snoc; assumption.
    + revert students_refer0. apply Forall_impl. intros s [Hi Hu].
      split; [| exact Hu].
      revert Hi. apply has_id_same_keys. intros k Hk.
      rewrite map_app. apply in_or_app. now left.
Qed.

Lemma keeps_integrity_create_user (mk : ID -> User) :
  keeps integrity (create UserModel mk).
Proof.
  intros st H.
  destruct (create_cases UserModel mk st)
    as [[name ->] | (stored & Hsettle & -> & _ & Hpk & Hviol)]; cbn [snd].
  - apply integrity_drawn. exact H.
  - apply existsb_key_absent in Hpk. cbn in Hpk, Hviol.
    pose proof (unique_key_free user_id user_email _ _ Hviol) as Hfree.
    destruct H. constructor; cbn; try assumption.
    + apply NoDup_map_snoc; assumption.
    + apply NoDup_map_snoc; [assumption |].
      intros Hin. apply in_map_iff in Hin. destruct Hin as (u & Hmail & Hu).
      apply Hpk. rewrite <- (Hfree u Hu Hmail). apply in_map. exact Hu.
    + revert students_refer0. apply Forall_impl. intros s [Hi Hu].
      split; [exact Hi |].
      revert Hu. apply has_id_same_keys. intros k Hk.
      rewrite map_app. apply in_or_app. now left.
Qed.

Lemma keeps_integrity_create_student (mk : ID -> Student) :
  keeps integrity (create StudentModel mk).
Proof.
  intros st H.
  destruct (create_cases StudentModel mk st)
    as [[name ->] | (stored & Hsettle & -> & _ & Hpk & Hviol)]; cbn [snd].
  - apply integrity_drawn. exact H.
  - apply existsb_key_absent in Hpk. cbn in Hpk, Hviol.
    apply foreign_keys_present in Hviol.
    destruct H. constructor; cbn; try assumption.
    + apply NoDup_map_snoc; assumption.
    + apply Forall_app. split; [assumption |].
      constructor; [exact Hviol | constructor].
    + revert results_refer0. apply Forall_impl. intros r [Hs Hc].
      split; [| exact Hc].
      revert Hs. apply has_id_same_keys. intros k Hk.
      rewrite map_app. apply in_or_app. now left.
Qed.

Lemma keeps_integrity_create_course (mk : ID -> Course) :
  keeps integrity (create CourseModel mk).
Proof.
  intros st H.
  destruct (create_cases CourseModel mk st)
    as [[name ->] | (stored & Hsettle & -> & _ & Hpk & Hviol)]; cbn [snd].
  - apply integrity_drawn. exact H.
  - apply existsb_key_absent in Hpk. cbn in Hpk, Hviol.
    pose proof (unique_key_free course_id course_code _ _ Hviol) as Hfree.
    destruct H. constructor; cbn; try assumption.
    + apply NoDup_map_snoc; assumption.
    + apply NoDup_map_snoc; [assumption |].
      intros Hin. apply in_map_iff in Hin. destruct Hin as (c & Hcode & Hc).
      apply Hpk. rewrite <- (Hfree c Hc Hcode). apply in_map. exact Hc.
    + revert results_refer0. apply Forall_impl. intros r [Hs Hc].
      split; [exact Hs |].
      revert Hc. apply has_id_same_keys. intros k Hk.
      rewrite map_app. apply in_or_app. now left.
Qed.

Lemma keeps_integrity_create_result (mk : ID -> Result) :
  keeps integrity (create ResultModel mk).
Proof.
  intros st H.
  destruct (create_cases ResultModel mk st)
    as [[name ->] | (stored & Hsettle & -> & _ & Hpk & Hviol)]; cbn [snd].
  - apply integrity_drawn. exact H.
  - apply existsb_key_absent in Hpk. cbn in Hpk, Hviol.
    apply foreign_keys_present in Hviol.
    destruct H. constructor; cbn; try assumption.
    + apply NoDup_map_snoc; assumption.
    + apply Forall_app. split; [assumption |].
      constructor; [exact Hviol | constructor].
Qed.

End IntegrityOfWrites.

Lemma update_cases {R : Type} (m : Model R) (r : R) (patched0 : option R)
    (st : Store) :
  (exists name,
      update m r patched0 st
      = (Throw (SequelizeError name), logged (Q_update (table m) (pk m r)) st))
  \/ (exists r' stored,
         patched0 = Some r'
         /\ settle m (logged (Q_update (table m) (pk m r)) st) (Some r) r'
            = Some stored
         /\ violation m (logged (Q_update (table m) (pk m r)) st) stored
            = None
         /\ update m r patched0 st
            = (Ok r',
               with_rows m
                 (replace_row m (pk m r) stored
                    (rows m (logged (Q_update (table m) (pk m r)) st)))
                 (logged (Q_update (table m) (pk m r)) st))).
Proof.
  unfold update, bind, record_query. cbv beta iota.
  destruct patched0 as [r' |].
  - destruct (settle m _ (Some r) r') as [stored |] eqn:Hsettle.
    + destruct (violation m _ stored) eqn:Hviol.
      * left. eexists. reflexivity.
      * right. exists r', stored. repeat split; assumption.
    + left. eexists. reflexivity.
  - left. eexists. reflexivity.
Qed.

Lemma Forall_replace_row {R : Type} (m : Model R) (P : R -> Prop) (id : ID)
    (r' : R) (l : list R) :
  Forall P l -> P r' -> Forall P (replace_row m id r' l).
Proof.
  intros Hl Hr. unfold replace_row. apply Forall_forall. intros x Hx.
  apply in_map_iff in Hx. destruct Hx as (y & <- & Hy).
  destruct (String.eqb (pk m y) id); [exact Hr |].
  revert y Hy. apply Forall_forall. exact Hl.
Qed.

Lemma Forall_filtered {A : Type} (P : A -> Prop) (p : A -> bool)
    (l : list A) :
  Forall P l -> Forall P (filter p l).
Proof.
  intros H. apply Forall_forall. intros x Hx. apply filter_In in Hx.
  revert x Hx. rewrite Forall_forall in H. intros x [Hx _]. now apply H.
Qed.

Lemma has_id_other_removed {R : Type} (get : R -> ID) (k id : ID)
    (l : list R) :
  has_id get k l = true -> k <> id ->
  has_id get k (filter (fun x => negb (String.eqb (get x) id)) l) = true.
Proof.
  intros H Hne. apply has_id_in in H. apply in_map_iff in H.
  destruct H as (x & Hx & Hin). apply has_id_in. apply in_map_iff.
  exists x. split; [exact Hx |]. apply filter_In. split; [exact Hin |].
  apply negb_true_iff. apply String.eqb_neq. congruence.
Qed.

Lemma has_id_kept {R : Type} (get : R -> ID) (k : ID) (p : R -> bool)
    (l : list R) :
  has_id get k l = true -> has_id get k (filter p l) = false ->
  has_id get k (filter (fun x => negb (p x)) l) = true.
Proof.
  intros H Hgone. apply has_id_in in H. apply in_map_iff in H.
  destruct H as (x & Hx & Hin). apply has_id_in. apply in_map_iff.
  exists x. split; [exact Hx |]. apply filter_In. split; [exact Hin |].
  destruct (p x) eqn:Hp; [| reflexivity]. exfalso.
  assert (Hthere : has_id get k (filter p l) = true).
  { apply has_id_in. apply in_map_iff. exists x. split; [exact Hx |].
    apply filter_In. tauto. }
  congruence.
Qed.

Lemma patch_institute_id (i i' : Institute) (input : UpdateInstituteInput) :
  patch_institute i input = Some i' -> institute_id i' = institute_id i.
Proof.
  unfold patch_institute.
  destruct (patched (ui_name input) (institute_name i)),
    (patched (ui_location input) (institute_location i));
    intros H; try discriminate. injection H as <-. reflexivity.
Qed.

Lemma patch_course_id (c c' : Course) (input : UpdateCourseInput) :
  patch_course c input = Some c' -> course_id c' = course_id c.
Proof.
  unfold patch_course.
  destruct (patched (uc_title input) (course_title c)),
    (patched (uc_code input) (course_code c)),
    (patched (uc_credits input) (course_credits c));
    intros H; try discriminate.
  destruct (uc_credits input) as [| | n']; try destruct (within 1 6 n');
    try discriminate; injection H as <-; reflexivity.
Qed.

Lemma patch_result_keys (r r' : Result) (input : UpdateResultInput) :
  patch_result r input = Some r' ->
  result_id r' = result_id r
  /\ result_studentId r' = result_studentId r
  /\ result_courseId r' = result_courseId r.
Proof.
  unfold patch_result.
  destruct (patched (ur_score input) (result_score r)),
    (patched (ur_grade input) (result_grade r)),
    (patched (ur_year input) (result_year r));
    intros H; try discriminate.
  destruct (supplied_ok (ur_score input) _ && supplied_ok (ur_grade input) _
            && supplied_ok (ur_year input) _); [| discriminate].
  injection H as <-. repeat split.
Qed.

Section IntegrityOfUpdates.
Context {ext : Collaborators}.

Lemma patch_student_keys (s s' : Student) (input : UpdateStudentInput) :
  patch_student s input = Some s' ->
  student_id s' = student_id s /\ student_userId s' = student_userId s.
Proof.
  unfold patch_student.
  destruct (patched (ust_name input) (student_name s)),
    (patched (ust_email input) (student_email s)),
    (patched (ust_instituteId input) (student_instituteId s));
    intros H; try discriminate.
  destruct (ust_email input) as [| | e']; try destruct (isEmail e');
    try discriminate; injection H as <-; split; reflexivity.
Qed.

Lemma keeps_integrity_update_institute (i : Institute)
    (input : UpdateInstituteInput) :
  keeps integrity (update InstituteModel i (patch_institute i input)).
Proof.
  intros st H.
  destruct (update_cases InstituteModel i (patch_institute i input) st)
    as [[name ->] | (i' & stored & Hpatch & Hsettle & _ & ->)]; cbn [snd].
  - apply integrity_logged. exact H.
  - apply settle_institute in Hsettle. subst stored.
    apply patch_institute_id in Hpatch.
    pose proof (replace_row_keys InstituteModel (institute_id i) i'
                  (tbl_institutes st) Hpatch) as Hkeys.
    cbn -[replace_row] in Hkeys.
    destruct H. constructor; cbn -[replace_row]; try assumption.
    + rewrite Hkeys. assumption.
    + revert students_refer0. apply Forall_impl. intros s [Hi Hu].
      split; [| exact Hu].
      revert Hi. apply has_id_same_keys. intros k Hk.
      rewrite Hkeys. exact Hk.
Qed.

Lemma keeps_integrity_update_course (c : Course)
    (input : UpdateCourseInput) :
  keeps integrity (update CourseModel c (patch_course c input)).
Proof.
  intros st H.
  destruct (update_cases CourseModel c (patch_course c input) st)
    as [[name ->] | (c' & stored & Hpatch & Hsettle & Hviol & ->)];
    cbn [snd].
  - apply integrity_logged. exact H.
  - apply settle_course in Hsettle. subst stored.
    apply patch_course_id in Hpatch. cbn in Hviol.
    pose proof (unique_key_free course_id course_code _ _ Hviol) as Hfree.
    pose proof (replace_row_keys CourseModel (course_id c) c'
                  (tbl_courses st) Hpatch) as Hkeys.
    cbn -[replace_row] in Hkeys.
    destruct H. constructor; cbn -[replace_row]; try assumption.
    + rewrite Hkeys. assumption.
    + apply (replace_row_unique CourseModel course_code); try assumption.
      intros x Hx Hcode. cbn. rewrite <- Hpatch. now apply Hfree.
    + revert results_refer0. apply Forall_impl. intros r [Hs Hc].
      split; [exact Hs |].
      revert Hc. apply has_id_same_keys. intros k Hk.
      rewrite Hkeys. exact Hk.
Qed.

Lemma keeps_integrity_update_student (s : Student)
    (input : UpdateStudentInput) :
  keeps integrity (update StudentModel s (patch_student s input)).
Proof.
  intros st H.
  destruct (update_cases StudentModel s (patch_student s input) st)
    as [[name ->] | (s' & stored & Hpatch & Hsettle & Hviol & ->)];
    cbn [snd].
  - apply integrity_logged. exact H.
  - apply settle_student in Hsettle. subst stored.
    apply patch_student_keys in Hpatch. destruct Hpatch as [Hid _].
    cbn in Hviol. apply foreign_keys_present in Hviol.
    pose proof (replace_row_keys StudentModel (student_id s) s'
                  (tbl_students st) Hid) as Hkeys.
    cbn -[replace_row] in Hkeys.
    destruct H. constructor; cbn -[replace_row]; try assumption.
    + rewrite Hkeys. assumption.
    + apply (Forall_replace_row StudentModel); assumption.
    + revert results_refer0. apply Forall_impl. intros r [Hs Hc].
      split; [| exact Hc].
      revert Hs. apply has_id_same_keys. intros k Hk.
      rewrite Hkeys. exact Hk.
Qed.

Lemma keeps_integrity_update_result (r : Result)
    (input : UpdateResultInput) :
  keeps integrity (update ResultModel r (patch_result r input)).
Proof.
  intros st H.
  destruct (update_cases ResultModel r (patch_result r input) st)
    as [[name ->] | (r' & stored & Hpatch & Hsettle & Hviol & ->)];
    cbn [snd].
  - apply integrity_logged. exact H.
  - apply patch_result_keys in Hpatch. destruct Hpatch as [Hid _].
    apply settle_result in Hsettle. destruct Hsettle as (Hsid & _).
    rewrite Hid in Hsid.
    cbn in Hviol. apply foreign_keys_present in Hviol.
    pose proof (replace_row_keys ResultModel (result_id r) stored
                  (tbl_results st) Hsid) as Hkeys.
    cbn -[replace_row] in Hkeys.
    destruct H. constructor; cbn -[replace_row]; try assumption.
    + rewrite Hkeys. assumption.
    + apply (Forall_replace_row ResultModel); assumption.
Qed.

Lemma keeps_integrity_destroy_institute (i : Institute) :
  keeps integrity (destroy InstituteModel i).
Proof.
  intros st H. destruct H. constructor; cbn.
  - assumption.
  - assumption.
  - apply NoDup_map_filter. assumption.
  - apply NoDup_map_filter. assumption.
  - assumption.
  - assumption.
  - apply NoDup_map_filter. assumption.
  - apply Forall_forall. intros s Hs. apply filter_In in Hs.
    destruct Hs as [Hs Hkept]. rewrite Forall_forall in students_refer0.
    destruct (students_refer0 s Hs) as [Hi Hu]. split; [| exact Hu].
    apply has_id_other_removed; [exact Hi |].
    apply negb_true_iff in Hkept. now apply String.eqb_neq.
  - apply Forall_forall. intros r Hr. apply filter_In in Hr.
    destruct Hr as [Hr Hkept]. rewrite Forall_forall in results_refer0.
    destruct (results_refer0 r Hr) as [Hs Hc]. split; [| exact Hc].
    apply has_id_kept; [exact Hs |]. now apply negb_true_iff.
Qed.

Lemma keeps_integrity_destroy_student (s : Student) :
  keeps integrity (destroy StudentModel s).
Proof.
  intros st H. destruct H. constructor; cbn; try assumption.
  - apply NoDup_map_filter. assumption.
  - apply NoDup_map_filter. assumption.
  - apply Forall_filtered. assumption.
  - apply Forall_forall. intros r Hr. apply filter_In in Hr.
    destruct Hr as [Hr Hkept]. rewrite Forall_forall in results_refer0.
    destruct (results_refer0 r Hr) as [Hs Hc]. split; [| exact Hc].
    apply has_id_other_removed; [exact Hs |].
    apply negb_true_iff in Hkept. now apply String.eqb_neq.
Qed.

Lemma keeps_integrity_destroy_course (c : Course) :
  keeps integrity (destroy CourseModel c).
Proof.
  intros st H. destruct H. constructor; cbn; try assumption.
  - apply NoDup_map_filter. assumption.
  - apply NoDup_map_filter. assumption.
  - apply NoDup_map_filter. assumption.
  - apply Forall_forall. intros r Hr. apply filter_In in Hr.
    destruct Hr as [Hr Hkept]. rewrite Forall_forall in results_refer0.
    destruct (results_refer0 r Hr) as [Hs Hc]. split; [exact Hs |].
    apply has_id_other_removed; [exact Hc |].
    apply negb_true_iff in Hkept. now apply String.eqb_neq.
Qed.

Lemma keeps_integrity_destroy_result (r : Result) :
  keeps integrity (destroy ResultModel r).
Proof.
  intros st H. destruct H. constructor; cbn; try assumption.
  - apply NoDup_map_filter. assumption.
  - apply Forall_filtered. assumption.
Qed.

End IntegrityOfUpdates.

#[local] Hint Resolve integrity_logged keeps_integrity_create_institute
  keeps_integrity_create_user keeps_integrity_create_student
  keeps_integrity_create_course keeps_integrity_create_result
  keeps_integrity_update_institute keeps_integrity_update_course
  keeps_integrity_update_student keeps_integrity_update_result
  keeps_integrity_destroy_institute keeps_integrity_destroy_student
  keeps_integrity_destroy_course keeps_integrity_destroy_result : keeps.

(** X3. Every query and mutation, for every context and input and whether
    it returns or throws, takes a store whose keys are unique (primary
    keys, user e-mails, course codes) and whose foreign keys all name
    stored rows to a store of the same kind: inserts and updates are
    checked against the tables' constraints, and deletes take the
    referencing rows along. *)
Theorem every_operation_keeps_integrity :
  forall (ext : Collaborators) (op : Operation) (context0 : AuthContext)
         (st : Store),
    integrity st -> integrity (snd (resolve op context0 st)).
Proof.
  intros ext op context0.
  change (keeps integrity (resolve op context0)).
  destruct op; destruct context0 as [[p |]]; unfold_resolvers;
    cbn [ctx_user]; step_keeps.
Qed.

Lemma campus_integrity : integrity campus.
Proof.
  constructor; cbn;
    repeat constructor; cbn; intuition discriminate.
Qed.

(** X3, for the deletion of the first institute of the campus. *)
Lemma every_operation_keeps_integrity_witness :
  integrity (snd (resolve (ext := plain) (Mutation_deleteInstitute (key 1 1))
                    a_student campus)).
Proof.
  apply (every_operation_keeps_integrity plain (Mutation_deleteInstitute (key 1 1))
           a_student campus).
  exact campus_integrity.
Defined.

(** ** Sign-up *)

Section SignUp.
Context {ext : Collaborators}.

(** X4. [signUp] is not atomic.  It ends in one of four ways: refused with
    BAD_USER_INPUT (e-mail in use, or no such institute) with all tables
    untouched; the user insert fails, tables untouched; the user insert
    succeeds and the student insert fails, and then the new account stays
    behind without a student; or both rows are appended and the token for
    the new account is returned.  The account always has role "student"
    and carries the hash, not the password. *)
Theorem signUp_outcomes :
  forall (input : SignUpInput) (st : Store),
    let u := {| user_id := uuidv4 (uuid_draws st);
                user_email := su_email input;
                user_password := bcrypt_hash (su_password input);
                user_role := "student" |} in
    let s := {| student_id := uuidv4 (S (uuid_draws st));
                student_name := su_name input;
                student_email := su_email input;
                student_instituteId := su_instituteId input;
                student_userId := uuidv4 (uuid_draws st) |} in
    let st' := snd (signUp input st) in
    ((exists message,
         fst (signUp input st) = Throw (GraphQLError message "BAD_USER_INPUT"))
     /\ same_rows st st')
    \/ ((exists name, fst (signUp input st) = Throw (SequelizeError name))
        /\ same_rows st st')
    \/ ((exists name, fst (signUp input st) = Throw (SequelizeError name))
        /\ tbl_users st' = (tbl_users st ++ [u])%list
        /\ tbl_students st' = tbl_students st
        /\ tbl_institutes st' = tbl_institutes st
        /\ tbl_courses st' = tbl_courses st
        /\ tbl_results st' = tbl_results st)
    \/ (fst (signUp input st)
        = Ok {| payload_token := issue_token u; payload_user := u |}
        /\ tbl_users st' = (tbl_users st ++ [u])%list
        /\ tbl_students st' = (tbl_students st ++ [s])%list
        /\ tbl_institutes st' = tbl_institutes st
        /\ tbl_courses st' = tbl_courses st
        /\ tbl_results st' = tbl_results st).
Proof.
  intros input st u s. cbv zeta.
  unfold signUp, bind. cbn -[create].
  destruct (find (fun r => String.eqb (user_email r) (su_email input))
              (tbl_users st)) as [existing |]; cbn -[create].
  { left. split; [eexists; reflexivity | repeat split]. }
  destruct (lookup_cases institute_id (su_instituteId input)
              (tbl_institutes st))
    as [(found & _ & ->) | [(_ & _ & ->) | (_ & _ & ->)]]; cbn -[create].
  2: { left. split; [eexists; reflexivity | repeat split]. }
  2: { right. left. split; [eexists; reflexivity | repeat split]. }
  match goal with
  | |- context [create UserModel ?mk ?st0] =>
      destruct (create_cases UserModel mk st0)
        as [[name Hc] | (stored & Hsettle & Hc & _)]; rewrite Hc; clear Hc
  end.
  { right. left. split; [eexists; reflexivity | repeat split]. }
  apply settle_user in Hsettle. subst stored. cbn -[create].
  match goal with
  | |- context [create StudentModel ?mk ?st0] =>
      destruct (create_cases StudentModel mk st0)
        as [[name Hc] | (stored & Hsettle & Hc & _)]; rewrite Hc; clear Hc
  end.
  - right. right. left. split; [eexists; reflexivity | repeat split].
  - apply settle_student in Hsettle. subst stored.
    right. right. right. repeat split.
Qed.

End SignUp.

(** X4, the third way: when the identifier drawn for the student is taken,
    the account "dee@uni.edu" is stored and no student goes with it. *)
Example signUp_orphan :
  fst (signUp (ext := plain)
         {| su_email := "dee@uni.edu"; su_password := "pw"; su_name := "Dee";
            su_instituteId := key 1 2 |}
         (set_students
            (tbl_students campus
             ++ [mkStudent (key 0 1) "Eve" "eve@uni.edu" (key 1 1) (key 2 0)])%list
            campus))
  = Throw (SequelizeError "SequelizeUniqueConstraintError")
  /\ map user_email
         (tbl_users
            (snd (signUp (ext := plain)
                    {| su_email := "dee@uni.edu"; su_password := "pw";
                       su_name := "Dee"; su_instituteId := key 1 2 |}
                    (set_students
                       (tbl_students campus
                        ++ [mkStudent (key 0 1) "Eve" "eve@uni.edu" (key 1 1)
                                      (key 2 0)])%list
                       campus))))
     = ["root@uni.edu"; "ada@uni.edu"; "bob@uni.edu"; "cy@uni.edu";
        "dee@uni.edu"]
  /\ map student_name
         (tbl_students
            (snd (signUp (ext := plain)
                    {| su_email := "dee@uni.edu"; su_password := "pw";
                       su_name := "Dee"; su_instituteId := key 1 2 |}
                    (set_students
                       (tbl_students campus
                        ++ [mkStudent (key 0 1) "Eve" "eve@uni.edu" (key 1 1)
                                      (key 2 0)])%list
                       campus))))
     = ["Ada"; "Bob"; "Cy"; "Eve"].
Proof. repeat split. Qed.

Lemma create_ok {ext : Collaborators} {R : Type} (m : Model R)
    (mk : ID -> R) (st : Store) (stored : R) :
  valid m (mk (uuidv4 (uuid_draws st))) = true ->
  settle m (draw_uuid (logged (Q_create (table m)) st)) None
    (mk (uuidv4 (uuid_draws st))) = Some stored ->
  ~ In (pk m stored)
       (map (pk m) (rows m (draw_uuid (logged (Q_create (table m)) st)))) ->
  violation m (draw_uuid (logged (Q_create (table m)) st)) stored = None ->
  create m mk st
  = (Ok stored,
     with_rows m
       (rows m (draw_uuid (logged (Q_create (table m)) st)) ++ [stored])
       (draw_uuid (logged (Q_create (table m)) st))).
Proof.
  intros Hvalid Hsettle Hfresh Hviol.
  unfold create, bind, record_query. cbv beta zeta iota.
  change (uuid_draws (logged (Q_create (table m)) st)) with (uuid_draws st).
  rewrite Hvalid. cbn [negb]. rewrite Hsettle.
  destruct (existsb _ _) eqn:Hpk.
  { exfalso. apply Hfresh. apply (has_id_in (pk m)). exact Hpk. }
  rewrite Hviol. reflexivity.
Qed.




Section SignUpRoundTrip.
Context {ext : Collaborators}.


End SignUpRoundTrip.


(** ** The accounts table *)

Section UsersKept.
Context {ext : Collaborators}.
Variable U : list User.

Lemma keeps_users_create {R : Type} (m : Model R) (mk : ID -> R) :
  (forall l st, tbl_users (with_rows m l st) = tbl_users st) ->
  keeps (fun st => tbl_users st = U) (create m mk).
Proof.
  intros Hm st H.
  destruct (create_cases m mk st) as [[name ->] | (stored & _ & -> & _)];
    cbn [snd].
  - exact H.
  - rewrite Hm. exact H.
Qed.

Lemma keeps_users_update {R : Type} (m : Model R) (r : R)
    (patched0 : option R) :
  (forall l st, tbl_users (with_rows m l st) = tbl_users st) ->
  keeps (fun st => tbl_users st = U) (update m r patched0).
Proof.
  intros Hm st H.
  destruct (update_cases m r patched0 st)
    as [[name ->] | (r' & stored & _ & _ & _ & ->)]; cbn [snd].
  - exact H.
  - rewrite Hm. exact H.
Qed.

Lemma keeps_users_destroy {R : Type} (m : Model R) (r : R) :
  (forall l st, tbl_users (with_rows m l st) = tbl_users st) ->
  (forall id st, tbl_users (on_delete m id st) = tbl_users st) ->
  keeps (fun st => tbl_users st = U) (destroy m r).
Proof.
  intros Hm Hd st H. unfold destroy, bind, record_query. cbn [fst snd].
  rewrite Hd, Hm. exact H.
Qed.

End UsersKept.

(** X6. The accounts table changes only through sign-up: every other
    operation leaves it exactly as it was, and sign-up leaves it as it was
    or appends one account whose role is "student".  So no request creates
    an admin, and none alters or removes an account. *)
Theorem accounts_only_from_signUp :
  forall (ext : Collaborators) (op : Operation) (context0 : AuthContext)
         (st : Store),
  exists added,
    tbl_users (snd (resolve op context0 st)) = (tbl_users st ++ added)%list
    /\ Forall (fun u => user_role u = "student") added
    /\ (List.length added <= 1)%nat
    /\ (added <> [] -> exists input, op = Mutation_signUp input).
Proof.
  intros ext op context0 st.
  assert (Hkept : (forall input, op <> Mutation_signUp input) ->
                  tbl_users (snd (resolve op context0 st)) = tbl_users st).
  { intros Hop.
    assert (Hkeeps : keeps (fun st' => tbl_users st' = tbl_users st)
                           (resolve op context0)).
    { assert (Hlog : forall q st',
                 tbl_users st' = tbl_users st ->
                 tbl_users (logged q st') = tbl_users st)
        by (intros q st' H; exact H).
      destruct op; try (exfalso; eapply Hop; reflexivity);
        destruct context0 as [[p |]]; unfold_resolvers; cbn [ctx_user];
        repeat first
          [ progress (auto with keeps)
          | apply keeps_users_create; reflexivity
          | apply keeps_users_update; reflexivity
          | apply keeps_users_destroy; reflexivity
          | apply keeps_bind
          | match goal with
            | |- forall _, keeps _ _ => intro
            | |- keeps _ (match ?x with _ => _ end) => destruct x
            | |- keeps _ (if ?b then _ else _) => destruct b
            | |- keeps _ (mapM _ _) => apply keeps_mapM
            end ]. }
    apply Hkeeps. reflexivity. }
  destruct op;
    try (exists []; rewrite app_nil_r;
         split; [apply Hkept; intros input0 H; discriminate H |];
         split; [constructor |]; split; [cbn; lia |];
         intros H; contradiction).
  clear Hkept. unfold resolve, returning, bind.
  pose proof (signUp_outcomes input st) as Hsign. cbv zeta in Hsign.
  destruct (signUp input st) as [[payload | e] st1]; cbn [fst snd ret] in *.
  - destruct Hsign as [[[m H] _] | [[[n H] _] | [[[n H] _] | Hsign]]];
      try discriminate.
    destruct Hsign as (_ & -> & _). eexists. split; [reflexivity |].
    split; [repeat constructor |]. split; [cbn; lia |]. eauto.
  - destruct Hsign as [[_ Hrows] | [[_ Hrows] | [(_ & -> & _) | [H _]]]];
      try discriminate.
    + destruct Hrows as [-> _]. exists []. rewrite app_nil_r.
      split; [reflexivity |]. split; [constructor |]. split; [cbn; lia |].
      intros H; contradiction.
    + destruct Hrows as [-> _]. exists []. rewrite app_nil_r.
      split; [reflexivity |]. split; [constructor |]. split; [cbn; lia |].
      intros H; contradiction.
    + eexists. split; [reflexivity |].
      split; [repeat constructor |]. split; [cbn; lia |]. eauto.
Qed.

(** X6, for a sign-up on the campus. *)
Lemma accounts_only_from_signUp_witness :
  exists added,
    tbl_users
      (snd (resolve (ext := plain)
              (Mutation_signUp
                 {| su_email := "dee@uni.edu"; su_password := "pw";
                    su_name := "Dee"; su_instituteId := key 1 2 |})
              anonymous campus))
    = (tbl_users campus ++ added)%list
    /\ Forall (fun u => user_role u = "student") added
    /\ (List.length added <= 1)%nat
    /\ (added <> [] ->
        exists input,
          Mutation_signUp
            {| su_email := "dee@uni.edu"; su_password := "pw";
               su_name := "Dee"; su_instituteId := key 1 2 |}
          = Mutation_signUp input).
Proof.
  exact (accounts_only_from_signUp plain
           (Mutation_signUp
              {| su_email := "dee@uni.edu"; su_password := "pw";
                 su_name := "Dee"; su_instituteId := key 1 2 |})
           anonymous campus).
Defined.

(** ** Deleting, then looking up *)

Lemma find_removed {R : Type} (get : R -> ID) (id : ID) (l : list R) :
  find (fun x => String.eqb (get x) id)
       (filter (fun x => negb (String.eqb (get x) id)) l) = None.
Proof.
  apply find_absent. intros x Hx. apply filter_In in Hx.
  destruct Hx as [_ Hx]. now apply negb_true_iff.
Qed.

Lemma find_has_id {R : Type} (get : R -> ID) (id : ID) (l : list R) :
  has_id get id l = true ->
  exists r, find (fun x => String.eqb (get x) id) l = Some r.
Proof.
  intros H. apply has_id_in in H. apply in_map_iff in H.
  destruct H as (x & Hx & Hin).
  destruct (find_present (fun y => String.eqb (get y) id) l x Hin)
    as (b & Hb & _); [now apply String.eqb_eq | eauto].
Qed.

Lemma find_no_id {R : Type} (get : R -> ID) (id : ID) (l : list R) :
  has_id get id l = false ->
  find (fun x => String.eqb (get x) id) l = None.
Proof.
  intros H. apply find_id_absent. intros x Hx Heq.
  assert (Hin : has_id get id l = true)
    by (apply has_id_in; rewrite <- Heq; now apply in_map).
  congruence.
Qed.


Ltac after_delete get tbl id st Huuid :=
  unfold lookup_key; cbn;
  destruct (find (fun r => String.eqb (get r) id) (tbl st))
    as [found |] eqn:Hfind; cbn;
  [ apply find_some in Hfind; destruct Hfind as [Hin Hid];
    apply String.eqb_eq in Hid; try rewrite Hid;
    rewrite ?find_removed, ?Huuid; cbn;
    split; [reflexivity |];
    split;
    [ intros Hno; exfalso;
      assert (Hyes : has_id get id (tbl st) = true)
        by (apply has_id_in; rewrite <- Hid; now apply in_map);
      congruence
    | split; reflexivity ]
  | rewrite ?Huuid; cbn; rewrite ?Hfind, ?Huuid; cbn;
    split;
    [ intros Hyes; apply find_has_id in Hyes; destruct Hyes as [r Hr];
      congruence
    | split; [intros _; split; [reflexivity | repeat split] |];
      split; reflexivity ] ].

Ltac refused_key get tbl id st Huuid :=
  intros Hno; apply find_no_id in Hno;
  unfold lookup_key; cbn; rewrite ?Hno, ?Huuid; cbn;
  split; [reflexivity |]; split; [repeat split | reflexivity].

(** X7. For a signed-in caller and an id in the form of a UUID, a delete
    mutation returns [true] when a row with the id is stored and throws
    NOT_FOUND, changing no table, when none is; either way, afterwards the
    lookup by that id and a second delete both throw NOT_FOUND.  For an id
    that does not read as a UUID, and so names no row, the delete and the
    lookup both end in the engine's SequelizeDatabaseError, and no table is
    changed.  This holds for institutes, students, courses and results
    alike. *)
Theorem delete_then_not_found :
  forall (ext : Collaborators) (p : Principal) (id : ID) (st : Store),
    (canonical_uuid id = true ->
     ((has_id institute_id id (tbl_institutes st) = true ->
       fst (deleteInstitute id {| ctx_user := Some p |} st) = Ok true)
      /\ (has_id institute_id id (tbl_institutes st) = false ->
          fst (deleteInstitute id {| ctx_user := Some p |} st)
          = Throw (GraphQLError "Institute not found" "NOT_FOUND")
          /\ same_rows st
               (snd (deleteInstitute id {| ctx_user := Some p |} st)))
      /\ fst (institute id {| ctx_user := Some p |}
                (snd (deleteInstitute id {| ctx_user := Some p |} st)))
         = Throw (GraphQLError "Institute not found" "NOT_FOUND")
      /\ fst (deleteInstitute id {| ctx_user := Some p |}
                (snd (deleteInstitute id {| ctx_user := Some p |} st)))
         = Throw (GraphQLError "Institute not found" "NOT_FOUND"))
     /\ ((has_id student_id id (tbl_students st) = true ->
          fst (deleteStudent id {| ctx_user := Some p |} st) = Ok true)
         /\ (has_id student_id id (tbl_students st) = false ->
             fst (deleteStudent id {| ctx_user := Some p |} st)
             = Throw (GraphQLError "Student not found" "NOT_FOUND")
             /\ same_rows st
                  (snd (deleteStudent id {| ctx_user := Some p |} st)))
         /\ fst (student id {| ctx_user := Some p |}
                   (snd (deleteStudent id {| ctx_user := Some p |} st)))
            = Throw (GraphQLError "Student not found" "NOT_FOUND")
         /\ fst (deleteStudent id {| ctx_user := Some p |}
                   (snd (deleteStudent id {| ctx_user := Some p |} st)))
            = Throw (GraphQLError "Student not found" "NOT_FOUND"))
     /\ ((has_id course_id id (tbl_courses st) = true ->
          fst (deleteCourse id {| ctx_user := Some p |} st) = Ok true)
         /\ (has_id course_id id (tbl_courses st) = false ->
             fst (deleteCourse id {| ctx_user := Some p |} st)
             = Throw (GraphQLError "Course not found" "NOT_FOUND")
             /\ same_rows st
                  (snd (deleteCourse id {| ctx_user := Some p |} st)))
         /\ fst (course id {| ctx_user := Some p |}
                   (snd (deleteCourse id {| ctx_user := Some p |} st)))
            = Throw (GraphQLError "Course not found" "NOT_FOUND")
         /\ fst (deleteCourse id {| ctx_user := Some p |}
                   (snd (deleteCourse id {| ctx_user := Some p |} st)))
            = Throw (GraphQLError "Course not found" "NOT_FOUND"))
     /\ ((has_id result_id id (tbl_results st) = true ->
          fst (deleteResult id {| ctx_user := Some p |} st) = Ok true)
         /\ (has_id result_id id (tbl_results st) = false ->
             fst (deleteResult id {| ctx_user := Some p |} st)
             = Throw (GraphQLError "Result not found" "NOT_FOUND")
             /\ same_rows st
                  (snd (deleteResult id {| ctx_user := Some p |} st)))
         /\ fst (result id {| ctx_user := Some p |}
                   (snd (deleteResult id {| ctx_user := Some p |} st)))
            = Throw (GraphQLError "Result not found" "NOT_FOUND")
         /\ fst (deleteResult id {| ctx_user := Some p |}
                   (snd (deleteResult id {| ctx_user := Some p |} st)))
            = Throw (GraphQLError "Result not found" "NOT_FOUND")))
    /\ (is_uuid id = false ->
        (has_id institute_id id (tbl_institutes st) = false ->
         fst (deleteInstitute id {| ctx_user := Some p |} st)
         = Throw (SequelizeError "SequelizeDatabaseError")
         /\ same_rows st
              (snd (deleteInstitute id {| ctx_user := Some p |} st))
         /\ fst (institute id {| ctx_user := Some p |} st)
            = Throw (SequelizeError "SequelizeDatabaseError"))
        /\ (has_id student_id id (tbl_students st) = false ->
            fst (deleteStudent id {| ctx_user := Some p |} st)
            = Throw (SequelizeError "SequelizeDatabaseError")
            /\ same_rows st
                 (snd (deleteStudent id {| ctx_user := Some p |} st))
            /\ fst (student id {| ctx_user := Some p |} st)
               = Throw (SequelizeError "SequelizeDatabaseError"))
        /\ (has_id course_id id (tbl_courses st) = false ->
            fst (deleteCourse id {| ctx_user := Some p |} st)
            = Throw (SequelizeError "SequelizeDatabaseError")
            /\ same_rows st
                 (snd (deleteCourse id {| ctx_user := Some p |} st))
            /\ fst (course id {| ctx_user := Some p |} st)
               = Throw (SequelizeError "SequelizeDatabaseError"))
        /\ (has_id result_id id (tbl_results st) = false ->
            fst (deleteResult id {| ctx_user := Some p |} st)
            = Throw (SequelizeError "SequelizeDatabaseError")
            /\ same_rows st
                 (snd (deleteResult id {| ctx_user := Some p |} st))
            /\ fst (result id {| ctx_user := Some p |} st)
               = Throw (SequelizeError "SequelizeDatabaseError"))).
Proof.
  intros ext p id st.
  unfold deleteInstitute, deleteStudent, deleteCourse, deleteResult,
    institute, student, course, result, including, destroy, requireAuth,
    findByPk, bind, record_query, read, lift.
  split.
  - intros Hform. pose proof (canonical_is_uuid id Hform) as Huuid.
    split; [| split; [| split]].
    + after_delete institute_id tbl_institutes id st Huuid.
    + after_delete student_id tbl_students id st Huuid.
    + after_delete course_id tbl_courses id st Huuid.
    + after_delete result_id tbl_results id st Huuid.
  - intros Huuid. split; [| split; [| split]].
    + refused_key institute_id tbl_institutes id st Huuid.
    + refused_key student_id tbl_students id st Huuid.
    + refused_key course_id tbl_courses id st Huuid.
    + refused_key result_id tbl_results id st Huuid.
Qed.

(** X7, for the third course of the campus, and for the text "abc". *)
Lemma delete_then_not_found_witness :
  fst (deleteCourse (key 4 3) a_student campus) = Ok true
  /\ fst (course (key 4 3) a_student
            (snd (deleteCourse (key 4 3) a_student campus)))
     = Throw (GraphQLError "Course not found" "NOT_FOUND")
  /\ fst (deleteCourse "abc" a_student campus)
     = Throw (SequelizeError "SequelizeDatabaseError").
Proof.
  destruct (delete_then_not_found plain
              {| principal_id := key 2 1; principal_email := "ada@uni.edu";
                 principal_role := "student" |} (key 4 3) campus)
    as [Hform _].
  destruct (Hform eq_refl) as (_ & _ & (Hyes & _ & Hlookup & _) & _).
  destruct (delete_then_not_found plain
              {| principal_id := key 2 1; principal_email := "ada@uni.edu";
                 principal_role := "student" |} "abc" campus)
    as [_ Hrefused].
  destruct (Hrefused eq_refl) as (_ & _ & Hcourse & _).
  split; [apply Hyes; reflexivity |]. split; [exact Hlookup |].
  apply Hcourse. reflexivity.
Defined.

(** ** What a deleted institute takes along *)



(** ** Updating a result *)



Lemma patch_result_fields (r r' : Result) (input : UpdateResultInput) :
  patch_result r input = Some r' ->
  result_score r'
  = match ur_score input with given v => v | _ => result_score r end
  /\ result_grade r'
     = match ur_grade input with given v => v | _ => result_grade r end
  /\ result_year r'
     = match ur_year input with given v => v | _ => result_year r end
  /\ (forall v, ur_score input = given v -> (0 <= v <= 100)%Q)
  /\ (forall v, ur_grade input = given v -> In v grades)
  /\ (forall v, ur_year input = given v -> 2000 <= v <= 2100)
  /\ ur_score input <> null /\ ur_grade input <> null
  /\ ur_year input <> null.
Proof.
  unfold patch_result. destruct input as [sc g y]. cbn [ur_score ur_grade ur_year].
  destruct sc as [| | sv]; cbn [patched]; try discriminate;
    destruct g as [| | gv]; cbn [patched]; try discriminate;
    destruct y as [| | yv]; cbn [patched]; try discriminate;
    match goal with
    | |- (if ?b then _ else _) = _ -> _ => destruct b eqn:Hchecks
    end; intros H; try discriminate; injection H as <-;
    cbn [result_score result_grade result_year];
    apply andb_true_iff in Hchecks; destruct Hchecks as [Hchecks Hy];
    apply andb_true_iff in Hchecks; destruct Hchecks as [Hs Hg];
    cbn [supplied_ok] in Hs, Hg, Hy;
    (split; [reflexivity |]); (split; [reflexivity |]);
    (split; [reflexivity |]);
    (split; [intros v Hv; try discriminate; injection Hv as <-;
             apply andb_true_iff in Hs; destruct Hs as [Hs1 Hs2];
             split; now apply Qle_bool_iff |]);
    (split; [intros v Hv; try discriminate; injection Hv as <-;
             apply existsb_exists in Hg; destruct Hg as (w & Hw & Heq);
             apply String.eqb_eq in Heq; subst; exact Hw |]);
    (split; [intros v Hv; try discriminate; injection Hv as <-;
             unfold within in Hy; lia |]);
    repeat split; discriminate.
Qed.



(** ** Updating a student *)

Section StudentUpdate.
Context {ext : Collaborators}.



End StudentUpdate.



(** ** The list queries *)

Lemma ascii_compare_lt_trans (a b c : ascii) :
  Ascii.compare a b = Lt -> Ascii.compare b c = Lt -> Ascii.compare a c = Lt.
Proof.
  unfold Ascii.compare. rewrite !N.compare_lt_iff. apply N.lt_trans.
Qed.

Lemma string_compare_lt_trans (s1 s2 s3 : string) :
  String.compare s1 s2 = Lt -> String.compare s2 s3 = Lt ->
  String.compare s1 s3 = Lt.
Proof.
  revert s2 s3.
  induction s1 as [| a s1 IH]; intros [| b s2] [| c s3]; cbn;
    try discriminate; try reflexivity.
  destruct (Ascii.compare a b) eqn:Hab; try discriminate;
    destruct (Ascii.compare b c) eqn:Hbc; try discriminate.
  - apply Ascii.compare_eq_iff in Hab, Hbc. subst.
    replace (Ascii.compare c c) with Eq
      by (symmetry; unfold Ascii.compare; apply N.compare_refl).
    apply IH.
  - apply Ascii.compare_eq_iff in Hab. subst. rewrite Hbc. reflexivity.
  - apply Ascii.compare_eq_iff in Hbc. subst. rewrite Hab. reflexivity.
  - rewrite (ascii_compare_lt_trans a b c Hab Hbc). reflexivity.
Qed.

Lemma string_leb_trans (s1 s2 s3 : string) :
  String.leb s1 s2 = true -> String.leb s2 s3 = true ->
  String.leb s1 s3 = true.
Proof.
  unfold String.leb.
  destruct (String.compare s1 s2) eqn:H12; try discriminate;
    destruct (String.compare s2 s3) eqn:H23; try discriminate; intros _ _.
  - apply String.compare_eq_iff in H12. subst. now rewrite H23.
  - apply String.compare_eq_iff in H12. subst. now rewrite H23.
  - apply String.compare_eq_iff in H23. subst. now rewrite H12.
  - now rewrite (string_compare_lt_trans s1 s2 s3 H12 H23).
Qed.

Lemma ascending_sorted {R : Type} (f : R -> string) (l : list R) :
  StronglySorted (fun a b => String.leb (f a) (f b) = true)
    (sort_by (fun a b => String.leb (f a) (f b)) l).
Proof.
  apply sort_by_sorted.
  - intros a b. apply String.leb_total.
  - intros a b c. apply string_leb_trans.
Qed.

Lemma skipn_sorted {A : Type} (R : A -> A -> Prop) (n : nat) (l : list A) :
  StronglySorted R l -> StronglySorted R (skipn n l).
Proof.
  revert l. induction n as [| n IH]; intros l Hs; [exact Hs |].
  destruct l as [| x l]; cbn; [constructor |].
  apply IH. apply StronglySorted_inv in Hs. tauto.
Qed.

Lemma in_skipn {A : Type} (n : nat) (l : list A) (x : A) :
  In x (skipn n l) -> In x l.
Proof.
  intros H. rewrite <- (firstn_skipn n l). apply in_or_app. now right.
Qed.

(** The two ways a page query can end. *)
Lemma window_cases {A : Type} (limit0 offset0 : Z) (l : list A) :
  (0 <= limit0 /\ 0 <= offset0
   /\ window (Some limit0) (Some offset0) l
      = Ok (firstn (Z.to_nat limit0) (skipn (Z.to_nat offset0) l)))
  \/ ((limit0 < 0 \/ offset0 < 0)
      /\ window (Some limit0) (Some offset0) l
         = Throw (SequelizeError "SequelizeDatabaseError")).
Proof.
  unfold window, is_negative.
  destruct (Z.ltb_spec limit0 0), (Z.ltb_spec offset0 0); cbn;
    [right | right | right | left]; repeat split; auto.
Qed.

(** The limit computed from the arguments is never 0. *)
Lemma win_limit_nonzero (args : PaginationArgs) :
  win_limit (getPaginationParams args) <> 0
  /\ win_limit (getPaginationParams args) <= 100.
Proof.
  unfold getPaginationParams, num_or. cbn.
  destruct (arg_limit args) as [| | v]; try lia.
  destruct (Z.eqb_spec v 0); lia.
Qed.

(** What [paginate] makes of one window of a list. *)
Lemma page_shape {A B : Type} (f : A -> B) (limit0 offset0 : Z)
    (l : list A) :
  1 <= limit0 -> 0 <= offset0 ->
  let rows0 := firstn (Z.to_nat limit0) (skipn (Z.to_nat offset0) l) in
  let b := paginate (map f rows0) (count_of l) (Some limit0) (Some offset0) in
  (List.length (items b) <= Z.to_nat (limit b))%nat
  /\ (hasMore b = true <-> offset b + limit b < totalCount b)
  /\ (offset b = 0 -> hasMore b = false -> rows0 = l).
Proof.
  intros Hl Ho. cbn. unfold count_of.
  rewrite length_map, length_firstn, length_skipn.
  split; [lia |]. split.
  - rewrite Z.ltb_lt. lia.
  - intros -> H. apply Z.ltb_ge in H. cbn [Z.to_nat skipn] in *.
    apply firstn_all2. lia.
Qed.

Section ListQueryPages.
Context {ext : Collaborators}.

(** X12. [institutes] either ends in the database's error, exactly when the
    computed limit or offset is negative, or returns a page whose limit is
    between 1 and 100 and whose offset is not negative; its items are then
    at most [limit] stored institutes matching the search, in ascending
    order of name; [totalCount] is the number of all matching institutes;
    [hasMore] says exactly that [offset + limit] is below that number; and
    a page from offset 0 without more holds every matching institute. *)
Theorem institutes_page :
  forall (args : ListArgs) (st : Store),
    let w := getPaginationParams (page args) in
    let matching :=
      filter (search_where (search args) institute_name institute_location)
             (tbl_institutes st) in
    match fst (institutes args st) with
    | Ok b =>
        1 <= limit b <= 100 /\ 0 <= offset b
        /\ limit b = win_limit w /\ offset b = win_offset w
        /\ (List.length (items b) <= Z.to_nat (limit b))%nat
        /\ totalCount b = count_of matching
        /\ (forall i, In i (items b) -> In i matching)
        /\ StronglySorted
             (fun x y => String.leb (institute_name x) (institute_name y)
                         = true)
             (items b)
        /\ (hasMore b = true <-> offset b + limit b < totalCount b)
        /\ (offset b = 0 -> hasMore b = false ->
            Permutation (items b) matching)
    | Throw e =>
        e = SequelizeError "SequelizeDatabaseError"
        /\ (win_limit w < 0 \/ win_offset w < 0)
    end.
Proof.
  intros args st w matching.
  pose proof (win_limit_nonzero (page args)) as [Hnz Hmax]. fold w in Hnz, Hmax.
  unfold institutes, findAndCountAll, select, bind, record_query, lift, ret.
  cbn -[window getPaginationParams paginate]. fold w. fold matching.
  unfold ordered, ascending.
  set (all := sort_by _ (unordered matching)).
  destruct (window_cases (win_limit w) (win_offset w) all)
    as [(Hl & Ho & ->) | [Hneg ->]]; cbn -[paginate]; [| tauto].
  assert (Hsorted : StronglySorted
                      (fun x y => String.leb (institute_name x)
                                             (institute_name y) = true) all)
    by apply ascending_sorted.
  assert (Hperm : Permutation all matching)
    by (eapply perm_trans; [apply sort_by_perm | apply unordered_perm]).
  assert (Hcount : count_of matching = count_of all).
  { unfold count_of. now rewrite (Permutation_length Hperm). }
  change (Z.of_nat (List.length matching)) with (count_of matching).
  rewrite Hcount.
  assert (Hl1 : 1 <= win_limit w) by (clear -Hl Hnz; lia).
  destruct (page_shape (fun i : Institute => i) (win_limit w) (win_offset w)
              all Hl1 Ho) as (Hlen & Hmore & Hwhole).
  rewrite map_id in Hlen, Hmore, Hwhole.
  split; [exact (conj Hl1 Hmax) |]. split; [exact Ho |].
  split; [reflexivity |]. split; [reflexivity |].
  split; [exact Hlen |]. split; [reflexivity |].
  split.
  { intros i Hi. cbn [items paginate] in Hi.
    apply in_firstn, in_skipn in Hi.
    eapply Permutation_in; [exact Hperm | exact Hi]. }
  split.
  { cbn [items paginate]. apply firstn_sorted, skipn_sorted. exact Hsorted. }
  split; [exact Hmore |].
  intros H0 Hno.
  change (Permutation
            (firstn (Z.to_nat (win_limit w))
                    (skipn (Z.to_nat (win_offset w)) all)) matching).
  rewrite (Hwhole H0 Hno). exact Hperm.
Qed.

End ListQueryPages.

Lemma sorted_app_cross {A : Type} (R : A -> A -> Prop) (a b : list A)
    (x y : A) :
  StronglySorted R (a ++ b)%list -> In x a -> In y b -> R x y.
Proof.
  induction a as [| h a IH]; cbn; intros Hs Hx Hy; [contradiction |].
  apply StronglySorted_inv in Hs. destruct Hs as [Hs Hall].
  destruct Hx as [-> | Hx].
  - rewrite Forall_forall in Hall. apply Hall. apply in_or_app. now right.
  - now apply IH.
Qed.

Lemma window_nonempty {A : Type} (n k : nat) (l : list A) :
  firstn n (skipn k l) <> [] <-> (0 < n /\ k < List.length l)%nat.
Proof.
  rewrite <- length_zero_iff_nil, length_firstn, length_skipn. lia.
Qed.

Section ListQueryChain.
Context {ext : Collaborators}.

Lemma institutes_run (args : ListArgs) (st : Store) :
  institutes args st
  = (match window (Some (win_limit (getPaginationParams (page args))))
             (Some (win_offset (getPaginationParams (page args))))
             (sort_by (fun a b => String.leb (institute_name a)
                                             (institute_name b))
                (unordered
                   (filter (search_where (search args) institute_name
                              institute_location) (tbl_institutes st)))) with
     | Ok l =>
         Ok (paginate l
               (count_of
                  (filter (search_where (search args) institute_name
                             institute_location) (tbl_institutes st)))
               (Some (win_limit (getPaginationParams (page args))))
               (Some (win_offset (getPaginationParams (page args)))))
     | Throw e => Throw e
     end,
     logged (Q_findAndCountAll Institutes) st).
Proof.
  unfold institutes, findAndCountAll, select, bind, record_query, lift, ret.
  cbn -[window getPaginationParams paginate].
  unfold ordered, ascending.
  destruct (window _ _ _); reflexivity.
Qed.

(** X13. After a page of [institutes] was returned, asking for the page
    that follows it (the same limit and search, the offset moved on by the
    limit) returns again: it reports the same [totalCount], it has items
    exactly when the first page said [hasMore], and no name on it sorts
    before a name on the first page. *)
Theorem institutes_next_page :
  forall (args : ListArgs) (st : Store) (b : PaginatedResult Institute),
    fst (institutes args st) = Ok b ->
    exists b',
      fst (institutes
             {| page := {| arg_limit := given (limit b);
                           arg_offset := given (offset b + limit b) |};
                search := search args |}
             (snd (institutes args st))) = Ok b'
      /\ limit b' = limit b
      /\ offset b' = offset b + limit b
      /\ totalCount b' = totalCount b
      /\ (hasMore b = true <-> items b' <> [])
      /\ (forall x y, In x (items b) -> In y (items b') ->
                      String.leb (institute_name x) (institute_name y)
                      = true).
Proof.
  intros args st b Hrun.
  pose proof (institutes_page args st) as Hpage. cbv zeta in Hpage.
  rewrite Hrun in Hpage.
  destruct Hpage as (Hlim & Hoff & _ & _ & _ & Htotal & _ & _ & Hmore & _).
  revert Hrun. rewrite !institutes_run. cbn [fst snd page search].
  change (tbl_institutes (logged (Q_findAndCountAll Institutes) st))
    with (tbl_institutes st).
  set (matching := filter _ (tbl_institutes st)) in *.
  set (all := sort_by _ (unordered matching)).
  assert (Hsorted : StronglySorted
                      (fun x y => String.leb (institute_name x)
                                             (institute_name y) = true) all)
    by apply ascending_sorted.
  assert (Hlen : List.length all = List.length matching)
    by (apply Permutation_length, sort_unordered_perm).
  destruct (window_cases (win_limit (getPaginationParams (page args)))
              (win_offset (getPaginationParams (page args))) all)
    as [(Hl & Ho & ->) | [_ ->]]; [| discriminate].
  intros Hb. apply Ok_inj in Hb. subst b.
  cbn [limit offset totalCount hasMore items paginate] in *.
  set (L := win_limit (getPaginationParams (page args))) in *.
  set (O := win_offset (getPaginationParams (page args))) in *.
  clearbody L O.
  assert (HL' : win_limit (getPaginationParams
                  {| arg_limit := given L; arg_offset := given (O + L) |})
                = L).
  { unfold getPaginationParams, num_or. cbn.
    destruct (Z.eqb_spec L 0); lia. }
  assert (HO' : win_offset (getPaginationParams
                  {| arg_limit := given L; arg_offset := given (O + L) |})
                = O + L).
  { unfold getPaginationParams, num_or. cbn.
    destruct (Z.eqb_spec (O + L) 0); lia. }
  rewrite HL', HO'.
  destruct (window_cases L (O + L) all) as [(_ & _ & ->) | [Hneg _]];
    [| lia].
  eexists. split; [reflexivity |].
  cbn [limit offset totalCount hasMore items paginate].
  do 3 (split; [reflexivity |]).
  split.
  - rewrite Hmore, window_nonempty. unfold count_of. lia.
  - intros x y Hx Hy.
    replace (Z.to_nat (O + L)) with (Z.to_nat L + Z.to_nat O)%nat in Hy
      by lia.
    rewrite <- skipn_skipn in Hy. apply in_firstn in Hy.
    apply (sorted_app_cross
             (fun x y => String.leb (institute_name x) (institute_name y)
                         = true)
             (firstn (Z.to_nat L) (skipn (Z.to_nat O) all))
             (skipn (Z.to_nat L) (skipn (Z.to_nat O) all)));
      [| exact Hx | exact Hy].
    rewrite firstn_skipn. apply skipn_sorted. exact Hsorted.
Qed.

End ListQueryChain.

(** X12, on the eleven institutes with the default page: ten of them are
    listed and there are more. *)
Lemma institutes_page_witness :
  exists b,
    fst (institutes (ext := plain)
           {| page := {| arg_limit := undefined; arg_offset := undefined |};
              search := undefined |} eleven_institutes) = Ok b
    /\ (hasMore b = true <-> offset b + limit b < totalCount b)
    /\ StronglySorted
         (fun x y => String.leb (institute_name x) (institute_name y) = true)
         (items b).
Proof.
  pose proof (institutes_page (ext := plain)
                {| page := {| arg_limit := undefined;
                              arg_offset := undefined |};
                   search := undefined |} eleven_institutes) as H.
  cbv zeta in H.
  destruct (fst (institutes _ eleven_institutes)) as [b | e] eqn:Hrun.
  - exists b. split; [reflexivity |]. split; tauto.
  - exfalso. destruct H as [_ [H | H]]; vm_compute in H; discriminate.
Defined.

(** X13, on the eleven institutes: the second page of ten holds the one
    institute that is left. *)
Lemma institutes_next_page_witness :
  exists b',
    fst (institutes (ext := plain)
           {| page := {| arg_limit := given 10; arg_offset := given 10 |};
              search := undefined |}
           (snd (institutes (ext := plain)
                   {| page := {| arg_limit := undefined;
                                 arg_offset := undefined |};
                      search := undefined |} eleven_institutes))) = Ok b'
    /\ totalCount b' = 11.
Proof.
  destruct (institutes_next_page (ext := plain)
              {| page := {| arg_limit := undefined;
                            arg_offset := undefined |};
                 search := undefined |} eleven_institutes _ eq_refl)
    as (b' & Hrun & _ & _ & Htotal & _).
  exists b'. split; [exact Hrun | exact Htotal].
Defined.

(** ** The list of results *)

Lemma newest_best_first_total (a b : Result) :
  (result_year b <? result_year a)
  || ((result_year a =? result_year b)
      && Qle_bool (result_score b) (result_score a)) = true
  \/ (result_year a <? result_year b)
     || ((result_year b =? result_year a)
         && Qle_bool (result_score a) (result_score b)) = true.
Proof.
  destruct (Z.ltb_spec (result_year b) (result_year a)); [now left |].
  destruct (Z.ltb_spec (result_year a) (result_year b)); [now right |].
  assert (E : result_year a = result_year b) by lia.
  rewrite E, Z.eqb_refl. cbn.
  destruct (Qlt_le_dec (result_score a) (result_score b)) as [Hlt | Hle].
  - right. apply Qle_bool_iff. now apply Qlt_le_weak.
  - left. now apply Qle_bool_iff.
Qed.

Lemma newest_best_first_spec (a b : Result) :
  (result_year b <? result_year a)
  || ((result_year a =? result_year b)
      && Qle_bool (result_score b) (result_score a)) = true
  <-> result_year b < result_year a
      \/ (result_year a = result_year b
          /\ (result_score b <= result_score a)%Q).
Proof.
  rewrite orb_true_iff, andb_true_iff, Z.ltb_lt, Z.eqb_eq, Qle_bool_iff.
  reflexivity.
Qed.

Lemma newest_best_first_trans (a b c : Result) :
  (result_year b <? result_year a)
  || ((result_year a =? result_year b)
      && Qle_bool (result_score b) (result_score a)) = true ->
  (result_year c <? result_year b)
  || ((result_year b =? result_year c)
      && Qle_bool (result_score c) (result_score b)) = true ->
  (result_year c <? result_year a)
  || ((result_year a =? result_year c)
      && Qle_bool (result_score c) (result_score a)) = true.
Proof.
  rewrite !newest_best_first_spec.
  intros [H1 | [H1 H1']] [H2 | [H2 H2']]; try (left; lia).
  right. split; [lia |]. eapply Qle_trans; eassumption.
Qed.

Section ResultsPage.
Context {ext : Collaborators}.

(** X14. A page returned by [results] lists stored results, each with the
    first stored student and course of the ids it names, newest year first
    and within a year the best score first; with a year that is not 0 only
    results of that year are listed and counted, while the year 0, like a
    missing year, counts every result; there are at most [limit] items,
    the limit is between 1 and 100, and [hasMore] says exactly that
    [offset + limit] is below [totalCount]. *)
Theorem results_page :
  forall (args : ResultListArgs) (context0 : AuthContext) (st : Store)
         (b : PaginatedResult ResultDetail),
    fst (results args context0 st) = Ok b ->
    exists rows0,
      items b = map (result_detail st) rows0
      /\ (forall r, In r rows0 -> In r (tbl_results st))
      /\ (forall y, rl_year args = given y -> y <> 0 ->
                    (forall r, In r rows0 -> result_year r = y)
                    /\ totalCount b
                       = count_of (filter (fun r => result_year r =? y)
                                          (tbl_results st)))
      /\ (rl_year args = given 0 \/ rl_year args = undefined
          \/ rl_year args = null ->
          totalCount b = count_of (tbl_results st))
      /\ StronglySorted
           (fun x y =>
              result_year y < result_year x
              \/ (result_year x = result_year y
                  /\ (result_score y <= result_score x)%Q))
           rows0
      /\ (List.length rows0 <= Z.to_nat (limit b))%nat
      /\ 1 <= limit b <= 100
      /\ 0 <= offset b
      /\ (hasMore b = true <-> offset b + limit b < totalCount b).
Proof.
  intros args [[p |]] st b; [| discriminate].
  pose proof (win_limit_nonzero (rl_page args)) as [Hnz Hmax].
  unfold results, requireAuth, findAndCountAll, select, bind, record_query,
    lift, read, ret.
  cbn -[window getPaginationParams paginate year_where].
  unfold ordered, newest_best_first.
  set (L := win_limit (getPaginationParams (rl_page args))) in *.
  set (O := win_offset (getPaginationParams (rl_page args))) in *.
  clearbody L O.
  set (matching := filter (year_where (rl_year args)) (tbl_results st)).
  set (all := sort_by _ (unordered matching)).
  assert (Hperm : Permutation all matching)
    by (eapply perm_trans; [apply sort_by_perm | apply unordered_perm]).
  assert (Hsorted :
            StronglySorted
              (fun x y =>
                 result_year y < result_year x
                 \/ (result_year x = result_year y
                     /\ (result_score y <= result_score x)%Q)) all).
  { eapply sorted_impl;
      [| apply sort_by_sorted;
         [intros x y; apply newest_best_first_total
         | intros x y z; apply newest_best_first_trans]].
    intros x y. apply newest_best_first_spec. }
  destruct (window_cases L O all) as [(Hl & Ho & ->) | [_ ->]];
    cbn -[paginate year_where]; [| discriminate].
  intros Hb. apply Ok_inj in Hb. subst b.
  assert (Hl1 : 1 <= L) by lia.
  change (Z.of_nat (List.length matching)) with (count_of matching).
  assert (Hcount : count_of matching = count_of all).
  { unfold count_of. now rewrite (Permutation_length Hperm). }
  destruct (page_shape (result_detail st) L O all Hl1 Ho)
    as (Hlen & Hmore & _).
  rewrite <- Hcount in Hlen, Hmore.
  exists (firstn (Z.to_nat L) (skipn (Z.to_nat O) all)).
  split; [reflexivity |].
  assert (Hin : forall r,
             In r (firstn (Z.to_nat L) (skipn (Z.to_nat O) all)) ->
             In r matching).
  { intros r Hr. apply in_firstn, in_skipn in Hr.
    eapply Permutation_in; [exact Hperm | exact Hr]. }
  split.
  { intros r Hr. apply Hin in Hr. apply filter_In in Hr. tauto. }
  split.
  { intros y Hy Hy0. split.
    - intros r Hr. apply Hin in Hr. apply filter_In in Hr.
      destruct Hr as [_ Hr]. rewrite Hy in Hr. unfold year_where in Hr.
      apply Z.eqb_neq in Hy0. rewrite Hy0 in Hr. now apply Z.eqb_eq.
    - cbn [totalCount paginate]. subst matching. rewrite Hy.
      unfold year_where. apply Z.eqb_neq in Hy0. rewrite Hy0. reflexivity. }
  split.
  { intros Hy. cbn [totalCount paginate]. subst matching.
    replace (filter (year_where (rl_year args)) (tbl_results st))
      with (tbl_results st); [reflexivity |].
    symmetry. apply forallb_filter_id. apply forallb_forall. intros r _.
    destruct Hy as [-> | [-> | ->]]; reflexivity. }
  split; [apply firstn_sorted, skipn_sorted; exact Hsorted |].
  split.
  { cbn [items limit paginate] in Hlen. rewrite length_map in Hlen.
    exact Hlen. }
  split; [exact (conj Hl1 Hmax) |].
  split; [exact Ho | exact Hmore].
Qed.

End ResultsPage.

(** X14, for the results of 2024 on the campus. *)
Lemma results_page_witness :
  exists b rows0,
    fst (results (ext := plain)
           {| rl_page := {| arg_limit := undefined; arg_offset := undefined |};
              rl_search := undefined; rl_year := given 2024 |}
           a_student campus) = Ok b
    /\ items b = map (result_detail campus) rows0
    /\ forall r, In r rows0 -> result_year r = 2024.
Proof.
  destruct (results_page (ext := plain)
              {| rl_page := {| arg_limit := undefined;
                               arg_offset := undefined |};
                 rl_search := undefined; rl_year := given 2024 |}
              a_student campus _ eq_refl)
    as (rows0 & Hitems & _ & Hyear & _).
  eexists. exists rows0. split; [reflexivity |]. split; [exact Hitems |].
  apply (Hyear 2024 eq_refl). discriminate.
Defined.

(** ** Groups partition the rows *)

Lemma Zsum_perm (l l' : list Z) : Permutation l l' -> Zsum l = Zsum l'.
Proof.
  unfold Zsum. induction 1; cbn; lia.
Qed.

Lemma Zsum_firstn (k : nat) (l : list Z) :
  Forall (fun z => 0 <= z) l -> Zsum (firstn k l) <= Zsum l.
Proof.
  intros Hall. revert k.
  induction Hall as [| z l Hz Hl IH]; intros [| k]; unfold Zsum in *;
    cbn; try lia.
  - pose proof (IH O) as H0. cbn in H0. lia.
  - pose proof (IH k). lia.
Qed.

Lemma Qsum_perm (l l' : list Q) : Permutation l l' -> (Qsum l == Qsum l')%Q.
Proof.
  induction 1; cbn.
  - reflexivity.
  - now rewrite IHPermutation.
  - ring.
  - now rewrite IHPermutation1.
Qed.

(** Each row falls into the group of its own key and into no other. *)
Lemma count_by_key {R : Type} (key : R -> string) (ks : list string)
    (l : list R) :
  NoDup ks -> (forall r, In r l -> In (key r) ks) ->
  Zsum (map (fun k => count_of (filter (fun r => String.eqb (key r) k) l)) ks)
  = count_of l.
Proof.
  intros Hnd. revert l. induction ks as [| k ks IH]; intros l Hin.
  - destruct l as [| r l]; [reflexivity |].
    destruct (Hin r (or_introl eq_refl)).
  - inversion Hnd as [| ? ? Hk Hks]; subst. cbn [map Zsum fold_right].
    fold (Zsum (map (fun k0 =>
                       count_of (filter (fun r => String.eqb (key r) k0) l))
                    ks)).
    assert (Hrest :
              Zsum (map (fun k0 =>
                           count_of
                             (filter (fun r => String.eqb (key r) k0) l)) ks)
              = count_of (filter (fun r => negb (String.eqb (key r) k)) l)).
    { rewrite <- (IH Hks (filter (fun r => negb (String.eqb (key r) k)) l)).
      - f_equal. apply map_ext_in. intros k0 Hk0. f_equal.
        rewrite filter_twice. apply filter_ext. intros r.
        destruct (String.eqb_spec (key r) k0) as [E | _];
          [| now rewrite andb_false_r].
        rewrite andb_true_r.
        destruct (String.eqb_spec (key r) k) as [E' | _]; [| reflexivity].
        exfalso. apply Hk. congruence.
      - intros r Hr. apply filter_In in Hr. destruct Hr as [Hr Hne].
        destruct (Hin r Hr) as [E | H]; [| exact H].
        subst k. now rewrite String.eqb_refl in Hne. }
    rewrite Hrest. unfold count_of.
    rewrite <- Nat2Z.inj_add. f_equal.
    clear. induction l as [| r l IHl]; cbn; [reflexivity |].
    destruct (String.eqb (key r) k); cbn; lia.
Qed.

Lemma group_by_counts {R : Type} (key : R -> string) (l : list R) :
  Zsum (map (fun g => count_of (snd g)) (group_by key l)) = count_of l.
Proof.
  unfold group_by. rewrite map_map. cbn [snd].
  apply count_by_key.
  - apply distinct_nodup.
  - intros r Hr. apply distinct_in. now apply in_map.
Qed.

Lemma Qsum_split {R : Type} (f : R -> Q) (g : R -> bool) (l : list R) :
  (Qsum (map f (filter g l)) + Qsum (map f (filter (fun r => negb (g r)) l))
   == Qsum (map f l))%Q.
Proof.
  unfold Qsum. induction l as [| r l IH]; cbn [filter map fold_right];
    [reflexivity |].
  destruct (g r); cbn [negb map fold_right]; rewrite <- IH; ring.
Qed.

Lemma Qsum_by_key {R : Type} (key : R -> string) (f : R -> Q)
    (ks : list string) (l : list R) :
  NoDup ks -> (forall r, In r l -> In (key r) ks) ->
  (Qsum (map (fun k =>
                Qsum (map f (filter (fun r => String.eqb (key r) k) l))) ks)
   == Qsum (map f l))%Q.
Proof.
  intros Hnd. revert l. induction ks as [| k ks IH]; intros l Hin.
  - destruct l as [| r l]; [reflexivity |].
    destruct (Hin r (or_introl eq_refl)).
  - inversion Hnd as [| ? ? Hk Hks]; subst. cbn [map Qsum fold_right].
    rewrite <- (Qsum_split f (fun r => String.eqb (key r) k) l).
    apply Qplus_comp; [reflexivity |].
    rewrite <- (IH Hks (filter (fun r => negb (String.eqb (key r) k)) l)).
    + replace (map (fun k0 =>
                      Qsum (map f (filter (fun r => String.eqb (key r) k0)
                                          l))) ks)
        with (map (fun k0 =>
                     Qsum (map f
                             (filter (fun r => String.eqb (key r) k0)
                                (filter
                                   (fun r => negb (String.eqb (key r) k))
                                   l)))) ks); [reflexivity |].
      apply map_ext_in. intros k0 Hk0. do 2 f_equal.
      rewrite filter_twice. apply filter_ext. intros r.
      destruct (String.eqb_spec (key r) k0) as [E | _];
        [| now rewrite andb_false_r].
      rewrite andb_true_r.
      destruct (String.eqb_spec (key r) k) as [E' | _]; [| reflexivity].
      exfalso. apply Hk. congruence.
    + intros r Hr. apply filter_In in Hr. destruct Hr as [Hr Hne].
      destruct (Hin r Hr) as [E | H]; [| exact H].
      subst k. now rewrite String.eqb_refl in Hne.
Qed.

Lemma group_by_scores {R : Type} (key : R -> string) (f : R -> Q)
    (l : list R) :
  (Qsum (map (fun g => Qsum (map f (snd g))) (group_by key l))
   == Qsum (map f l))%Q.
Proof.
  unfold group_by. rewrite map_map. cbn [snd].
  apply Qsum_by_key.
  - apply distinct_nodup.
  - intros r Hr. apply distinct_in. now apply in_map.
Qed.

Section GroupTotals.
Context {ext : Collaborators}.

(** X15. The [resultCount]s of a list returned by [topStudents] never add
    up to more than the number of stored results; with the limit [null]
    (no LIMIT clause) they add up to exactly that number and the
    [totalScore]s add up to the sum of all stored scores, so every result
    is counted for one student and none twice. *)
Theorem topStudents_counts_add_up :
  forall (st : Store) (context0 : AuthContext) (limit0 : optional Z)
         (tops : list TopStudent),
    fst (topStudents limit0 context0 st) = Ok tops ->
    Zsum (map ts_resultCount tops) <= count_of (tbl_results st)
    /\ (limit0 = null ->
        Zsum (map ts_resultCount tops) = count_of (tbl_results st)
        /\ (Qsum (map ts_totalScore tops)
            == Qsum (map result_score (tbl_results st)))%Q).
Proof.
  intros st [[p |]] limit0 tops Hrun; [| discriminate].
  destruct (topStudents_returned st p limit0 tops Hrun)
    as (scored & Hwin & ->).
  unfold student_scores in Hwin. cbn [ordered] in Hwin.
  set (groups := group_by result_studentId (tbl_results st)) in *.
  set (sorted := sort_by _ (unordered (map student_score groups))) in *.
  assert (Hperm : Permutation sorted (map student_score groups))
    by apply sort_unordered_perm.
  assert (Hall : Zsum (map agg_resultCount sorted)
                 = count_of (tbl_results st)).
  { rewrite (Zsum_perm _ _ (Permutation_map agg_resultCount Hperm)).
    rewrite map_map. apply group_by_counts. }
  assert (Hscores : (Qsum (map agg_totalScore sorted)
                     == Qsum (map result_score (tbl_results st)))%Q).
  { rewrite (Qsum_perm _ _ (Permutation_map agg_totalScore Hperm)).
    rewrite map_map. apply group_by_scores. }
  assert (Hpos : Forall (fun z => 0 <= z) (map agg_resultCount sorted)).
  { apply Forall_forall. intros z Hz. apply in_map_iff in Hz.
    destruct Hz as (row & <- & Hrow).
    apply (Permutation_in _ Hperm) in Hrow. apply in_map_iff in Hrow.
    destruct Hrow as (g & <- & _). cbn. unfold count_of. lia. }
  rewrite !map_map. cbn [ts_resultCount ts_totalScore top_student_of].
  change (map (fun x => agg_resultCount x) scored)
    with (map agg_resultCount scored).
  change (map (fun x => agg_totalScore x) scored)
    with (map agg_totalScore scored).
  split.
  - destruct (window_firstn _ _ _ Hwin) as (k & -> & _).
    rewrite <- Hall, <- firstn_map. apply Zsum_firstn. exact Hpos.
  - intros ->. cbn in Hwin. apply Ok_inj in Hwin. subst scored.
    split; [exact Hall | exact Hscores].
Qed.

(** X16. The [enrollmentCount]s of a list returned by [topCourses] never add
    up to more than the number of stored results of the given year; with
    the limit [null] they add up to exactly that number. *)
Theorem topCourses_counts_add_up :
  forall (st : Store) (context0 : AuthContext) (year : Z)
         (limit0 : optional Z) (tops : list TopCourse),
    fst (topCourses year limit0 context0 st) = Ok tops ->
    Zsum (map tc_enrollmentCount tops)
    <= count_of (filter (fun r => result_year r =? year) (tbl_results st))
    /\ (limit0 = null ->
        Zsum (map tc_enrollmentCount tops)
        = count_of (filter (fun r => result_year r =? year)
                           (tbl_results st))).
Proof.
  intros st [[p |]] year limit0 tops Hrun; [| discriminate].
  destruct (topCourses_returned st p year limit0 tops Hrun)
    as (counted & Hwin & ->).
  unfold enrollment_counts in Hwin. cbn [ordered] in Hwin.
  set (inYear := filter (fun r => result_year r =? year) (tbl_results st))
    in *.
  set (groups := group_by result_courseId inYear) in *.
  set (sorted := sort_by _ (unordered (map course_count groups))) in *.
  assert (Hperm : Permutation sorted (map course_count groups))
    by apply sort_unordered_perm.
  assert (Hall : Zsum (map agg_enrollmentCount sorted) = count_of inYear).
  { rewrite (Zsum_perm _ _ (Permutation_map agg_enrollmentCount Hperm)).
    rewrite map_map. apply group_by_counts. }
  assert (Hpos : Forall (fun z => 0 <= z) (map agg_enrollmentCount sorted)).
  { apply Forall_forall. intros z Hz. apply in_map_iff in Hz.
    destruct Hz as (row & <- & Hrow).
    apply (Permutation_in _ Hperm) in Hrow. apply in_map_iff in Hrow.
    destruct Hrow as (g & <- & _). cbn. unfold count_of. lia. }
  rewrite !map_map. cbn [tc_enrollmentCount top_course_of].
  change (map (fun x => agg_enrollmentCount x) counted)
    with (map agg_enrollmentCount counted).
  split.
  - destruct (window_firstn _ _ _ Hwin) as (k & -> & _).
    rewrite <- Hall, <- firstn_map. apply Zsum_firstn. exact Hpos.
  - intros ->. cbn in Hwin. apply Ok_inj in Hwin. subst counted. exact Hall.
Qed.

End GroupTotals.

(** X15, for all students of the campus: the four results are counted. *)
Lemma topStudents_counts_add_up_witness :
  exists tops,
    fst (topStudents (ext := plain) null a_student campus) = Ok tops
    /\ Zsum (map ts_resultCount tops) = 4.
Proof.
  eexists. split; [reflexivity |].
  apply (proj2 (topStudents_counts_add_up (ext := plain) campus a_student
                  null _ eq_refl) eq_refl).
Defined.

(** X16, for the enrolments of 2024: twelve results are counted. *)
Lemma topCourses_counts_add_up_witness :
  exists tops,
    fst (topCourses (ext := plain) 2024 null a_student enrolment_book) = Ok tops
    /\ Zsum (map tc_enrollmentCount tops) = 12.
Proof.
  eexists. split; [reflexivity |].
  apply (proj2 (topCourses_counts_add_up (ext := plain) enrolment_book a_student
                  2024 null _ eq_refl) eq_refl).
Defined.

(** ** From the Authorization header to the context *)

Lemma strip_prefix_app (p s : string) : strip_prefix p (p ++ s) = Some s.
Proof.
  induction p as [| a p IH]; cbn; [reflexivity |].
  rewrite Ascii.eqb_refl. exact IH.
Qed.

Lemma strip_prefix_some (p s rest : string) :
  strip_prefix p s = Some rest -> s = p ++ rest.
Proof.
  revert s. induction p as [| a p IH]; intros s; cbn.
  - intros H. now injection H as ->.
  - destruct s as [| b s]; [discriminate |].
    destruct (Ascii.eqb_spec a b) as [-> | _]; [| discriminate].
    intros H. now rewrite (IH s H).
Qed.

Lemma replace_first_prefix (p r s : string) :
  replace_first p r (p ++ s) = r ++ s.
Proof.
  destruct (p ++ s) as [| c t] eqn:E; cbn [replace_first]; rewrite <- E;
    rewrite strip_prefix_app; reflexivity.
Qed.

(** A string without a space holds no occurrence of ["Bearer "]. *)
Lemma replace_first_no_space (r s : string) :
  ~ In " "%char (list_ascii_of_string s) ->
  replace_first "Bearer " r s = s.
Proof.
  induction s as [| c s IH]; intros Hs; [reflexivity |].
  cbn [replace_first].
  destruct (strip_prefix "Bearer " (String c s)) as [rest |] eqn:E.
  - exfalso. apply Hs. apply strip_prefix_some in E. rewrite E. cbn. tauto.
  - f_equal. apply IH. intros H. apply Hs. cbn. now right.
Qed.

Section HeaderToContext.
Context {verifier : TokenVerifier} {ext : Collaborators}.

(** X17. Building the context never fails.  The header ["Bearer " ++ t]
    gives the principal the verifier decodes from a non-empty [t]; a token
    without a space is treated alike with and without the ["Bearer "] in
    front; and a missing header, an empty token or a token the verifier
    rejects gives the context without a user, with which every guarded
    operation answers "Authentication required" or "Not authenticated" under
    UNAUTHENTICATED, never "Invalid or expired token", and leaves the store
    as it was. *)
Theorem context_from_header :
  (forall t, t <> "" ->
             context (Some ("Bearer " ++ t))
             = {| ctx_user := jwt_verify t |})
  /\ (forall t, ~ In " "%char (list_ascii_of_string t) ->
                context (Some t) = context (Some ("Bearer " ++ t)))
  /\ (forall header,
         header = None
         \/ header = Some "Bearer "
         \/ (exists t, header = Some ("Bearer " ++ t) /\ jwt_verify t = None)
         ->
         context header = {| ctx_user := None |}
         /\ forall op st,
              is_public op = false ->
              exists e,
                resolve op (context header) st = (Throw e, st)
                /\ error_code e = "UNAUTHENTICATED"
                /\ (error_message e = "Authentication required"
                    \/ error_message e = "Not authenticated")).
Proof.
  assert (Hbearer : forall t,
             context (Some ("Bearer " ++ t))
             = if String.eqb t "" then {| ctx_user := None |}
               else {| ctx_user := jwt_verify t |}).
  { intros t. unfold context, verifyToken. cbn [option_map].
    rewrite replace_first_prefix. cbn [append].
    destruct (String.eqb t ""); [reflexivity |].
    destruct (jwt_verify t); reflexivity. }
  split; [| split].
  - intros t Ht. rewrite Hbearer. apply String.eqb_neq in Ht.
    now rewrite Ht.
  - intros t Ht. rewrite Hbearer. unfold context, verifyToken.
    cbn [option_map]. rewrite (replace_first_no_space "" t Ht).
    destruct (String.eqb t ""); [reflexivity |].
    destruct (jwt_verify t); reflexivity.
  - intros header Hheader.
    assert (Hanon : context header = {| ctx_user := None |}).
    { destruct Hheader as [-> | [-> | (t & -> & Hrej)]].
      - reflexivity.
      - reflexivity.
      - rewrite Hbearer, Hrej. destruct (String.eqb t ""); reflexivity. }
    split; [exact Hanon |].
    intros op st Hguarded. rewrite Hanon.
    destruct op; try discriminate Hguarded;
      eexists; (split; [reflexivity |]); split; try reflexivity;
      (left; reflexivity) || (right; reflexivity).
Qed.

(** X18. After a sign-in returned, a request that carries the returned
    token as ["Bearer " ++ token] runs under the claims of the signed-in
    account, and [me] then returns a stored account of that id, which is the
    signed-in account itself when user ids are unique; this holds whenever
    the verifier decodes the tokens issued for stored accounts and such
    tokens are not empty. *)
Theorem signIn_then_me :
  forall (input : SignInInput) (st : Store) (payload : AuthPayload),
    (forall u, In u (tbl_users st) ->
               issue_token u <> ""
               /\ jwt_verify (issue_token u) = Some (claims_of u)) ->
    fst (signIn input st) = Ok payload ->
    context (Some ("Bearer " ++ payload_token payload))
    = {| ctx_user := Some (claims_of (payload_user payload)) |}
    /\ exists u,
         fst (me (context (Some ("Bearer " ++ payload_token payload)))
                 (snd (signIn input st)))
         = Ok (Some (student_of_user st u))
         /\ In u (tbl_users st)
         /\ user_id u = user_id (payload_user payload)
         /\ (NoDup (map user_id (tbl_users st)) -> u = payload_user payload).
Proof.
  intros input st payload Htokens Hrun.
  assert (Hpayload :
            exists u, In u (tbl_users st)
                      /\ payload = {| payload_token := issue_token u;
                                      payload_user := u |}
                      /\ tbl_users (snd (signIn input st)) = tbl_users st
                      /\ tbl_students (snd (signIn input st))
                         = tbl_students st).
  { revert Hrun. unfold signIn, findOne, bind, record_query, read. cbn.
    destruct (find (fun r => String.eqb (user_email r) (si_email input))
                   (tbl_users st)) as [u |] eqn:Hfind; cbn; [| discriminate].
    destruct (bcrypt_compare (si_password input) (user_password u)); cbn;
      [| discriminate].
    intros H. apply Ok_inj in H. subst payload.
    apply find_some in Hfind. exists u. tauto. }
  destruct Hpayload as (u & Hin & -> & Husers & Hstudents).
  cbn [payload_token payload_user].
  generalize dependent (snd (signIn input st)). intros st1 Husers Hstudents.
  destruct (Htokens u Hin) as [Hne Hdec].
  assert (Hctx : context (Some ("Bearer " ++ issue_token u))
                 = {| ctx_user := Some (claims_of u) |}).
  { rewrite (proj1 context_from_header _ Hne), Hdec. reflexivity. }
  split; [exact Hctx |].
  rewrite Hctx.
  destruct (find_present (fun x => String.eqb (user_id x) (user_id u))
              (tbl_users st) u Hin (String.eqb_refl _))
    as (u' & Hfind' & Hin' & Hid').
  apply String.eqb_eq in Hid'.
  exists u'.
  unfold me, including, findByPk, bind, record_query, read, lift, lookup_key.
  cbn. rewrite Husers, Hfind'. cbn. unfold student_of_user.
  cbn [tbl_students logged]. rewrite Hstudents.
  split; [reflexivity |]. split; [exact Hin' |]. split; [exact Hid' |].
  intros Hnd. clear -Hin Hin' Hid' Hnd.
  induction (tbl_users st) as [| x l IH]; [contradiction |].
  cbn in Hnd. inversion Hnd as [| ? ? Hx Hl]; subst.
  destruct Hin as [-> | Hin], Hin' as [-> | Hin']; auto.
  - exfalso. apply Hx. rewrite <- Hid'. now apply in_map.
  - exfalso. apply Hx. rewrite Hid'. now apply in_map.
Qed.

End HeaderToContext.

(** X17, for a token that the campus verifier does not know. *)
Lemma context_from_header_witness :
  context (verifier := campus_verifier) (Some "Bearer bogus")
  = {| ctx_user := None |}.
Proof.
  apply (proj2 (proj2 (context_from_header (verifier := campus_verifier)
                         (ext := plain)))
           (Some "Bearer bogus")).
  right. right. exists "bogus". split; reflexivity.
Defined.

(** X18, for Ada signing in on the campus. *)
Lemma signIn_then_me_witness :
  exists u,
    fst (me (ext := plain)
            (context (verifier := campus_verifier)
               (Some "Bearer 00000002-0000-4000-8000-000000000001.ada@uni.edu.student"))
            (snd (signIn (ext := plain)
                    {| si_email := "ada@uni.edu"; si_password := "secret" |}
                    campus)))
    = Ok (Some (student_of_user campus u))
    /\ user_id u = (key 2 1).
Proof.
  destruct (signIn_then_me (verifier := campus_verifier) (ext := plain)
              {| si_email := "ada@uni.edu"; si_password := "secret" |}
              campus
              {| payload_token := "00000002-0000-4000-8000-000000000001.ada@uni.edu.student";
                 payload_user :=
                   mkUser (key 2 1) "ada@uni.edu" "hash:secret" "student" |})
    as (_ & u & Hme & _ & Hid & _).
  - intros u [<- | [<- | [<- | [<- | []]]]];
      (split; [discriminate | reflexivity]).
  - reflexivity.
  - exists u. split; [exact Hme | exact Hid].
Defined.

(** ** The seeding scripts: batches and worker ranges *)

Lemma seq_from (a n : nat) : seq a n = map (fun k => (a + k)%nat) (seq 0 n).
Proof.
  revert a. induction n as [| n IH]; intros a; [reflexivity |].
  rewrite !seq_S, map_app, <- IH. cbn. reflexivity.
Qed.

Lemma Array_from_app {A : Type} (a b : Z) (f : Z -> A) :
  0 <= a -> 0 <= b ->
  Array_from (a + b) f
  = (Array_from a f ++ Array_from b (fun idx => f (a + idx)))%list.
Proof.
  intros Ha Hb. unfold Array_from.
  rewrite Z2Nat.inj_add by assumption.
  rewrite seq_app, map_app. f_equal. cbn [Nat.add].
  rewrite (seq_from (Z.to_nat a)), map_map. apply map_ext. intros k.
  f_equal. lia.
Qed.

Lemma Array_from_none {A : Type} (c : Z) (f : Z -> A) :
  c <= 0 -> Array_from c f = [].
Proof.
  intros Hc. unfold Array_from.
  replace (Z.to_nat c) with 0%nat by lia. reflexivity.
Qed.

Lemma Array_from_ext {A : Type} (c : Z) (f g : Z -> A) :
  (forall idx, 0 <= idx < c -> f idx = g idx) ->
  Array_from c f = Array_from c g.
Proof.
  intros H. unfold Array_from. apply map_ext_in. intros k Hk.
  apply in_seq in Hk. apply H. lia.
Qed.

Lemma Array_from_length {A : Type} (c : Z) (f : Z -> A) :
  List.length (Array_from c f) = Z.to_nat c.
Proof. unfold Array_from. now rewrite length_map, length_seq. Qed.

Lemma Array_from_nodup (c : Z) : NoDup (Array_from c (fun idx => idx)).
Proof.
  unfold Array_from. generalize (seq_NoDup (Z.to_nat c) 0).
  generalize (seq 0 (Z.to_nat c)). intros l.
  induction 1 as [| x l Hx Hl IH]; cbn; constructor; [| exact IH].
  intros H. apply in_map_iff in H. destruct H as (y & Hy & Hin).
  apply Nat2Z.inj in Hy. subst. contradiction.
Qed.

Lemma batches_from_cover (count size : Z) (passes : nat) :
  1 <= size ->
  forall i, count - i <= Z.of_nat passes ->
    flat_map (fun b => Array_from (snd b) (fun idx => fst b + idx))
      (batches_from passes i count size)
    = Array_from (count - i) (fun idx => i + idx)
    /\ Forall (fun b => 1 <= snd b <= size) (batches_from passes i count size).
Proof.
  intros Hsize. induction passes as [| passes IH]; intros i Hfuel.
  - cbn. rewrite Array_from_none by lia. split; constructor.
  - cbn [batches_from]. destruct (Z.ltb_spec i count) as [Hlt | Hge].
    + destruct (IH (i + size)) as [Hrest Hall]; [lia |].
      cbn [flat_map fst snd]. rewrite Hrest. split.
      * destruct (Z.le_gt_cases size (count - i)) as [Hfull | Hlast].
        -- rewrite Z.min_l by lia.
           replace (Array_from (count - i) (fun idx => i + idx))
             with (Array_from (size + (count - (i + size)))
                     (fun idx => i + idx))
             by (f_equal; lia).
           rewrite Array_from_app by lia. f_equal.
           apply Array_from_ext. intros idx _. lia.
        -- rewrite Z.min_r by lia.
           rewrite (Array_from_none (count - (i + size))) by lia.
           apply app_nil_r.
      * constructor; [cbn; lia | exact Hall].
    + cbn. rewrite Array_from_none by lia. split; constructor.
Qed.

Lemma fold_left_counts (l : list (Z * Z)) (a : Z) :
  fold_left (fun inserted b => inserted + snd b) l a = a + Zsum (map snd l).
Proof.
  revert a. induction l as [| b l IH]; intros a; cbn; [lia |].
  rewrite IH. unfold Zsum. lia.
Qed.

Lemma counts_of_ranges (l : list (Z * Z)) :
  Forall (fun b => 0 <= snd b) l ->
  Zsum (map snd l)
  = Z.of_nat
      (List.length
         (flat_map (fun b => Array_from (snd b) (fun idx => fst b + idx)) l)).
Proof.
  induction 1 as [| b l Hb Hl IH]; [reflexivity |].
  cbn [map flat_map]. rewrite length_app, Array_from_length.
  unfold Zsum in *. cbn [fold_right]. rewrite IH. lia.
Qed.

(** X19. With a batch size of at least 1, the batch loops of the seeding
    scripts end after at most [count] passes; every batch holds between 1
    and [size] rows, so its first row exists; the indices [i + idx] run
    through 0, 1, ..., [count - 1] in order, each exactly once, so the
    generated e-mails differ and every [userIds[globalIdx]] is in range;
    and the worker's [inserted] counter ends at [count]. *)
Theorem batches_cover :
  forall (count size : Z),
    1 <= size ->
    global_indices count size = Array_from count (fun idx => idx)
    /\ NoDup (global_indices count size)
    /\ (forall g, In g (global_indices count size) <-> 0 <= g < count)
    /\ Forall (fun b => 1 <= snd b <= size) (batches count size)
    /\ (List.length (batches count size) <= Z.to_nat count)%nat
    /\ inserted_after count size = Z.max 0 count.
Proof.
  intros count size Hsize.
  destruct (batches_from_cover count size (Z.to_nat count) Hsize 0)
    as [Hcover Hall]; [lia |].
  fold (batches count size) in Hcover, Hall.
  assert (Hidx : global_indices count size
                 = Array_from count (fun idx => idx)).
  { unfold global_indices. rewrite Hcover. rewrite Z.sub_0_r.
    apply Array_from_ext. intros idx _. reflexivity. }
  split; [exact Hidx |].
  split; [rewrite Hidx; apply Array_from_nodup |].
  split.
  { intros g. rewrite Hidx. unfold Array_from. rewrite in_map_iff. split.
    - intros (k & <- & Hk). apply in_seq in Hk. lia.
    - intros Hg. exists (Z.to_nat g). split; [lia |]. apply in_seq. lia. }
  split; [exact Hall |].
  split.
  { unfold batches. generalize 0 at 1. generalize (Z.to_nat count).
    intros passes. induction passes as [| passes IH]; intros i; cbn;
      [lia |].
    destruct (i <? count); cbn; [| lia]. specialize (IH (i + size)). lia. }
  unfold inserted_after. rewrite fold_left_counts, counts_of_ranges.
  - fold (global_indices count size). rewrite Hidx, Array_from_length. lia.
  - eapply Forall_impl; [| exact Hall]. cbn. intros b Hb. lia.
Qed.

(** X19, for the 100 000 users made in batches of 5 000: the counter ends
    at 100 000 after twenty full batches at most. *)
Lemma batches_cover_witness :
  (forall g, In g (global_indices 100000 5000) <-> 0 <= g < 100000)
  /\ inserted_after 100000 5000 = Z.max 0 100000.
Proof.
  destruct (batches_cover 100000 5000) as (_ & _ & Hin & _ & _ & Hcount);
    [lia |].
  split; [exact Hin | exact Hcount].
Defined.

Lemma ceil_div_bounds (a b : Z) :
  0 <= a -> 1 <= b -> 0 <= ceil_div a b /\ a <= b * ceil_div a b.
Proof.
  intros Ha Hb. unfold ceil_div.
  pose proof (Z.mul_div_le (- a) b ltac:(lia)).
  assert ((- a) / b <= 0) by (apply Z.div_le_upper_bound; lia).
  lia.
Qed.

Lemma worker_ranges_prefix (total perWorker : Z) (n : nat) :
  0 <= total -> 0 <= perWorker ->
  flat_map (fun b => Array_from (snd b) (fun idx => fst b + idx))
    (flat_map
       (fun i =>
          if 0 <? Z.min perWorker (total - i * perWorker)
          then [(i * perWorker, Z.min perWorker (total - i * perWorker))]
          else [])
       (map Z.of_nat (seq 0 n)))
  = Array_from (Z.min (Z.of_nat n * perWorker) total) (fun idx => idx)
  /\ Forall (fun b => 1 <= snd b)
       (flat_map
          (fun i =>
             if 0 <? Z.min perWorker (total - i * perWorker)
             then [(i * perWorker, Z.min perWorker (total - i * perWorker))]
             else [])
          (map Z.of_nat (seq 0 n))).
Proof.
  intros Htotal Hper. induction n as [| n [IH Hall]].
  - cbn. rewrite Array_from_none by lia. split; constructor.
  - rewrite seq_S, map_app, !flat_map_app. cbn [Nat.add map flat_map].
    rewrite IH, !app_nil_r.
    assert (Hnext : Z.of_nat (S n) * perWorker
                    = Z.of_nat n * perWorker + perWorker) by lia.
    assert (Hstart : 0 <= Z.of_nat n * perWorker) by nia.
    rewrite Hnext. set (start := Z.of_nat n * perWorker) in *.
    destruct (Z.ltb_spec 0 (Z.min perWorker (total - start))) as [Hwork | Hidle].
    + cbn [flat_map fst snd]. rewrite app_nil_r. split.
      * replace (Z.min (start + perWorker) total)
          with (Z.min start total + Z.min perWorker (total - start)) by lia.
        rewrite Array_from_app by lia. f_equal.
        -- apply Array_from_ext. intros idx _. lia.
      * apply Forall_app. split; [exact Hall |]. constructor; [cbn; lia |].
        constructor.
    + cbn [flat_map]. rewrite !app_nil_r. split; [| exact Hall].
      f_equal. lia.
Qed.

(** X20. For at least one CPU and a total that is not negative, the ranges
    handed to the workers follow one another from index 0 up to the total
    without a gap or an overlap; no worker is started for an empty range and
    there are at most [CPU_COUNT] workers; and the [inserted] counters of the
    workers, each inserting its [count] rows in batches of 1000, add up to
    the total. *)
Theorem worker_ranges_cover :
  forall (total CPU_COUNT : Z),
    1 <= CPU_COUNT -> 0 <= total ->
    flat_map (fun b => Array_from (snd b) (fun idx => fst b + idx))
      (worker_ranges total CPU_COUNT)
    = Array_from total (fun idx => idx)
    /\ Forall (fun b => 1 <= snd b) (worker_ranges total CPU_COUNT)
    /\ (List.length (worker_ranges total CPU_COUNT) <= Z.to_nat CPU_COUNT)%nat
    /\ Zsum (map (fun b => inserted_after (snd b) 1000)
               (worker_ranges total CPU_COUNT))
       = total.
Proof.
  intros total cpu Hcpu Htotal.
  destruct (ceil_div_bounds total cpu Htotal Hcpu) as [Hper Hreach].
  destruct (worker_ranges_prefix total (ceil_div total cpu) (Z.to_nat cpu)
              Htotal Hper) as [Hcover Hall].
  assert (Hranges :
            worker_ranges total cpu
            = flat_map
                (fun i =>
                   if 0 <? Z.min (ceil_div total cpu)
                                 (total - i * ceil_div total cpu)
                   then [(i * ceil_div total cpu,
                          Z.min (ceil_div total cpu)
                                (total - i * ceil_div total cpu))]
                   else [])
                (map Z.of_nat (seq 0 (Z.to_nat cpu)))).
  { reflexivity. }
  rewrite <- Hranges in Hcover, Hall.
  assert (Hwhole : flat_map
                     (fun b => Array_from (snd b) (fun idx => fst b + idx))
                     (worker_ranges total cpu)
                   = Array_from total (fun idx => idx)).
  { rewrite Hcover. f_equal. rewrite Z2Nat.id by lia. lia. }
  split; [exact Hwhole |]. split; [exact Hall |]. split.
  { rewrite Hranges.
    replace (Z.to_nat cpu)
      with (List.length (map Z.of_nat (seq 0 (Z.to_nat cpu)))) at 2
      by (now rewrite length_map, length_seq).
    generalize (map Z.of_nat (seq 0 (Z.to_nat cpu))). intros l.
    induction l as [| k l IH]; cbn [flat_map List.length]; [lia |].
    rewrite length_app.
    destruct (0 <? _); cbn [List.length]; lia. }
  replace (map (fun b => inserted_after (snd b) 1000)
               (worker_ranges total cpu))
    with (map snd (worker_ranges total cpu)).
  - rewrite counts_of_ranges.
    + rewrite Hwhole, Array_from_length. lia.
    + eapply Forall_impl; [| exact Hall]. cbn. intros b Hb. lia.
  - apply map_ext_in. intros b Hb.
    rewrite Forall_forall in Hall. specialize (Hall b Hb).
    unfold inserted_after. rewrite fold_left_counts, counts_of_ranges.
    + destruct (batches_from_cover (snd b) 1000 (Z.to_nat (snd b))
                  ltac:(lia) 0 ltac:(lia)) as [Hb1 _].
      fold (batches (snd b) 1000) in Hb1. rewrite Hb1, Array_from_length.
      lia.
    + destruct (batches_from_cover (snd b) 1000 (Z.to_nat (snd b))
                  ltac:(lia) 0 ltac:(lia)) as [_ Hb2].
      fold (batches (snd b) 1000) in Hb2.
      eapply Forall_impl; [| exact Hb2]. cbn. intros x Hx. lia.
Qed.

(** X20, for the 1 000 institutes on a machine with eight CPUs. *)
Lemma worker_ranges_cover_witness :
  Zsum (map (fun b => inserted_after (snd b) 1000) (worker_ranges 1000 8))
  = 1000.
Proof.
  destruct (worker_ranges_cover 1000 8) as (_ & _ & _ & Hsum);
    [lia | lia | exact Hsum].
Defined.

(** ** Stored rows satisfy the validators *)

Lemma within_spec (lo hi x : Z) : within lo hi x = true <-> lo <= x <= hi.
Proof. unfold within. rewrite andb_true_iff, !Z.leb_le. reflexivity. Qed.

Lemma result_valid_spec (r : Result) :
  valid ResultModel r = true ->
  (0 <= result_score r <= 100)%Q /\ In (result_grade r) grades
  /\ 2000 <= result_year r <= 2100.
Proof.
  cbn [valid ResultModel]. rewrite !andb_true_iff, !Qle_bool_iff, within_spec.
  intros [[[H0 H100] Hg] Hy]. repeat split; try assumption; try lia.
  apply existsb_exists in Hg. destruct Hg as (g & Hg & Heq).
  apply String.eqb_eq in Heq. now subst.
Qed.

(** Rounding to two places keeps a score between 0 and 100. *)
Lemma round_at_percent (q : Q) :
  (0 <= q <= 100)%Q -> (0 <= round_at 2 q <= 100)%Q.
Proof.
  destruct q as [n d]. unfold Qle, round_at. cbn [Qnum Qden].
  change (Z.to_pos (10 ^ 2)) with 100%positive. change (10 ^ 2) with 100.
  intros [H0 H100].
  assert (Hn : 0 <= n) by lia.
  assert (Hhalves : 0 <= (2 * 100 * Z.abs n + Zpos d) / (2 * Zpos d) < 10001).
  { split.
    - apply Z.div_pos; lia.
    - apply Z.div_lt_upper_bound; lia. }
  destruct (Z.eq_dec n 0) as [-> | Hne].
  - cbn. lia.
  - rewrite Z.sgn_pos by lia. lia.
Qed.

Lemma decimal_5_2_percent (old : option Q) (v stored : Q) :
  decimal_5_2 old v = Some stored ->
  (0 <= v <= 100)%Q -> (0 <= stored <= 100)%Q.
Proof.
  unfold decimal_5_2. intros H Hv.
  destruct (match old with Some o => Qeq_bool o v | None => false end).
  - injection H as <-. exact Hv.
  - destruct (_ || _); [discriminate |].
    injection H as <-. now apply round_at_percent.
Qed.

(** The row the engine stores for a valid result is valid. *)
Lemma settled_result_valid (st : Store) (old : option Result)
    (r stored : Result) :
  settle ResultModel st old r = Some stored ->
  (0 <= result_score r <= 100)%Q /\ In (result_grade r) grades
  /\ 2000 <= result_year r <= 2100 ->
  (0 <= result_score stored <= 100)%Q /\ In (result_grade stored) grades
  /\ 2000 <= result_year stored <= 2100.
Proof.
  intros Hsettle (Hscore & Hgrade & Hyear).
  destruct (settle_result _ _ _ _ Hsettle) as (_ & _ & _ & Hg & Hy & Hs).
  rewrite Hg, Hy. split; [| split; assumption].
  exact (decimal_5_2_percent _ _ _ Hs Hscore).
Qed.

(** A found row is a stored row. *)
Lemma keeps_found {R : Type} (m : Model R) (P : R -> Prop)
    (I : Store -> Prop) {B : Type} (id : ID) (k : option R -> M B) :
  (forall q st, I st -> I (logged q st)) ->
  (forall st, I st -> Forall P (rows m st)) ->
  (forall r, P r -> keeps I (k (Some r))) ->
  keeps I (k None) ->
  keeps I (bind (findByPk m id) k).
Proof.
  intros Hlog Hrows Hsome Hnone st H.
  unfold findByPk, record_query, lift, bind, lookup_key. cbv beta iota.
  destruct (find (fun r => String.eqb (pk m r) id)
              (rows m (logged (Q_findByPk (table m) id) st)))
    as [r |] eqn:Hfind.
  - apply Hsome; [| now apply Hlog].
    apply find_some in Hfind. destruct Hfind as [Hin _].
    specialize (Hrows _ (Hlog (Q_findByPk (table m) id) st H)).
    rewrite Forall_forall in Hrows. now apply Hrows.
  - destruct (is_uuid id); cbn [snd].
    + apply Hnone. now apply Hlog.
    + now apply Hlog.
Qed.

Section ValidatedWrites.
Context {ext : Collaborators}.

Lemma validated_same_rows (st st' : Store) :
  same_rows st st' -> validated st -> validated st'.
Proof.
  intros (Hu & Hi & Hs & Hc & Hr) H. destruct H.
  constructor; rewrite ?Hu, ?Hs, ?Hc, ?Hr; assumption.
Qed.

Lemma validated_logged (q : Query) (st : Store) :
  validated st -> validated (logged q st).
Proof. apply validated_same_rows. repeat split. Qed.

Lemma validated_drawn (q : Query) (st : Store) :
  validated st -> validated (draw_uuid (logged q st)).
Proof. apply validated_same_rows. repeat split. Qed.

Lemma keeps_validated_create_institute (mk : ID -> Institute) :
  keeps validated (create InstituteModel mk).
Proof.
  intros st H.
  destruct (create_cases InstituteModel mk st)
    as [[name ->] | (stored & _ & -> & _ & _ & _)]; cbn [snd].
  - apply validated_drawn. exact H.
  - destruct H. constructor; cbn; assumption.
Qed.

Lemma keeps_validated_create_user (mk : ID -> User) :
  keeps validated (create UserModel mk).
Proof.
  intros st H.
  destruct (create_cases UserModel mk st)
    as [[name ->] | (stored & Hsettle & -> & Hvalid & _ & _)]; cbn [snd].
  - apply validated_drawn. exact H.
  - apply settle_user in Hsettle. subst stored.
    destruct H. constructor; cbn; try assumption.
    apply Forall_app. split; [assumption |].
    constructor; [exact Hvalid | constructor].
Qed.

Lemma keeps_validated_create_student (mk : ID -> Student) :
  keeps validated (create StudentModel mk).
Proof.
  intros st H.
  destruct (create_cases StudentModel mk st)
    as [[name ->] | (stored & Hsettle & -> & Hvalid & _ & _)]; cbn [snd].
  - apply validated_drawn. exact H.
  - apply settle_student in Hsettle. subst stored.
    destruct H. constructor; cbn; try assumption.
    apply Forall_app. split; [assumption |].
    constructor; [exact Hvalid | constructor].
Qed.

Lemma keeps_validated_create_course (mk : ID -> Course) :
  keeps validated (create CourseModel mk).
Proof.
  intros st H.
  destruct (create_cases CourseModel mk st)
    as [[name ->] | (stored & Hsettle & -> & Hvalid & _ & _)]; cbn [snd].
  - apply validated_drawn. exact H.
  - apply settle_course in Hsettle. subst stored.
    destruct H. constructor; cbn; try assumption.
    apply Forall_app. split; [assumption |].
    constructor; [now apply within_spec | constructor].
Qed.

Lemma keeps_validated_create_result (mk : ID -> Result) :
  keeps validated (create ResultModel mk).
Proof.
  intros st H.
  destruct (create_cases ResultModel mk st)
    as [[name ->] | (stored & Hsettle & -> & Hvalid & _ & _)]; cbn [snd].
  - apply validated_drawn. exact H.
  - apply result_valid_spec in Hvalid.
    apply (settled_result_valid _ _ _ _ Hsettle) in Hvalid.
    destruct H. constructor; cbn; try assumption.
    apply Forall_app. split; [assumption |].
    constructor; [exact Hvalid | constructor].
Qed.

Lemma keeps_validated_update_institute (i : Institute)
    (input : UpdateInstituteInput) :
  keeps validated (update InstituteModel i (patch_institute i input)).
Proof.
  intros st H.
  destruct (update_cases InstituteModel i (patch_institute i input) st)
    as [[name ->] | (i' & stored & _ & _ & _ & ->)]; cbn [snd].
  - apply validated_logged. exact H.
  - destruct H. constructor; cbn -[replace_row]; assumption.
Qed.

Lemma keeps_validated_update_student (s : Student)
    (input : UpdateStudentInput) :
  isEmail (student_email s) = true ->
  keeps validated (update StudentModel s (patch_student s input)).
Proof.
  intros Hs st H.
  destruct (update_cases StudentModel s (patch_student s input) st)
    as [[name ->] | (s' & stored & Hpatch & Hsettle & _ & ->)]; cbn [snd].
  - apply validated_logged. exact H.
  - apply settle_student in Hsettle. subst stored.
    assert (Hs' : isEmail (student_email s') = true).
    { revert Hpatch. unfold patch_student.
      destruct (ust_name input), (ust_email input) as [| | e],
        (ust_instituteId input); cbn; try discriminate;
        try (destruct (isEmail e) eqn:He; try discriminate);
        intros Hp; injection Hp as <-; cbn; assumption. }
    destruct H. constructor; cbn -[replace_row]; try assumption.
    apply (Forall_replace_row StudentModel); assumption.
Qed.

Lemma keeps_validated_update_course (c : Course)
    (input : UpdateCourseInput) :
  1 <= course_credits c <= 6 ->
  keeps validated (update CourseModel c (patch_course c input)).
Proof.
  intros Hc st H.
  destruct (update_cases CourseModel c (patch_course c input) st)
    as [[name ->] | (c' & stored & Hpatch & Hsettle & _ & ->)]; cbn [snd].
  - apply validated_logged. exact H.
  - apply settle_course in Hsettle. subst stored.
    assert (Hc' : 1 <= course_credits c' <= 6).
    { revert Hpatch. unfold patch_course.
      destruct (uc_title input), (uc_code input),
        (uc_credits input) as [| | n]; cbn; try discriminate;
        try (destruct (within 1 6 n) eqn:Hn; try discriminate);
        intros Hp; injection Hp as <-; cbn; try assumption;
        now apply within_spec. }
    destruct H. constructor; cbn -[replace_row]; try assumption.
    apply (Forall_replace_row CourseModel); assumption.
Qed.

Lemma keeps_validated_update_result (r : Result)
    (input : UpdateResultInput) :
  (0 <= result_score r <= 100)%Q /\ In (result_grade r) grades
  /\ 2000 <= result_year r <= 2100 ->
  keeps validated (update ResultModel r (patch_result r input)).
Proof.
  intros (Hscore & Hgrade & Hyear) st H.
  destruct (update_cases ResultModel r (patch_result r input) st)
    as [[name ->] | (r' & stored & Hpatch & Hsettle & _ & ->)]; cbn [snd].
  - apply validated_logged. exact H.
  - destruct (patch_result_fields r r' input Hpatch)
      as (F1 & F2 & F3 & V1 & V2 & V3 & _).
    assert (Hr' : (0 <= result_score r' <= 100)%Q
                  /\ In (result_grade r') grades
                  /\ 2000 <= result_year r' <= 2100).
    { rewrite F1, F2, F3.
      destruct (ur_score input) as [| | sv], (ur_grade input) as [| | gv],
        (ur_year input) as [| | yv];
        repeat split;
        try apply Hscore; try apply Hgrade; try apply Hyear;
        try apply (V1 _ eq_refl); try apply (V2 _ eq_refl);
        try apply (V3 _ eq_refl). }
    apply (settled_result_valid _ _ _ _ Hsettle) in Hr'.
    destruct H. constructor; cbn -[replace_row]; try assumption.
    apply (Forall_replace_row ResultModel); assumption.
Qed.

Lemma keeps_validated_destroy_institute (i : Institute) :
  keeps validated (destroy InstituteModel i).
Proof.
  intros st H. destruct H. constructor; cbn; try assumption;
    apply Forall_filtered; assumption.
Qed.

Lemma keeps_validated_destroy_student (s : Student) :
  keeps validated (destroy StudentModel s).
Proof.
  intros st H. destruct H. constructor; cbn; try assumption;
    apply Forall_filtered; assumption.
Qed.

Lemma keeps_validated_destroy_course (c : Course) :
  keeps validated (destroy CourseModel c).
Proof.
  intros st H. destruct H. constructor; cbn; try assumption;
    apply Forall_filtered; assumption.
Qed.

Lemma keeps_validated_destroy_result (r : Result) :
  keeps validated (destroy ResultModel r).
Proof.
  intros st H. destruct H. constructor; cbn; try assumption;
    apply Forall_filtered; assumption.
Qed.

Lemma keeps_validated_found_student {B : Type} (id : ID)
    (k : option Student -> M B) :
  (forall s, isEmail (student_email s) = true -> keeps validated (k (Some s)))
  -> keeps validated (k None) ->
  keeps validated (bind (findByPk StudentModel id) k).
Proof.
  apply keeps_found; [apply validated_logged |].
  intros st H. apply (student_emails_valid st H).
Qed.

Lemma keeps_validated_found_course {B : Type} (id : ID)
    (k : option Course -> M B) :
  (forall c, 1 <= course_credits c <= 6 -> keeps validated (k (Some c))) ->
  keeps validated (k None) ->
  keeps validated (bind (findByPk CourseModel id) k).
Proof.
  apply keeps_found; [apply validated_logged |].
  intros st H. apply (credits_valid st H).
Qed.

Lemma keeps_validated_found_result {B : Type} (id : ID)
    (k : option Result -> M B) :
  (forall r, (0 <= result_score r <= 100)%Q /\ In (result_grade r) grades
             /\ 2000 <= result_year r <= 2100 ->
             keeps validated (k (Some r))) ->
  keeps validated (k None) ->
  keeps validated (bind (findByPk ResultModel id) k).
Proof.
  apply keeps_found; [apply validated_logged |].
  intros st H. apply (results_valid st H).
Qed.

End ValidatedWrites.

#[local] Hint Resolve validated_logged keeps_validated_create_institute
  keeps_validated_create_user keeps_validated_create_student
  keeps_validated_create_course keeps_validated_create_result
  keeps_validated_update_institute keeps_validated_update_student
  keeps_validated_update_course keeps_validated_update_result
  keeps_validated_destroy_institute keeps_validated_destroy_student
  keeps_validated_destroy_course keeps_validated_destroy_result : keeps.

(** As [step_keeps], remembering of a row found by its key what the
    invariant says of stored rows. *)
Ltac step_validated :=
  repeat first
    [ progress (auto with keeps)
    | apply keeps_validated_found_student
    | apply keeps_validated_found_course
    | apply keeps_validated_found_result
    | apply keeps_bind
    | match goal with
      | |- forall _, _ => intro
      | |- keeps _ (match ?x with _ => _ end) => destruct x
      | |- keeps _ (if ?b then _ else _) => destruct b
      | |- keeps _ (mapM _ _) => apply keeps_mapM
      end ].

(** X21. Every query and mutation, for every context and input and whether
    it returns or throws, takes a store whose rows all satisfy the
    validators of their models (e-mails accepted by [isEmail], credits from
    1 to 6, scores from 0 to 100, a grade of the list, years from 2000 to
    2100) to a store of the same kind: inserts validate the whole row, and
    updates validate the supplied fields and keep the others. *)
Theorem every_operation_keeps_validators :
  forall (ext : Collaborators) (op : Operation) (context0 : AuthContext)
         (st : Store),
    validated st -> validated (snd (resolve op context0 st)).
Proof.
  intros ext op context0.
  change (keeps validated (resolve op context0)).
  destruct op; destruct context0 as [[p |]]; unfold_resolvers;
    cbn [ctx_user]; step_validated.
Qed.

Lemma campus_validated : validated (ext := plain) campus.
Proof.
  constructor; cbn; repeat (apply Forall_cons || apply Forall_nil); cbn;
    try reflexivity; try lia;
    (split; [unfold Qle; cbn; lia | split; [tauto | lia]]).
Qed.

(** X21, for a regrading on the campus. *)
Lemma every_operation_keeps_validators_witness :
  validated (ext := plain)
    (snd (resolve (ext := plain)
            (Mutation_updateResult (key 5 1)
               {| ur_score := given 95%Q; ur_grade := given "A+";
                  ur_year := undefined |})
            a_student campus)).
Proof.
  apply (every_operation_keeps_validators plain
           (Mutation_updateResult (key 5 1)
              {| ur_score := given 95%Q; ur_grade := given "A+";
                 ur_year := undefined |})
           a_student campus).
  exact campus_validated.
Defined.

(** ** The whole tree *)

Lemma Zsum_split {R : Type} (f : R -> Z) (g : R -> bool) (l : list R) :
  Zsum (map f (filter g l)) + Zsum (map f (filter (fun r => negb (g r)) l))
  = Zsum (map f l).
Proof.
  unfold Zsum. induction l as [| r l IH]; cbn [filter map fold_right];
    [reflexivity |].
  destruct (g r); cbn [negb map fold_right]; lia.
Qed.

Lemma Zsum_by_key {R : Type} (key : R -> string) (f : R -> Z)
    (ks : list string) (l : list R) :
  NoDup ks -> (forall r, In r l -> In (key r) ks) ->
  Zsum (map (fun k =>
               Zsum (map f (filter (fun r => String.eqb (key r) k) l))) ks)
  = Zsum (map f l).
Proof.
  intros Hnd. revert l. induction ks as [| k ks IH]; intros l Hin.
  - destruct l as [| r l]; [reflexivity |].
    destruct (Hin r (or_introl eq_refl)).
  - inversion Hnd as [| ? ? Hk Hks]; subst.
    rewrite <- (Zsum_split f (fun r => String.eqb (key r) k) l).
    rewrite <- (IH Hks (filter (fun r => negb (String.eqb (key r) k)) l)).
    + cbn [map]. unfold Zsum at 1. cbn [fold_right].
      fold (Zsum (map (fun k0 =>
                         Zsum (map f (filter
                                        (fun r => String.eqb (key r) k0) l)))
                      ks)).
      f_equal. f_equal. apply map_ext_in. intros k0 Hk0. do 2 f_equal.
      rewrite filter_twice. apply filter_ext. intros r.
      destruct (String.eqb_spec (key r) k0) as [E | _];
        [| now rewrite andb_false_r].
      rewrite andb_true_r.
      destruct (String.eqb_spec (key r) k) as [E' | _]; [| reflexivity].
      exfalso. apply Hk. congruence.
    + intros r Hr. apply filter_In in Hr. destruct Hr as [Hr Hne].
      destruct (Hin r Hr) as [E | H]; [| exact H].
      subst k. now rewrite String.eqb_refl in Hne.
Qed.

Section WholeTree.
Context {ext : Collaborators}.

(** X22. A list returned by [allData] holds every stored institute once, in
    ascending order of name, each with the stored students of its id and
    for each of them the stored results of that student's id.  When keys
    are unique and foreign keys name stored rows, every stored student is
    listed under exactly one institute and every stored result under
    exactly one student. *)
Theorem allData_whole_tree :
  forall (context0 : AuthContext) (st : Store) (trees : list InstituteTree),
    fst (allData context0 st) = Ok trees ->
    Permutation (map it_institute trees) (tbl_institutes st)
    /\ StronglySorted
         (fun x y => String.leb (institute_name x) (institute_name y) = true)
         (map it_institute trees)
    /\ Forall
         (fun t =>
            map swr_student (it_students t)
            = filter (fun s => String.eqb (student_instituteId s)
                                          (institute_id (it_institute t)))
                     (tbl_students st)
            /\ Forall
                 (fun sw =>
                    map rwc_result (swr_results sw)
                    = filter (fun r => String.eqb (result_studentId r)
                                                  (student_id (swr_student sw)))
                             (tbl_results st))
                 (it_students t))
         trees
    /\ (integrity st ->
        Zsum (map (fun t => count_of (it_students t)) trees)
        = count_of (tbl_students st)
        /\ Zsum (map (fun t =>
                        Zsum (map (fun sw => count_of (swr_results sw))
                                  (it_students t)))
                     trees)
           = count_of (tbl_results st)).
Proof.
  intros [[p |]] st trees; [| discriminate].
  unfold allData, requireAuth, including_each, findAll, select, bind,
    record_query, lift, read, ret, ordered, ascending, window.
  cbn [ctx_user fst snd is_negative orb rows InstituteModel].
  rewrite filter_all.
  change (tbl_institutes (logged (Q_findAll (table InstituteModel)) st))
    with (tbl_institutes st).
  set (sorted := sort_by _ (unordered (tbl_institutes st))).
  set (st1 := logged (Q_findAll (table InstituteModel)) st).
  assert (Hstudents : tbl_students st1 = tbl_students st) by reflexivity.
  assert (Hresults : tbl_results st1 = tbl_results st) by reflexivity.
  clearbody st1.
  intros H. apply Ok_inj in H. subst trees.
  assert (Hperm : Permutation sorted (tbl_institutes st))
    by apply sort_unordered_perm.
  rewrite map_map. cbn [it_institute institute_tree]. rewrite map_id.
  split; [exact Hperm |].
  split; [apply ascending_sorted |].
  split.
  { apply Forall_forall. intros t Ht. apply in_map_iff in Ht.
    destruct Ht as (i & <- & _). cbn [it_institute it_students institute_tree].
    rewrite map_map. cbn [swr_student results_of_student]. rewrite map_id.
    rewrite Hstudents. split; [reflexivity |].
    apply Forall_forall. intros sw Hsw. apply in_map_iff in Hsw.
    destruct Hsw as (s & <- & _). cbn [swr_student swr_results results_of_student].
    rewrite map_map. cbn [rwc_result course_of_result].
    now rewrite map_id, Hresults. }
  intros Hint. destruct Hint.
  rewrite !map_map. cbn [it_students institute_tree].
  rewrite Hstudents.
  assert (Hids : NoDup (map institute_id sorted)).
  { eapply Permutation_NoDup; [| exact institute_ids_unique0].
    apply Permutation_map. now apply Permutation_sym. }
  assert (Hrefer : forall s, In s (tbl_students st) ->
                             In (student_instituteId s)
                                (map institute_id sorted)).
  { intros s Hs. rewrite Forall_forall in students_refer0.
    destruct (students_refer0 s Hs) as [Hi _]. apply has_id_in in Hi.
    eapply Permutation_in; [| exact Hi].
    apply Permutation_map. now apply Permutation_sym. }
  split.
  - erewrite map_ext.
    + rewrite <- (map_map institute_id
                    (fun k => count_of
                                (filter (fun s => String.eqb
                                                    (student_instituteId s) k)
                                        (tbl_students st)))).
      apply count_by_key; assumption.
    + intros i. cbn. unfold count_of. now rewrite length_map.
  - erewrite map_ext.
    + rewrite <- (map_map institute_id
                    (fun k =>
                       Zsum (map (fun s =>
                                    count_of
                                      (filter
                                         (fun r => String.eqb
                                                     (result_studentId r)
                                                     (student_id s))
                                         (tbl_results st)))
                               (filter (fun s => String.eqb
                                                   (student_instituteId s) k)
                                       (tbl_students st))))).
      rewrite (Zsum_by_key student_instituteId _ _ _ Hids Hrefer).
      rewrite <- (map_map student_id
                    (fun k => count_of
                                (filter (fun r => String.eqb
                                                    (result_studentId r) k)
                                        (tbl_results st)))).
      apply count_by_key; [assumption |].
      intros r Hr. rewrite Forall_forall in results_refer0.
      destruct (results_refer0 r Hr) as [Hs _]. now apply has_id_in.
    + intros i. cbn. rewrite map_map. f_equal. apply map_ext. intros s.
      cbn. unfold count_of. now rewrite length_map, Hresults.
Qed.

End WholeTree.

(** X22, on the campus: three students and four results in the tree. *)
Lemma allData_whole_tree_witness :
  exists trees,
    fst (allData (ext := plain) a_student campus) = Ok trees
    /\ Zsum (map (fun t => count_of (it_students t)) trees) = 3
    /\ Zsum (map (fun t =>
                    Zsum (map (fun sw => count_of (swr_results sw))
                              (it_students t)))
                 trees) = 4.
Proof.
  eexists. split; [reflexivity |].
  apply (proj2 (proj2 (proj2 (allData_whole_tree (ext := plain) a_student
                                campus _ eq_refl)))).
  exact campus_integrity.
Defined.

(** ** Creating a result *)

Lemma result_valid_iff (r : Result) :
  valid ResultModel r = true
  <-> (0 <= result_score r <= 100)%Q /\ In (result_grade r) grades
      /\ 2000 <= result_year r <= 2100.
Proof.
  split; [apply result_valid_spec |].
  intros ([H0 H100] & Hg & Hy). cbn [valid ResultModel].
  rewrite !andb_true_iff, !Qle_bool_iff, within_spec.
  repeat split; try assumption; try lia.
  apply existsb_exists. exists (result_grade r).
  split; [exact Hg | apply String.eqb_refl].
Qed.

(** The grades of the list fit their column of two characters. *)
Lemma grade_fits (g : string) : In g grades -> varchar 2 None g = true.
Proof.
  intros H. cbn [grades In] in H.
  repeat (destruct H as [<- | H]; [reflexivity |]). destruct H.
Qed.

(** A new score between 0 and 100 is stored rounded to two places. *)
Lemma decimal_5_2_new (v : Q) :
  (0 <= v <= 100)%Q -> decimal_5_2 None v = Some (round_at 2 v).
Proof.
  intros Hv. destruct (round_at_percent v Hv) as [H0 H100].
  unfold decimal_5_2. cbv zeta.
  destruct (Qle_bool 1000 (round_at 2 v)) eqn:Hhigh.
  { apply Qle_bool_iff in Hhigh. exfalso.
    apply (Qle_not_lt _ _ (Qle_trans _ _ _ Hhigh H100)). reflexivity. }
  destruct (Qle_bool (round_at 2 v) (-1000)) eqn:Hlow.
  { apply Qle_bool_iff in Hlow. exfalso.
    apply (Qle_not_lt _ _ (Qle_trans _ _ _ H0 Hlow)). reflexivity. }
  reflexivity.
Qed.

Section CreateResult.
Context {ext : Collaborators}.

Lemma createResult_ok (p : Principal) (input : CreateResultInput)
    (st : Store) :
  has_id student_id (cr_studentId input) (tbl_students st) = true ->
  has_id course_id (cr_courseId input) (tbl_courses st) = true ->
  (0 <= cr_score input <= 100)%Q /\ In (cr_grade input) grades
  /\ 2000 <= cr_year input <= 2100 ->
  has_id result_id (uuidv4 (uuid_draws st)) (tbl_results st) = false ->
  createResult input {| ctx_user := Some p |} st
  = (Ok {| result_id := uuidv4 (uuid_draws st);
           result_studentId := cr_studentId input;
           result_courseId := cr_courseId input;
           result_score := round_at 2 (cr_score input);
           result_grade := cr_grade input;
           result_year := cr_year input |},
     set_results
       (tbl_results st
        ++ [{| result_id := uuidv4 (uuid_draws st);
               result_studentId := cr_studentId input;
               result_courseId := cr_courseId input;
               result_score := round_at 2 (cr_score input);
               result_grade := cr_grade input;
               result_year := cr_year input |}])%list
       (draw_uuid
          (logged (Q_create Results)
             (logged (Q_findByPk Courses (cr_courseId input))
                (logged (Q_findByPk Students (cr_studentId input)) st))))).
Proof.
  intros Hs Hc Hvalid Hfresh.
  destruct (find_has_id _ _ _ Hs) as [s Hfs].
  destruct (find_has_id _ _ _ Hc) as [c Hfc].
  unfold createResult, requireAuth, findByPk, bind, record_query, lift,
    lookup_key.
  cbn -[create has_id]. rewrite Hfs. cbn -[create has_id].
  rewrite Hfc. cbn -[create has_id].
  erewrite create_ok; [reflexivity | | | |].
  - apply result_valid_iff. exact Hvalid.
  - cbn -[has_id varchar decimal_5_2 uuid_column].
    unfold uuid_column. rewrite Hs, Hc. cbn [orb andb option_map].
    rewrite (grade_fits _ (proj1 (proj2 Hvalid))).
    rewrite (decimal_5_2_new _ (proj1 Hvalid)). reflexivity.
  - cbn -[has_id]. intros Hin. apply (has_id_in result_id) in Hin.
    congruence.
  - cbn -[has_id]. rewrite Hs, Hc. reflexivity.
Qed.


(** X24. Nothing keeps a student from having two results for the same
    course and year: creating a result twice from the same valid input
    returns twice, and the two rows appended differ in their id only. *)
Theorem createResult_twice :
  forall (p : Principal) (input : CreateResultInput) (st : Store),
    has_id student_id (cr_studentId input) (tbl_students st) = true ->
    has_id course_id (cr_courseId input) (tbl_courses st) = true ->
    (0 <= cr_score input <= 100)%Q /\ In (cr_grade input) grades
    /\ 2000 <= cr_year input <= 2100 ->
    has_id result_id (uuidv4 (uuid_draws st)) (tbl_results st) = false ->
    has_id result_id (uuidv4 (S (uuid_draws st))) (tbl_results st) = false ->
    uuidv4 (S (uuid_draws st)) <> uuidv4 (uuid_draws st) ->
    exists r1 r2,
      fst (createResult input {| ctx_user := Some p |} st) = Ok r1
      /\ fst (createResult input {| ctx_user := Some p |}
                (snd (createResult input {| ctx_user := Some p |} st)))
         = Ok r2
      /\ tbl_results
           (snd (createResult input {| ctx_user := Some p |}
                   (snd (createResult input {| ctx_user := Some p |} st))))
         = (tbl_results st ++ [r1; r2])%list
      /\ result_id r1 <> result_id r2
      /\ result_studentId r1 = result_studentId r2
      /\ result_courseId r1 = result_courseId r2
      /\ result_year r1 = result_year r2
      /\ result_score r1 = result_score r2
      /\ result_grade r1 = result_grade r2.
Proof.
  intros p input st Hs Hc Hvalid Hfresh1 Hfresh2 Hdiff.
  rewrite (createResult_ok p input st Hs Hc Hvalid Hfresh1). cbn [fst snd].
  rewrite createResult_ok; try assumption.
  - do 2 eexists. split; [reflexivity |]. split; [reflexivity |].
    cbn. rewrite <- app_assoc. cbn. repeat split. congruence.
  - cbn -[has_id]. unfold has_id in *. rewrite existsb_app, Hfresh2. cbn.
    rewrite orb_false_r. apply String.eqb_neq. congruence.
Qed.

End CreateResult.


(** X24, for the same result entered twice on the campus. *)
Lemma createResult_twice_witness :
  exists r1 r2,
    fst (createResult (ext := plain)
           {| cr_studentId := key 3 2; cr_courseId := key 4 2;
              cr_score := 70%Q; cr_grade := "B-"; cr_year := 2024 |}
           a_student campus) = Ok r1
    /\ fst (createResult (ext := plain)
              {| cr_studentId := key 3 2; cr_courseId := key 4 2;
                 cr_score := 70%Q; cr_grade := "B-"; cr_year := 2024 |}
              a_student
              (snd (createResult (ext := plain)
                      {| cr_studentId := key 3 2; cr_courseId := key 4 2;
                         cr_score := 70%Q; cr_grade := "B-";
                         cr_year := 2024 |} a_student campus))) = Ok r2
    /\ result_id r1 <> result_id r2.
Proof.
  destruct (createResult_twice (ext := plain)
              {| principal_id := key 2 1; principal_email := "ada@uni.edu";
                 principal_role := "student" |}
              {| cr_studentId := key 3 2; cr_courseId := key 4 2;
                 cr_score := 70%Q; cr_grade := "B-"; cr_year := 2024 |}
              campus)
    as (r1 & r2 & H1 & H2 & _ & Hne & _); try reflexivity.
  - split; [unfold Qle; cbn; lia |]. split; [cbn; tauto | cbn; lia].
  - vm_compute. discriminate.
  - exists r1, r2. split; [exact H1 |]. split; [exact H2 | exact Hne].
Defined.

(** ** What the other deletes take along *)

Section OtherDeletes.
Context {ext : Collaborators}.


End OtherDeletes.


(** ** The lists of students and of courses *)

Section StudentAndCoursePages.
Context {ext : Collaborators}.

(** X26. A page returned by [students] lists stored students matching the
    search (on name and e-mail), each with the first stored institute of
    its [instituteId], in ascending order of name; a page returned by
    [courses] lists stored courses matching the search (on title and code)
    in ascending order of code.  On both, there are at most [limit] items,
    the limit is between 1 and 100, [totalCount] is the number of all
    matching rows, and [hasMore] says exactly that [offset + limit] is below
    it. *)
Theorem students_and_courses_pages :
  forall (args : ListArgs) (context0 : AuthContext) (st : Store),
    (forall b,
        fst (students args context0 st) = Ok b ->
        exists rows0,
          items b = map (institute_of_student st) rows0
          /\ (forall s, In s rows0 ->
                        In s (tbl_students st)
                        /\ search_where (search args) student_name
                             student_email s = true)
          /\ StronglySorted
               (fun x y => String.leb (student_name x) (student_name y)
                           = true) rows0
          /\ (List.length rows0 <= Z.to_nat (limit b))%nat
          /\ 1 <= limit b <= 100 /\ 0 <= offset b
          /\ totalCount b
             = count_of (filter (search_where (search args) student_name
                                   student_email) (tbl_students st))
          /\ (hasMore b = true <-> offset b + limit b < totalCount b))
    /\ (forall b,
           fst (courses args context0 st) = Ok b ->
           (forall c, In c (items b) ->
                      In c (tbl_courses st)
                      /\ search_where (search args) course_title
                           course_code c = true)
           /\ StronglySorted
                (fun x y => String.leb (course_code x) (course_code y)
                            = true) (items b)
           /\ (List.length (items b) <= Z.to_nat (limit b))%nat
           /\ 1 <= limit b <= 100 /\ 0 <= offset b
           /\ totalCount b
              = count_of (filter (search_where (search args) course_title
                                    course_code) (tbl_courses st))
           /\ (hasMore b = true <-> offset b + limit b < totalCount b)).
Proof.
  intros args [[p |]] st; [| split; intros b H; discriminate H].
  pose proof (win_limit_nonzero (page args)) as [Hnz Hmax].
  split; intros b.
  - unfold students, requireAuth, findAndCountAll, select, bind,
      record_query, lift, read, ret.
    cbn -[window getPaginationParams paginate search_where].
    unfold ordered, ascending.
    set (L := win_limit (getPaginationParams (page args))) in *.
    set (O := win_offset (getPaginationParams (page args))) in *.
    clearbody L O.
    set (matching := filter _ (tbl_students st)).
    set (all := sort_by _ (unordered matching)).
    assert (Hperm : Permutation all matching)
    by (eapply perm_trans; [apply sort_by_perm | apply unordered_perm]).
    destruct (window_cases L O all) as [(Hl & Ho & ->) | [_ ->]];
      cbn -[paginate search_where]; [| discriminate].
    intros Hb. apply Ok_inj in Hb. subst b.
    assert (Hl1 : 1 <= L) by lia.
    change (Z.of_nat (List.length matching)) with (count_of matching).
    assert (Hcount : count_of matching = count_of all).
    { unfold count_of. now rewrite (Permutation_length Hperm). }
    destruct (page_shape (institute_of_student st) L O all Hl1 Ho)
      as (Hlen & Hmore & _).
    rewrite <- Hcount in Hlen, Hmore.
    exists (firstn (Z.to_nat L) (skipn (Z.to_nat O) all)).
    split; [reflexivity |].
    split.
    { intros s Hs. apply in_firstn, in_skipn in Hs.
      apply (Permutation_in _ Hperm) in Hs. apply filter_In in Hs.
      exact Hs. }
    split; [apply firstn_sorted, skipn_sorted, ascending_sorted |].
    split.
    { cbn [items limit paginate] in Hlen. rewrite length_map in Hlen.
      exact Hlen. }
    split; [exact (conj Hl1 Hmax) |].
    split; [exact Ho |]. split; [reflexivity | exact Hmore].
  - unfold courses, requireAuth, findAndCountAll, select, bind,
      record_query, lift, read, ret.
    cbn -[window getPaginationParams paginate search_where].
    unfold ordered, ascending.
    set (L := win_limit (getPaginationParams (page args))) in *.
    set (O := win_offset (getPaginationParams (page args))) in *.
    clearbody L O.
    set (matching := filter _ (tbl_courses st)).
    set (all := sort_by _ (unordered matching)).
    assert (Hperm : Permutation all matching)
    by (eapply perm_trans; [apply sort_by_perm | apply unordered_perm]).
    destruct (window_cases L O all) as [(Hl & Ho & ->) | [_ ->]];
      cbn -[paginate search_where]; [| discriminate].
    intros Hb. apply Ok_inj in Hb. subst b.
    assert (Hl1 : 1 <= L) by lia.
    change (Z.of_nat (List.length matching)) with (count_of matching).
    assert (Hcount : count_of matching = count_of all).
    { unfold count_of. now rewrite (Permutation_length Hperm). }
    destruct (page_shape (fun c : Course => c) L O all Hl1 Ho)
      as (Hlen & Hmore & _).
    rewrite map_id in Hlen, Hmore. rewrite <- Hcount in Hlen, Hmore.
    split.
    { intros c Hc. cbn [items paginate] in Hc.
      apply in_firstn, in_skipn in Hc.
      apply (Permutation_in _ Hperm) in Hc. apply filter_In in Hc.
      exact Hc. }
    split.
    { cbn [items paginate].
      apply firstn_sorted, skipn_sorted, ascending_sorted. }
    split; [exact Hlen |].
    split; [exact (conj Hl1 Hmax) |].
    split; [exact Ho |]. split; [reflexivity | exact Hmore].
Qed.

End StudentAndCoursePages.

(** X26, for the first two courses of the campus. *)
Lemma students_and_courses_pages_witness :
  exists b,
    fst (courses (ext := plain)
           {| page := {| arg_limit := given 2; arg_offset := undefined |};
              search := undefined |} a_student campus) = Ok b
    /\ (hasMore b = true <-> offset b + limit b < totalCount b).
Proof.
  eexists. split; [reflexivity |].
  apply (proj2 (students_and_courses_pages (ext := plain)
                  {| page := {| arg_limit := given 2;
                                arg_offset := undefined |};
                     search := undefined |} a_student campus) _ eq_refl).
Defined.

(** ** Updating an institute *)



